(** * Wisdom Circuits: the circuit context composer and content ingestion

    A shallow embedding of the server code that turns a circuit's
    pedagogical settings and its knowledge base into the system prompt of a
    chat turn ([OpenAIService.generateSystemPrompt], the
    [/api/circuit/:circuitId/chat] route), of the storage methods the
    composer reads ([DatabaseStorage.getCircuitContent] and friends) and of
    the two ingestion routes ([/api/transcribe],
    [/api/circuit-content/:circuitId]).

    JavaScript strings are [string]; arrays are lists; a nullable column is
    an [option]; a database table is the list of its rows in the order a
    [select] without [orderBy] returns them.  What the outside world decides
    (the database clock, where the database stores a new row, how a call to
    OpenAI settles) enters the functions as arguments. *)

From Stdlib Require Import String Ascii List Bool Arith NArith Lia.
From Stdlib Require Import Permutation Sorted DecimalString.
Import ListNotations.
Open Scope string_scope.

Set Implicit Arguments.

(** ** JavaScript helpers *)

(** The line feed of a template literal that spans lines. *)
Definition nl : string := String "010"%char EmptyString.

(** [Boolean(s)] for a string: every string but the empty one is truthy. *)
Definition truthy (s : string) : bool := negb (s =? "").

(** [a || b] on strings. *)
Definition orElse (a b : string) : string := if truthy a then a else b.

(** [Boolean(v)] for a value of type [string | null | undefined]. *)
Definition truthyOpt (v : option string) : bool :=
  match v with
  | Some s => truthy s
  | None => false
  end.

(** [a || b] where both sides are [string | null]. *)
Definition orElseOpt (a b : option string) : option string :=
  if truthyOpt a then a else b.

(** A [string | null] value interpolated into a template literal. *)
Definition interpolate (v : option string) : string :=
  match v with
  | Some s => s
  | None => "null"
  end.

(** [arr.join(sep)] on an array of strings. *)
Definition join (sep : string) (arr : list string) : string :=
  String.concat sep arr.

(** ** Schema rows (shared/schema.ts) *)

Record WisdomCircuit := {
  wc_id : nat;
  wc_code : string;
  wc_name : string;
  wc_grade : string;
  wc_teacherId : nat;
  wc_teacherName : string;
  wc_description : string;
  wc_teachingStyles : list string;
  wc_homeworkPolicies : list string;
  wc_responseTypes : list string;
  wc_stateAlignment : string;
  wc_isArchived : bool;
  wc_createdAt : nat
}.

Record CircuitContent := {
  cc_id : nat;
  cc_circuitId : nat;
  cc_title : string;
  cc_description : option string;
  cc_fileType : string;
  cc_contentUrl : string;
  cc_category : string;
  cc_content : option string;
  cc_uploadedAt : nat;
  cc_isArchived : bool
}.

(** ** Configuration mapper and prompt composer (services/openai-service.ts) *)

Record CircuitContext := {
  ctx_circuit : WisdomCircuit;
  ctx_teachingStyles : list string;
  ctx_homeworkPolicies : list string;
  ctx_responseTypes : list string;
  ctx_stateAlignment : string;
  ctx_uploadedContent : option (list string)
}.

(** The three [switch] tables; [default] returns the empty string. *)
Definition teachingStyleClause (style : string) : string :=
  if style =? "authority" then "direct and structured instruction"
  else if style =? "demonstrator" then "demonstration and guided practice"
  else if style =? "facilitator" then "guided inquiry and discussion"
  else if style =? "delegator" then "independent learning and group work"
  else if style =? "hybrid" then "flexible combination of teaching methods"
  else "".

Definition homeworkPolicyClause (policy : string) : string :=
  if policy =? "guide" then "provide guidance without direct solutions"
  else if policy =? "verify" then "verify and confirm answer correctness"
  else if policy =? "examples" then "offer relevant examples"
  else if policy =? "no_solutions" then "encourage independent problem-solving"
  else "".

Definition responseTypeClause (type : string) : string :=
  if type =? "detailed" then "provide comprehensive explanations"
  else if type =? "concise" then "give brief, focused answers"
  else if type =? "step_by_step" then "break down concepts into clear steps"
  else if type =? "conceptual" then "emphasize underlying principles"
  else "".

(** [tags.map(clause).filter(Boolean)]: the clauses, before they are joined. *)
Definition clauses (clause : string -> string) (tags : list string) : list string :=
  filter truthy (map clause tags).

(** [tags.map(clause).filter(Boolean).join(', ')] *)
Definition describe (clause : string -> string) (tags : list string) : string :=
  join ", " (clauses clause tags).

Definition teachingStyleDesc (context : CircuitContext) : string :=
  describe teachingStyleClause (ctx_teachingStyles context).

Definition homeworkApproach (context : CircuitContext) : string :=
  describe homeworkPolicyClause (ctx_homeworkPolicies context).

Definition responseStyle (context : CircuitContext) : string :=
  describe responseTypeClause (ctx_responseTypes context).

Definition gradeLevel (context : CircuitContext) : string :=
  if wc_grade (ctx_circuit context) =? "K" then "Kindergarten"
  else "Grade " ++ wc_grade (ctx_circuit context).

Definition placeholder : string := "No specific content uploaded yet.".

(** The interpolation under the [Knowledge Base:] header:
    [context.uploadedContent ? context.uploadedContent.join('\n') : '...'].
    An array is truthy whatever its length; only [undefined] is falsy. *)
Definition knowledgeBase (context : CircuitContext) : string :=
  match ctx_uploadedContent context with
  | Some uploaded => join nl uploaded
  | None => placeholder
  end.

(** The template literal up to and including the [Knowledge Base:] line. *)
Definition promptHead (context : CircuitContext) : string :=
  "You are an educational AI assistant for " ++ gradeLevel context
    ++ " students, specializing in " ++ wc_name (ctx_circuit context) ++ "." ++ nl
  ++ "Teaching Approach: Utilize " ++ teachingStyleDesc context ++ "." ++ nl
  ++ "Homework Guidance: " ++ homeworkApproach context ++ "." ++ nl
  ++ "Communication Style: " ++ responseStyle context ++ "." ++ nl
  ++ "State Alignment: Follow " ++ ctx_stateAlignment context
    ++ " educational standards." ++ nl
  ++ nl
  ++ "Key Guidelines:" ++ nl
  ++ "1. Always communicate at a " ++ gradeLevel context ++ " comprehension level" ++ nl
  ++ "2. Use age-appropriate examples and analogies" ++ nl
  ++ "3. Maintain a supportive and encouraging tone" ++ nl
  ++ "4. Follow the specified teaching styles and response formats" ++ nl
  ++ "5. Reference relevant uploaded content when applicable" ++ nl
  ++ nl
  ++ "Knowledge Base:" ++ nl.

(** The template literal after the knowledge base. *)
Definition promptTail (context : CircuitContext) : string :=
  nl
  ++ nl
  ++ "Remember to:" ++ nl
  ++ "- Keep explanations appropriate for " ++ gradeLevel context ++ " students" ++ nl
  ++ "- Use the teaching styles specified: " ++ teachingStyleDesc context ++ nl
  ++ "- Follow the homework policy: " ++ homeworkApproach context ++ nl
  ++ "- Maintain the response style: " ++ responseStyle context.

Definition generateSystemPrompt (context : CircuitContext) : string :=
  promptHead context ++ knowledgeBase context ++ promptTail context.

(** ** Storage (storage.ts)

    The two tables the composer touches.  A table has no order of its own:
    a [select] or [update ... returning] without [orderBy] yields the rows
    in the order the database stores them, and an [insert] puts the new row
    where the database finds room, after the last row or in a place that a
    deleted row left free.  The list is that storage order and the place of
    a new row is the [slot] argument of the insert; ids come from the
    table's [serial] sequence. *)

Record Store := {
  wisdomCircuits : list WisdomCircuit;
  circuitContent : list CircuitContent;
  circuitContentSeq : nat
}.

(** What can be thrown: a [ZodError] with its issues, an [Error] that
    carries a [status] property (the OpenAI client's errors; the status
    itself may be [undefined]), any other [Error], or a value that is not
    an [Error] at all. *)
Inductive Thrown : Type :=
| ZodError (errors : list string)
| ApiError (status : option nat) (message : string)
| PlainError (message : string)
| NotAnError.

(** What a promise settles to. *)
Inductive Outcome (A : Type) : Type :=
| Resolved (value : A)
| Rejected (error : Thrown).

Arguments Resolved {A} value.
Arguments Rejected {A} error.

(** The object handed to [createCircuitContent].  Its static type omits
    [id], [isArchived] and [uploadedAt]; [ins_isArchived] is the
    [isArchived] key such an object may still carry when it was not built
    by the insert schema. *)
Record InsertCircuitContent := {
  ins_circuitId : nat;
  ins_title : string;
  ins_description : option string;
  ins_fileType : string;
  ins_contentUrl : string;
  ins_category : string;
  ins_content : option string;
  ins_isArchived : option bool
}.

(** [{ ...content, isArchived: false }] *)
Definition insertValues (content : InsertCircuitContent) : InsertCircuitContent :=
  {| ins_circuitId := ins_circuitId content;
     ins_title := ins_title content;
     ins_description := ins_description content;
     ins_fileType := ins_fileType content;
     ins_contentUrl := ins_contentUrl content;
     ins_category := ins_category content;
     ins_content := ins_content content;
     ins_isArchived := Some false |}.

(** The row the database builds from the inserted values: [id] from the
    sequence, [uploaded_at] from [defaultNow()], [is_archived] defaulting
    to [false]. *)
Definition insertedRow (id now : nat) (values : InsertCircuitContent) : CircuitContent :=
  {| cc_id := id;
     cc_circuitId := ins_circuitId values;
     cc_title := ins_title values;
     cc_description := ins_description values;
     cc_fileType := ins_fileType values;
     cc_contentUrl := ins_contentUrl values;
     cc_category := ins_category values;
     cc_content := ins_content values;
     cc_uploadedAt := now;
     cc_isArchived := match ins_isArchived values with
                      | Some b => b
                      | None => false
                      end |}.

(** The table with a new row stored at place [slot] (last when [slot] is
    at least the number of rows). *)
Definition insertAt (A : Type) (slot : nat) (row : A) (table : list A) : list A :=
  firstn slot table ++ row :: skipn slot table.

Definition getWisdomCircuit (id : nat) (s : Store) : option WisdomCircuit :=
  find (fun c => (wc_id c =? id)%nat) (wisdomCircuits s).

(** [circuit_id] references [wisdom_circuits.id]: an insert for a circuit
    that does not exist is refused by the database, the method rethrows.
    The sequence has advanced by then. *)
Definition createCircuitContent (content : InsertCircuitContent) (now slot : nat)
    (s : Store) : Outcome CircuitContent * Store :=
  let id := S (circuitContentSeq s) in
  let newContent := insertedRow id now (insertValues content) in
  match getWisdomCircuit (ins_circuitId content) s with
  | Some _ =>
      (Resolved newContent,
       {| wisdomCircuits := wisdomCircuits s;
          circuitContent := insertAt slot newContent (circuitContent s);
          circuitContentSeq := id |})
  | None =>
      (Rejected (PlainError "violates foreign key constraint"),
       {| wisdomCircuits := wisdomCircuits s;
          circuitContent := circuitContent s;
          circuitContentSeq := id |})
  end.

(** [where(and(eq(circuitId, circuitId), eq(isArchived, false)))] *)
Definition isActiveIn (circuitId : nat) (c : CircuitContent) : bool :=
  (cc_circuitId c =? circuitId)%nat && Bool.eqb (cc_isArchived c) false.

Definition getCircuitContent (circuitId : nat) (s : Store) : list CircuitContent :=
  filter (isActiveIn circuitId) (circuitContent s).

(** [const [content] = await db.select()...where(eq(id, id))] *)
Definition getCircuitContentById (id : nat) (s : Store) : option CircuitContent :=
  hd_error (filter (fun c => (cc_id c =? id)%nat) (circuitContent s)).

(** [.set({ isArchived: true })] on one row. *)
Definition setArchived (c : CircuitContent) : CircuitContent :=
  {| cc_id := cc_id c;
     cc_circuitId := cc_circuitId c;
     cc_title := cc_title c;
     cc_description := cc_description c;
     cc_fileType := cc_fileType c;
     cc_contentUrl := cc_contentUrl c;
     cc_category := cc_category c;
     cc_content := cc_content c;
     cc_uploadedAt := cc_uploadedAt c;
     cc_isArchived := true |}.

(** [update(circuitContent).set({ isArchived: true }).where(eq(id, id))
    .returning()], of which the first row (or [undefined]) is returned.
    The row is archived from then on and no [select] of the program
    returns archived content in a list, so the place the database gives
    the updated row is not read anywhere: it is kept where it was. *)
Definition archiveCircuitContent (id : nat) (s : Store)
  : option CircuitContent * Store :=
  (hd_error (map setArchived (filter (fun c => (cc_id c =? id)%nat) (circuitContent s))),
   {| wisdomCircuits := wisdomCircuits s;
      circuitContent :=
        map (fun c => if (cc_id c =? id)%nat then setArchived c else c) (circuitContent s);
      circuitContentSeq := circuitContentSeq s |}).

(** [insert(wisdomCircuits).values(...).returning()], as the storage method
    and the create route do it; [circuit] is the row the database returns. *)
Definition createWisdomCircuit (circuit : WisdomCircuit) (s : Store) : Store :=
  {| wisdomCircuits := wisdomCircuits s ++ [circuit];
     circuitContent := circuitContent s;
     circuitContentSeq := circuitContentSeq s |}.

Definition setCircuitArchived (flag : bool) (c : WisdomCircuit) : WisdomCircuit :=
  {| wc_id := wc_id c;
     wc_code := wc_code c;
     wc_name := wc_name c;
     wc_grade := wc_grade c;
     wc_teacherId := wc_teacherId c;
     wc_teacherName := wc_teacherName c;
     wc_description := wc_description c;
     wc_teachingStyles := wc_teachingStyles c;
     wc_homeworkPolicies := wc_homeworkPolicies c;
     wc_responseTypes := wc_responseTypes c;
     wc_stateAlignment := wc_stateAlignment c;
     wc_isArchived := flag;
     wc_createdAt := wc_createdAt c |}.

(** The [update(wisdomCircuits).set({ isArchived })] of
    [archiveWisdomCircuit] ([flag] true) and [unarchiveWisdomCircuit]
    ([flag] false).  The database writes a new version of the row where it
    finds room: the rows it did not touch keep their order, and a select
    without [orderBy] reads the updated row at place [slot] among them
    (last when [slot] is at least their number). *)
Definition updateCircuitArchived (flag : bool) (id slot : nat) (s : Store) : Store :=
  let updated :=
    map (setCircuitArchived flag)
      (filter (fun c => (wc_id c =? id)%nat) (wisdomCircuits s)) in
  let others := filter (fun c => negb (wc_id c =? id)%nat) (wisdomCircuits s) in
  {| wisdomCircuits := firstn slot others ++ updated ++ skipn slot others;
     circuitContent := circuitContent s;
     circuitContentSeq := circuitContentSeq s |}.

Definition archiveWisdomCircuit (id slot : nat) (s : Store)
  : Outcome WisdomCircuit * Store :=
  match getWisdomCircuit id s with
  | Some circuit =>
      (Resolved (setCircuitArchived true circuit), updateCircuitArchived true id slot s)
  | None => (Rejected (PlainError "Circuit not found"), s)
  end.

Definition unarchiveWisdomCircuit (id slot : nat) (s : Store)
  : option WisdomCircuit * Store :=
  (option_map (setCircuitArchived false) (getWisdomCircuit id s),
   updateCircuitArchived false id slot s).

(** Deletes the circuit's content rows, then the circuit; throws when no
    circuit row was deleted (the content rows are gone by then).  The
    [circuit_prompts] table is not part of the store. *)
Definition deleteWisdomCircuit (id : nat) (s : Store)
  : Outcome WisdomCircuit * Store :=
  let s' :=
    {| wisdomCircuits := filter (fun c => negb (wc_id c =? id)%nat) (wisdomCircuits s);
       circuitContent := filter (fun c => negb (cc_circuitId c =? id)%nat) (circuitContent s);
       circuitContentSeq := circuitContentSeq s |} in
  match getWisdomCircuit id s with
  | Some circuit => (Resolved circuit, s')
  | None => (Rejected (PlainError "Circuit not found"), s')
  end.

(** ** The chat route (routes/circuit-chat.ts) *)

(** [`${c.title}:\n${c.content || c.description}`] *)
Definition renderExcerpt (c : CircuitContent) : string :=
  cc_title c ++ ":" ++ nl ++ interpolate (orElseOpt (cc_content c) (cc_description c)).

Definition processedContent (circuitId : nat) (s : Store) : list string :=
  map renderExcerpt (getCircuitContent circuitId s).

(** The [context] object literal of the route.  The three settings columns
    are [jsonb ... notNull()] arrays, so [circuit.x || []] is [circuit.x]. *)
Definition chatContext (circuit : WisdomCircuit) (processed : list string) : CircuitContext :=
  {| ctx_circuit := circuit;
     ctx_teachingStyles := wc_teachingStyles circuit;
     ctx_homeworkPolicies := wc_homeworkPolicies circuit;
     ctx_responseTypes := wc_responseTypes circuit;
     ctx_stateAlignment := orElse (wc_stateAlignment circuit) "General";
     ctx_uploadedContent := Some processed |}.

(** The context the route builds for a circuit id, [None] when the circuit
    is not found (the route answers 404 and composes nothing). *)
Definition composeContext (circuitId : nat) (s : Store) : option CircuitContext :=
  match getWisdomCircuit circuitId s with
  | Some circuit => Some (chatContext circuit (processedContent circuitId s))
  | None => None
  end.

(** The system prompt of a chat turn on circuit [circuitId]. *)
Definition composePrompt (circuitId : nat) (s : Store) : option string :=
  option_map generateSystemPrompt (composeContext circuitId s).

(** ** The model boundary (services/openai-service.ts) *)

Record ChatMessage := {
  role : string;
  content : string
}.

(** The argument of [openai.chat.completions.create]; the temperature 0.7
    is kept in tenths. *)
Record ChatRequest := {
  model : string;
  messages : list ChatMessage;
  temperatureTenths : nat;
  max_tokens : nat
}.

(** [response.choices], each choice reduced to its [message.content]
    ([string | null]). *)
Definition ChatCompletion : Type := list (option string).

Definition apology : string :=
  "I apologize, but I couldn't generate a response. Please try rephrasing your question.".

Definition chatRequest (message : string) (context : CircuitContext) : ChatRequest :=
  {| model := "gpt-4o";
     messages := [ {| role := "system"; content := generateSystemPrompt context |};
                   {| role := "user"; content := message |} ];
     temperatureTenths := 7;
     max_tokens := 500 |}.

Section ModelBoundary.

(** The external call [openai.chat.completions.create]. *)
Variable createCompletion : ChatRequest -> Outcome ChatCompletion.

(** Whatever is thrown inside the [try], the rejected call or the
    [TypeError] of [choices[0].message] on an empty [choices], is caught
    and replaced by one fixed error. *)
Definition processChatMessage (message : string) (context : CircuitContext)
  : Outcome string :=
  match createCompletion (chatRequest message context) with
  | Resolved (Some reply :: _) => Resolved (orElse reply apology)
  | Resolved (None :: _) => Resolved apology
  | Resolved [] | Rejected _ =>
      Rejected (PlainError "Failed to process your message. Please try again later.")
  end.

End ModelBoundary.

(** ** HTTP plumbing (routes.ts, routes/circuit-chat.ts) *)

(** [req.isAuthenticated()] and [req.user.isTeacher]. *)
Record Session := {
  isAuthenticated : bool;
  isTeacher : bool
}.

Definition teacherOnly (session : Session) : bool :=
  isAuthenticated session && isTeacher session.

(** The JSON bodies the routes send. *)
Inductive Body : Type :=
| BodyContent (saved : CircuitContent)
| BodyArchived (archived : option CircuitContent)
| BodyResponse (response : string)
| BodyError (error : string)
| BodyMessage (message : string)
| BodyMessageStatus (message : string) (status : option nat)
| BodyMessageError (message : string) (error : string)
| BodyInvalid (message : string) (errors : list string).

Record Response := {
  res_status : nat;
  res_body : Body
}.

Definition json (body : Body) : Response := {| res_status := 200; res_body := body |}.
Definition status (code : nat) (body : Body) : Response :=
  {| res_status := code; res_body := body |}.

(** [router.post("/api/circuit/:circuitId/chat", ...)], the router being
    mounted under [/api].  [chat_circuitId] is
    [parseInt(req.params.circuitId)], [None] for [NaN], which the database
    refuses as an integer. *)
Record ChatTurn := {
  chat_circuitId : option nat;
  chat_message : option string
}.

Definition chatRoute (createCompletion : ChatRequest -> Outcome ChatCompletion)
    (req : ChatTurn) (s : Store) : Response :=
  let failed := status 500 (BodyError "Failed to process chat message") in
  let required := status 400 (BodyError "Message is required") in
  match chat_message req with
  | None => required
  | Some message =>
      if negb (truthy message) then required
      else
        match chat_circuitId req with
        | None => failed
        | Some circuitId =>
            match composeContext circuitId s with
            | None => status 404 (BodyError "Circuit not found")
            | Some context =>
                match processChatMessage createCompletion message context with
                | Resolved response => json (BodyResponse response)
                | Rejected _ => failed
                end
            end
        end
  end.

(** ** Content ingestion (routes.ts) *)

(** The file object multer attaches to the request. *)
Record UploadedFile := {
  originalname : string;
  mimetype : string;
  filename : string;
  path : string
}.

(** The object literal validated by [insertCircuitContentSchema]. *)
Record ContentData := {
  cd_circuitId : nat;
  cd_title : string;
  cd_description : string;
  cd_contentUrl : string;
  cd_fileType : string;
  cd_category : string;
  cd_content : string
}.

Definition fileTypes : list string := ["pdf"; "docx"; "txt"; "pptx"; "transcript"].

Definition categories : list string :=
  ["syllabus"; "worksheet"; "pacing_guide"; "lesson_plan"; "reference_material";
   "transcript"].

Definition oneOf (allowed : list string) (v : string) : bool :=
  existsb (String.eqb v) allowed.

(** [insertCircuitContentSchema.parse]: a title of at least one character,
    an enumerated file type and category; the parsed object has the
    schema's keys only. *)
Definition parseInsertCircuitContent (data : ContentData) : Outcome InsertCircuitContent :=
  if (1 <=? String.length (cd_title data))%nat
     && oneOf fileTypes (cd_fileType data)
     && oneOf categories (cd_category data)
  then Resolved {| ins_circuitId := cd_circuitId data;
                   ins_title := cd_title data;
                   ins_description := Some (cd_description data);
                   ins_fileType := cd_fileType data;
                   ins_contentUrl := cd_contentUrl data;
                   ins_category := cd_category data;
                   ins_content := Some (cd_content data);
                   ins_isArchived := None |}
  else Rejected (ZodError ["Invalid content data"]).

(** *** [POST /api/transcribe] *)

Record TranscribeRequest := {
  tr_session : Session;
  tr_file : option UploadedFile;
  (** [parseInt(req.body.circuitId)], [None] for [NaN]; a negative number
      is an id that no circuit has *)
  tr_circuitId : option nat
}.

(** What the world supplies to one transcription request: whether the API
    key is configured, how [openai.audio.transcriptions.create] settles
    (its [text] on success), [new Date().toLocaleString()], the database
    clock and the place the database gives a new row. *)
Record TranscribeEnv := {
  te_apiKey : bool;
  te_transcription : Outcome string;
  te_localeString : string;
  te_now : nat;
  te_slot : nat
}.

(** [apiError.status === code] *)
Definition statusIs (code : nat) (status : option nat) : bool :=
  match status with
  | Some n => (n =? code)%nat
  | None => false
  end.

(** The [catch] block of the transcription route. *)
Definition transcribeCatch (error : Thrown) : Response :=
  match error with
  | ZodError errors => status 400 (BodyInvalid "Invalid content data" errors)
  | ApiError code message =>
      if statusIs 401 code then
        status 500
          (BodyMessage
             "Authentication error with transcription service. Please check API key.")
      else
        status 500
          (BodyMessageStatus ("OpenAI API error: " ++ orElse message "Unknown error") code)
  | PlainError message =>
      status 500
        (BodyMessageError "Failed to process audio recording. Please try again." message)
  | NotAnError =>
      status 500
        (BodyMessageError "Failed to process audio recording. Please try again."
           "Unknown error")
  end.

Definition transcriptData (circuitId : nat) (localeString text : string) : ContentData :=
  {| cd_circuitId := circuitId;
     cd_title := "Class Recording Transcript - " ++ localeString;
     cd_description := "Automatically generated transcript from class recording";
     cd_contentUrl := "";
     cd_fileType := "txt";
     cd_category := "transcript";
     cd_content := text |}.

Definition transcribeRoute (env : TranscribeEnv) (req : TranscribeRequest) (s : Store)
  : Response * Store :=
  if negb (teacherOnly (tr_session req)) then
    (status 403 (BodyMessage "Only teachers can upload recordings"), s)
  else
    match tr_file req with
    | None => (status 400 (BodyMessage "No audio file provided"), s)
    | Some _ =>
        match tr_circuitId req with
        | None => (status 400 (BodyMessage "Invalid circuit ID"), s)
        | Some circuitId =>
            if negb (te_apiKey env) then
              (status 500
                 (BodyMessage
                    "Transcription service is not configured. Please contact support."), s)
            else
              match te_transcription env with
              | Rejected error => (transcribeCatch error, s)
              | Resolved text =>
                  match parseInsertCircuitContent
                          (transcriptData circuitId (te_localeString env) text) with
                  | Rejected error => (transcribeCatch error, s)
                  | Resolved validatedContent =>
                      match createCircuitContent validatedContent (te_now env)
                              (te_slot env) s with
                      | (Resolved saved, s') => (json (BodyContent saved), s')
                      | (Rejected error, s') => (transcribeCatch error, s')
                      end
                  end
              end
        end
    end.

(** *** [POST /api/circuit-content/:circuitId] *)

Record UploadRequest := {
  up_session : Session;
  (** [parseInt(req.params.circuitId)], [None] for [NaN] *)
  up_circuitId : option nat;
  up_file : option UploadedFile;
  up_title : option string;
  up_description : option string;
  up_category : option string
}.

(** The reply of the [fetch] to the transcription endpoint: its HTTP status
    and how [response.json()] settles, reduced to the [text] key of the
    parsed body ([None] when the key is missing). *)
Record FetchResponse := {
  fr_status : nat;
  fr_json : Outcome (option string)
}.

(** [response.ok]: a status in the range 200-299. *)
Definition ok (response : FetchResponse) : bool :=
  ((200 <=? fr_status response) && (fr_status response <=? 299))%nat.

(** What the world supplies to one upload: how reading the stored file
    settles, how the [fetch] settles, the database clock and the place the
    database gives a new row. *)
Record UploadEnv := {
  ue_readFile : Outcome string;
  ue_fetch : Outcome FetchResponse;
  ue_now : nat;
  ue_slot : nat
}.

(** The [switch] on the lower-cased extension; [None] is the [default]
    branch. *)
Definition fileTypeOf (fileExtension : string) : option string :=
  if fileExtension =? ".pdf" then Some "pdf"
  else if (fileExtension =? ".doc") || (fileExtension =? ".docx") then Some "docx"
  else if fileExtension =? ".txt" then Some "txt"
  else if (fileExtension =? ".ppt") || (fileExtension =? ".pptx") then Some "pptx"
  else None.

(** The inner [try] of the PDF branch: the value of [content] after it.
    [None] stands for [undefined] ([result.text] missing). *)
Definition extractPdf (env : UploadEnv) : option string :=
  match ue_readFile env with
  | Rejected _ => Some ""
  | Resolved _ =>
      match ue_fetch env with
      | Rejected _ => Some ""
      | Resolved response =>
          if ok response then
            match fr_json response with
            | Resolved text => text
            | Rejected _ => Some ""
            end
          else Some ""
      end
  end.

(** The [req.body.x || fallback] of the upload's object literal. *)
Definition bodyOr (field : option string) (fallback : string) : string :=
  match field with
  | Some value => orElse value fallback
  | None => fallback
  end.

Definition uploadData (circuitId : nat) (req : UploadRequest) (file : UploadedFile)
    (fileType : string) (extracted : option string) : ContentData :=
  {| cd_circuitId := circuitId;
     cd_title := bodyOr (up_title req) (originalname file);
     cd_description := bodyOr (up_description req) "";
     cd_contentUrl := "/uploads/" ++ filename file;
     cd_fileType := fileType;
     cd_category := bodyOr (up_category req) "reference_material";
     cd_content := bodyOr extracted "" |}.

Section Upload.

(** [path.extname(name).toLowerCase()], from Node's [path] module. *)
Variable lowerExtname : string -> string.

Definition uploadRoute (env : UploadEnv) (req : UploadRequest) (s : Store)
  : Response * Store :=
  let failed := status 500 (BodyMessage "Failed to upload content") in
  if negb (teacherOnly (up_session req)) then
    (status 403 (BodyMessage "Only teachers can upload content"), s)
  else
    match up_circuitId req with
    | None => (status 400 (BodyMessage "Invalid circuit ID"), s)
    | Some circuitId =>
        match up_file req with
        | None => (status 400 (BodyMessage "No file uploaded"), s)
        | Some file =>
            match fileTypeOf (lowerExtname (originalname file)) with
            | None => (status 400 (BodyMessage "Unsupported file type"), s)
            | Some fileType =>
                let extraction : Outcome (option string) :=
                  if fileType =? "txt" then
                    match ue_readFile env with
                    | Resolved text => Resolved (Some text)
                    | Rejected error => Rejected error
                    end
                  else if fileType =? "pdf" then Resolved (extractPdf env)
                  else Resolved (Some "") in
                match extraction with
                | Rejected _ => (failed, s)
                | Resolved extracted =>
                    match parseInsertCircuitContent
                            (uploadData circuitId req file fileType extracted) with
                    | Rejected (ZodError errors) =>
                        (status 400 (BodyInvalid "Invalid content data" errors), s)
                    | Rejected _ => (failed, s)
                    | Resolved validatedContent =>
                        match createCircuitContent validatedContent (ue_now env)
                                (ue_slot env) s with
                        | (Resolved savedContent, s') => (json (BodyContent savedContent), s')
                        | (Rejected (ZodError errors), s') =>
                            (status 400 (BodyInvalid "Invalid content data" errors), s')
                        | (Rejected _, s') => (failed, s')
                        end
                    end
                end
            end
        end
    end.

End Upload.

(** *** [DELETE /api/circuit-content/:id] *)

Record ArchiveRequest := {
  ar_session : Session;
  (** [parseInt(req.params.id)], [None] for [NaN] *)
  ar_id : option nat
}.

Definition archiveRoute (req : ArchiveRequest) (s : Store) : Response * Store :=
  if negb (teacherOnly (ar_session req)) then
    (status 403 (BodyMessage "Only teachers can delete content"), s)
  else
    match ar_id req with
    | None => (status 500 (BodyMessage "Failed to delete content"), s)
    | Some id =>
        let (archived, s') := archiveCircuitContent id s in
        (json (BodyArchived archived), s')
    end.

(** ** Histories

    The writes that reach the two tables, in the order they are served. *)

Inductive Event : Type :=
| CircuitCreated (circuit : WisdomCircuit)
| CircuitArchived (id slot : nat)
| CircuitUnarchived (id slot : nat)
| CircuitDeleted (id : nat)
| Transcribed (env : TranscribeEnv) (req : TranscribeRequest)
| Uploaded (env : UploadEnv) (req : UploadRequest)
| ContentArchived (req : ArchiveRequest).

Definition emptyStore : Store :=
  {| wisdomCircuits := []; circuitContent := []; circuitContentSeq := 0 |}.

Section Histories.

Variable lowerExtname : string -> string.

Definition serve (s : Store) (e : Event) : Store :=
  match e with
  | CircuitCreated circuit => createWisdomCircuit circuit s
  | CircuitArchived id slot => snd (archiveWisdomCircuit id slot s)
  | CircuitUnarchived id slot => snd (unarchiveWisdomCircuit id slot s)
  | CircuitDeleted id => snd (deleteWisdomCircuit id s)
  | Transcribed env req => snd (transcribeRoute env req s)
  | Uploaded env req => snd (uploadRoute lowerExtname env req s)
  | ContentArchived req => snd (archiveRoute req s)
  end.

Definition replay (history : list Event) (s : Store) : Store :=
  fold_left serve history s.

(** The store can be reached from the empty database. *)
Definition reachable (s : Store) : Prop :=
  exists history, replay history emptyStore = s.

(** The database clock and the place it would give a new row, for the
    events that insert content. *)
Definition insertion (e : Event) : option (nat * nat) :=
  match e with
  | Transcribed env _ => Some (te_now env, te_slot env)
  | Uploaded env _ => Some (ue_now env, ue_slot env)
  | _ => None
  end.

(** An insert served on [s] goes after the last row and is not stamped
    earlier than a row already stored. *)
Definition inOrder (s : Store) (e : Event) : Prop :=
  match insertion e with
  | Some (now, slot) =>
      length (circuitContent s) <= slot
      /\ Forall (fun c => cc_uploadedAt c <= now) (circuitContent s)
  | None => True
  end.

(** Every insert of the history, served from [s] on, is [inOrder]. *)
Fixpoint insertionOrdered (history : list Event) (s : Store) : Prop :=
  match history with
  | [] => True
  | e :: rest => inOrder s e /\ insertionOrdered rest (serve s e)
  end.

End Histories.

(** ** Statements and example data

    Definitions the properties below are stated with. *)

(** Two sentences put one after the other, with the separator between them
    when neither is empty. *)
Definition sentences (a b : string) : string :=
  if truthy a then (if truthy b then a ++ ", " ++ b else a) else b.

(** The claim as the specification words it: the sentence depends on the
    set of tags only, not on the order of the array. *)
Definition orderInsensitive (clause : string -> string) : Prop :=
  forall tags1 tags2 : list string,
    Permutation tags1 tags2 -> describe clause tags1 = describe clause tags2.

(** A circuit row with the default settings of the schema. *)
Definition circuitRow (id : nat) (name grade : string) : WisdomCircuit :=
  {| wc_id := id; wc_code := "AB12CD34"; wc_name := name;
     wc_grade := grade; wc_teacherId := 7; wc_teacherName := "Ms. Rivera";
     wc_description := "Numbers up to twenty";
     wc_teachingStyles := ["hybrid"];
     wc_homeworkPolicies := ["guide"];
     wc_responseTypes := ["detailed"];
     wc_stateAlignment := "California";
     wc_isArchived := false; wc_createdAt := 1000 |}.

(** Scenario A of the specification: a kindergarten circuit with the
    default settings and no content. *)
Definition scenarioA : Store :=
  {| wisdomCircuits := [circuitRow 1 "Counting" "K"];
     circuitContent := [];
     circuitContentSeq := 0 |}.

(** Not uploaded later. *)
Definition byStamp (a b : CircuitContent) : Prop := cc_uploadedAt a <= cc_uploadedAt b.

(** The claim of C3 as the specification words it: the active items of a
    circuit come oldest first. *)
Definition oldestFirst (circuitId : nat) (s : Store) : Prop :=
  StronglySorted byStamp (getCircuitContent circuitId s).

(** The rows of a table other than the one with id [id], in table order. *)
Definition without (id : nat) (items : list CircuitContent) : list CircuitContent :=
  filter (fun c => negb (cc_id c =? id)%nat) items.

(** An instance of [path.extname(name).toLowerCase()] for the examples:
    the text from the last dot of a plain file name on, with the letters
    A-Z lower-cased. *)
Definition lowerAscii (ch : ascii) : ascii :=
  let n := nat_of_ascii ch in
  if ((65 <=? n) && (n <=? 90))%nat then ascii_of_nat (n + 32) else ch.

Fixpoint lowerCase (s : string) : string :=
  match s with
  | EmptyString => EmptyString
  | String ch rest => String (lowerAscii ch) (lowerCase rest)
  end.

Fixpoint fromLastDot (name : string) : option string :=
  match name with
  | EmptyString => None
  | String ch rest =>
      match fromLastDot rest with
      | Some extension => Some extension
      | None => if Ascii.eqb ch "."%char then Some name else None
      end
  end.

Definition plainLowerExtname (name : string) : string :=
  match fromLastDot name with
  | Some extension => lowerCase extension
  | None => ""
  end.

Definition teacher : Session := {| isAuthenticated := true; isTeacher := true |}.

Definition recording : UploadedFile :=
  {| originalname := "lesson.webm"; mimetype := "audio/webm";
     filename := "audio-1700000000000-42.webm";
     path := "uploads/audio-1700000000000-42.webm" |}.

(** A transcription that succeeds with [text], stamped [now] and stored at
    place [slot]. *)
Definition heard (text : string) (now slot : nat) : TranscribeEnv :=
  {| te_apiKey := true;
     te_transcription := Resolved text;
     te_localeString := "11/2/2026, 9:00:00 AM";
     te_now := now;
     te_slot := slot |}.

Definition transcribeFor (circuitId : nat) : TranscribeRequest :=
  {| tr_session := teacher; tr_file := Some recording; tr_circuitId := Some circuitId |}.

(** Two recordings for circuit 1, the second made after another circuit
    and its recording were deleted: the database stores the new row in the
    place the deleted row left free, in front of the first recording. *)
Definition reusedPlace : list Event :=
  [ CircuitCreated (circuitRow 9 "Shapes" "2");
    Transcribed (heard "circle square" 1000 0) (transcribeFor 9);
    CircuitCreated (circuitRow 1 "Counting" "K");
    Transcribed (heard "one two three" 2000 1) (transcribeFor 1);
    CircuitDeleted 9;
    Transcribed (heard "four five six" 3000 0) (transcribeFor 1) ].

(** Two recordings for circuit 1, each stored after the rows already
    there. *)
Definition twoRecordings : list Event :=
  [ CircuitCreated (circuitRow 1 "Counting" "K");
    Transcribed (heard "one two three" 2000 0) (transcribeFor 1);
    Transcribed (heard "four five six" 3000 1) (transcribeFor 1) ].

(** The rows an insert route stores come out of the insert schema. *)
Definition validatedRow (row : CircuitContent) (now : nat) : Prop :=
  exists id data validated,
    parseInsertCircuitContent data = Resolved validated
    /\ row = insertedRow id now (insertValues validated).



(** What the composer reads of a circuit row and of a content row. *)
Definition settingsOf (circuit : WisdomCircuit)
  : string * string * list string * list string * list string * string :=
  (wc_grade circuit, wc_name circuit, wc_teachingStyles circuit,
   wc_homeworkPolicies circuit, wc_responseTypes circuit, wc_stateAlignment circuit).

Definition excerptFields (c : CircuitContent) : string * option string * option string :=
  (cc_title c, cc_content c, cc_description c).

(** A later state of the database of [twoRecordings]: one recording
    archived, another circuit with a recording of its own. *)
Definition busierHistory : list Event :=
  [ CircuitCreated (circuitRow 1 "Counting" "K");
    Transcribed (heard "zero" 1500 0) (transcribeFor 1);
    Transcribed (heard "one two three" 2000 1) (transcribeFor 1);
    ContentArchived {| ar_session := teacher; ar_id := Some 1 |};
    CircuitCreated (circuitRow 9 "Shapes" "2");
    Transcribed (heard "circle square" 2500 2) (transcribeFor 9);
    Transcribed (heard "four five six" 3000 3) (transcribeFor 1) ].

(** A PDF upload for circuit 1 whose extraction request is answered with
    HTTP 500. *)
Definition handout : UploadedFile :=
  {| originalname := "Week1-Handout.PDF"; mimetype := "application/pdf";
     filename := "file-1700000000000-7.PDF";
     path := "uploads/file-1700000000000-7.PDF" |}.

Definition handoutUpload : UploadRequest :=
  {| up_session := teacher;
     up_circuitId := Some 1;
     up_file := Some handout;
     up_title := None;
     up_description := None;
     up_category := Some "worksheet" |}.

Definition extractionDown : UploadEnv :=
  {| ue_readFile := Resolved "%PDF-1.7";
     ue_fetch := Resolved {| fr_status := 500; fr_json := Rejected NotAnError |};
     ue_now := 4000;
     ue_slot := 0 |}.

(** A transcription refused by the speech-to-text service. *)
Definition corruptAudio : TranscribeEnv :=
  {| te_apiKey := true;
     te_transcription := Rejected (ApiError (Some 400) "Invalid file format.");
     te_localeString := "11/2/2026, 9:00:00 AM";
     te_now := 4000;
     te_slot := 0 |}.

(** An insert object that carries an [isArchived] key set to [true]. *)
Definition smuggledFlag : InsertCircuitContent :=
  {| ins_circuitId := 1;
     ins_title := "Pacing guide";
     ins_description := None;
     ins_fileType := "txt";
     ins_contentUrl := "/uploads/file-1.txt";
     ins_category := "pacing_guide";
     ins_content := Some "Week 1: counting";
     ins_isArchived := Some true |}.

(** A model that answers every request with one choice without content. *)
Definition silentModel (request : ChatRequest) : Outcome ChatCompletion :=
  Resolved [None].

(** The description column holds text, not [null]. *)
Definition described (c : CircuitContent) : Prop := cc_description c <> None.

(** * More of the repository: routes, storage methods and the icon table *)

(** ** The schema's enumerations (shared/schema.ts) *)

Definition teachingStyleSchema : list string :=
  ["authority"; "demonstrator"; "facilitator"; "delegator"; "hybrid"].

Definition homeworkPolicySchema : list string :=
  ["guide"; "verify"; "examples"; "no_solutions"].

Definition responseTypeSchema : list string :=
  ["detailed"; "concise"; "step_by_step"; "conceptual"].

(** The numbers an [integer] or [serial] column holds, the ids of both
    tables among them; the database refuses a query for a larger one. *)
Definition inIntegerRange (id : nat) : Prop := (N.of_nat id <= 2147483647)%N.

(** ** Reading the content of a circuit (routes.ts) *)

(** What a route sends: a payload with status 200 (or the status given to
    [res.status]), or a refusal with the text of its [error] or [message]
    key and, where the route adds one, of its [details] key. *)
Inductive Reply (A : Type) : Type :=
| Sent (code : nat) (payload : A)
| Refused (code : nat) (reason : string) (details : option string).

Arguments Sent {A} code payload.
Arguments Refused {A} code reason details.

Definition replyStatus {A : Type} (reply : Reply A) : nat :=
  match reply with
  | Sent code _ => code
  | Refused code _ _ => code
  end.



(** ** Circuits of a teacher (storage.ts) *)

Definition getWisdomCircuitsByTeacher (teacherId : nat) (s : Store) : list WisdomCircuit :=
  filter (fun c => (wc_teacherId c =? teacherId)%nat && Bool.eqb (wc_isArchived c) false)
    (wisdomCircuits s).

Definition getArchivedWisdomCircuitsByTeacher (teacherId : nat) (s : Store)
  : list WisdomCircuit :=
  filter (fun c => (wc_teacherId c =? teacherId)%nat && Bool.eqb (wc_isArchived c) true)
    (wisdomCircuits s).

(** ** Archiving and deleting circuits (routes/wisdom-circuits.ts) *)

(** [req.user]. *)
Record User := {
  user_id : nat;
  user_isTeacher : bool;
  user_isAdmin : bool
}.

(** A request on one circuit: [req.user] when [req.isAuthenticated()], and
    [parseInt(req.params.id)], [None] for [NaN]. *)
Record CircuitRequest := {
  cr_user : option User;
  cr_id : option nat
}.

(** [error.message] where [error instanceof Error]; [None] for a thrown
    value that is not an [Error].  The message of a [ZodError] is the text
    of its issues. *)
Definition messageOf (error : Thrown) : option string :=
  match error with
  | ZodError errors => Some (join nl errors)
  | ApiError _ message => Some message
  | PlainError message => Some message
  | NotAnError => None
  end.

(** The [catch] of the three routes: status 500 with the route's text and
    the message of the error. *)
Definition caught {A : Type} (text : string) (error : Thrown) : Reply A :=
  Refused 500 text (messageOf error).

(** [slot] is the place the database gives the updated row. *)
Definition archiveCircuitRoute (slot : nat) (req : CircuitRequest) (s : Store)
  : Reply WisdomCircuit * Store :=
  match cr_user req with
  | None => (Refused 403 "Only teachers can archive circuits" None, s)
  | Some user =>
      if negb (user_isTeacher user) then
        (Refused 403 "Only teachers can archive circuits" None, s)
      else
        match cr_id req with
        | None => (Refused 400 "Invalid circuit ID" None, s)
        | Some circuitId =>
            match getWisdomCircuit circuitId s with
            | None => (Refused 404 "Circuit not found" None, s)
            | Some circuit =>
                if negb (wc_teacherId circuit =? user_id user)%nat then
                  (Refused 403 "You can only archive your own circuits" None, s)
                else
                  match archiveWisdomCircuit circuitId slot s with
                  | (Resolved archivedCircuit, s') => (Sent 200 archivedCircuit, s')
                  | (Rejected error, s') => (caught "Failed to archive circuit" error, s')
                  end
            end
        end
  end.

Definition unarchiveCircuitRoute (slot : nat) (req : CircuitRequest) (s : Store)
  : Reply (option WisdomCircuit) * Store :=
  match cr_user req with
  | None => (Refused 403 "Only teachers can unarchive circuits" None, s)
  | Some user =>
      if negb (user_isTeacher user) then
        (Refused 403 "Only teachers can unarchive circuits" None, s)
      else
        match cr_id req with
        | None => (Refused 400 "Invalid circuit ID" None, s)
        | Some circuitId =>
            match getWisdomCircuit circuitId s with
            | None => (Refused 404 "Circuit not found" None, s)
            | Some circuit =>
                if negb (wc_teacherId circuit =? user_id user)%nat then
                  (Refused 403 "You can only unarchive your own circuits" None, s)
                else
                  let (archivedCircuit, s') := unarchiveWisdomCircuit circuitId slot s in
                  (Sent 200 archivedCircuit, s')
            end
        end
  end.

Definition deleteCircuitRoute (req : CircuitRequest) (s : Store)
  : Reply WisdomCircuit * Store :=
  match cr_user req with
  | None => (Refused 403 "Only teachers or admins can delete circuits" None, s)
  | Some user =>
      if negb (user_isTeacher user) && negb (user_isAdmin user) then
        (Refused 403 "Only teachers or admins can delete circuits" None, s)
      else
        match cr_id req with
        | None => (Refused 400 "Invalid circuit ID" None, s)
        | Some circuitId =>
            match getWisdomCircuit circuitId s with
            | None => (Refused 404 "Circuit not found" None, s)
            | Some circuit =>
                if negb (wc_teacherId circuit =? user_id user)%nat
                   && negb (user_isAdmin user) then
                  (Refused 403
                     "You can only delete your own circuits or you need admin rights"
                     None, s)
                else
                  match deleteWisdomCircuit circuitId s with
                  | (Resolved deletedCircuit, s') => (Sent 200 deletedCircuit, s')
                  | (Rejected error, s') => (caught "Failed to delete circuit" error, s')
                  end
            end
        end
  end.

(** ** Dispatch (express)

    What a handler does with a request: it sends the answer, which ends
    the request, or it calls [next()]. *)
Inductive Handled (A : Type) : Type :=
| Answered (reply : A)
| Passed.

Arguments Answered {A} reply.
Arguments Passed {A}.

(** The layers that match a request run in the order in which they were
    registered, until one of them answers; [None] when none does, which
    Express answers with its own 404. *)
Fixpoint dispatch {Req A : Type} (layers : list (Req -> Handled A)) (req : Req) : option A :=
  match layers with
  | [] => None
  | layer :: rest =>
      match layer req with
      | Answered reply => Some reply
      | Passed => dispatch rest req
      end
  end.

(** ** Circuit descriptions (routes/wisdom-circuits.ts, routes.ts, openai.ts)

    Two handlers match [POST /api/generate-description]: the one of the
    wisdom-circuits router, which [registerRoutes] mounts under [/api]
    first, and the one it adds to the application after that. *)

(** The double quote of a template literal. *)
Definition quote : string := String "034"%char EmptyString.

Definition quoted (text : string) : string := quote ++ text ++ quote.

(** The body of the request. *)
Record DescriptionRequest := {
  gd_session : Session;
  gd_title : option string;
  gd_grade : option string
}.

(** [error?.status] *)
Definition statusOf (error : Thrown) : option nat :=
  match error with
  | ApiError code _ => code
  | ZodError _ | PlainError _ | NotAnError => None
  end.

(** *** The handler of the router (routes/wisdom-circuits.ts) *)

(** [grade === 'K' ? 'Kindergarten' : `Grade ${grade}`] *)
Definition gradeTarget (grade : string) : string :=
  if grade =? "K" then "Kindergarten" else "Grade " ++ grade.

(** The system message up to the target grade. *)
Definition descriptionGuide : string :=
  join nl
    [
      "You are a specialized education AI focused on generating grade-appropriate course descriptions.";
      "";
      "For each grade level, you MUST follow these exact patterns:";
      "";
      "Kindergarten (K):";
      "- Use ONLY these sentence starters: " ++ quoted "Let's learn" ++ ", "
        ++ quoted "We will explore" ++ ", " ++ quoted "Come discover";
      "- Use ONLY 1-2 syllable words";
      "- Focus on fun and play";
      "- Example: " ++ quoted "Let's learn about shapes and colors in a fun way!";
      "";
      "Grades 1-3:";
      "- Use ONLY these sentence starters: " ++ quoted "Find out" ++ ", "
        ++ quoted "Learn how" ++ ", " ++ quoted "Discover why";
      "- Connect to daily life";
      "- Keep words simple";
      "- Example: " ++ quoted "Find out how rain helps plants grow in our garden!";
      "";
      "Grades 4-6:";
      "- Use ONLY these sentence starters: " ++ quoted "Explore" ++ ", "
        ++ quoted "Investigate" ++ ", " ++ quoted "Study";
      "- Include one scientific term";
      "- Link to real examples";
      "- Example: "
        ++ quoted "Explore ecosystems by watching how plants and animals work together!";
      "";
      "Grades 7-8:";
      "- Use ONLY these sentence starters: " ++ quoted "Analyze" ++ ", "
        ++ quoted "Examine" ++ ", " ++ quoted "Discover the science of";
      "- Include scientific concepts";
      "- Mention experiments";
      "- Example: "
        ++ quoted "Analyze force and motion through exciting physics experiments!";
      "";
      "Grades 9-12:";
      "- Use ONLY these sentence starters: " ++ quoted "Master" ++ ", "
        ++ quoted "Learn to apply" ++ ", " ++ quoted "Study advanced";
      "- Include complex terminology";
      "- Connect to careers";
      "- Example: "
        ++ quoted "Master calculus concepts used by real engineers and scientists!";
      "";
      "Target grade level: " ].

(** The temperature 1.5 is kept in tenths. *)
Definition patternRequest (title grade : string) : ChatRequest :=
  {| model := "gpt-4o";
     messages :=
       [ {| role := "system"; content := descriptionGuide ++ gradeTarget grade |};
         {| role := "user";
            content := "Write a description for " ++ quoted title
              ++ " that matches EXACTLY the pattern and complexity shown for "
              ++ gradeTarget grade
              ++ " level. Use ONLY the allowed sentence starters for this grade level." |} ];
     temperatureTenths := 15;
     max_tokens := 100 |}.

(** [String(n)] *)
Definition decimal (n : nat) : string := NilEmpty.string_of_uint (Nat.to_uint n).

(** [['K', ...Array(12).fill(0).map((_, i) => String(i + 1))]] *)
Definition gradesOfRouter : list string :=
  "K" :: map (fun i => decimal (i + 1)) (seq 0 12).

(** The [catch] of the handler.  [NotAnError] stands for a thrown value
    that has no [status] and no [message]. *)
Definition descriptionCatch (error : Thrown) : Reply (option string) :=
  if statusIs 401 (statusOf error) then
    Refused 401 "Unable to access AI services. Please check your OpenAI API key." None
  else if statusIs 429 (statusOf error) then
    Refused 429
      "AI description generation is temporarily unavailable. Please try again later." None
  else
    Refused 500
      "Failed to generate description. Please try again or enter a description manually."
      (messageOf error).

(** *** The function of openai.ts and the handler of routes.ts *)

Definition descriptionRequest (name grade : string) : ChatRequest :=
  {| model := "gpt-4";
     messages :=
       [ {| role := "system";
            content := "You are an expert educational content creator who specializes in creating grade-appropriate descriptions for educational subjects. Keep descriptions concise (2-3 sentences) and engaging for the specified grade level." |};
         {| role := "user";
            content := "Create a brief, grade-appropriate description for a " ++ grade
              ++ " level course named " ++ quote ++ name ++ quote
              ++ ". The description should explain what students will learn and why it's exciting." |} ];
     temperatureTenths := 7;
     max_tokens := 150 |}.

(** The [catch] of [generateCircuitDescription]. *)
Definition descriptionFailure (error : Thrown) : Thrown :=
  match messageOf error with
  | Some message => PlainError ("Failed to generate description: " ++ message)
  | None => PlainError "Failed to generate description. Please try again."
  end.

(** [generateCircuitDescription]; [apiKey] tells whether
    [process.env.OPENAI_API_KEY] is set.  [response.choices[0]?.message
    ?.content] is falsy for no choice, no content and empty content. *)
Definition generateCircuitDescription (apiKey : bool)
    (createCompletion : ChatRequest -> Outcome ChatCompletion)
    (name grade : string) : Outcome string :=
  if negb apiKey then
    Rejected (descriptionFailure (PlainError "OpenAI API key is not configured"))
  else
    match createCompletion (descriptionRequest name grade) with
    | Rejected error => Rejected (descriptionFailure error)
    | Resolved (Some description :: _) =>
        if truthy description then Resolved description
        else Rejected (descriptionFailure (PlainError "No description generated"))
    | Resolved _ =>
        Rejected (descriptionFailure (PlainError "No description generated"))
    end.

(** The array literal of routes.ts. *)
Definition validGrades : list string :=
  ["K"; "1"; "2"; "3"; "4"; "5"; "6"; "7"; "8"; "9"; "10"; "11"; "12"].

Section Descriptions.

(** [String.prototype.trim]. *)
Variable trim : string -> string.

(** The message of the [TypeError] that [response.choices[0].message]
    throws when [choices] is empty. *)
Variable undefinedMessage : string.

(** The external call [openai.chat.completions.create]. *)
Variable createCompletion : ChatRequest -> Outcome ChatCompletion.

(** [router.post("/generate-description", ...)]: no check of the session. *)
Definition routerGenerateDescription (req : DescriptionRequest) : Reply (option string) :=
  let titleRequired := Refused 400 "Title is required" None in
  let invalidGrade := Refused 400 "Invalid grade level" None in
  match gd_title req with
  | None => titleRequired
  | Some title =>
      if negb (truthy title) then titleRequired
      else
        match gd_grade req with
        | None => invalidGrade
        | Some grade =>
            if negb (oneOf gradesOfRouter grade) then invalidGrade
            else
              match createCompletion (patternRequest title grade) with
              | Resolved (content :: _) => Sent 200 (option_map trim content)
              | Resolved [] => descriptionCatch (PlainError undefinedMessage)
              | Rejected error => descriptionCatch error
              end
        end
  end.

(** [app.post("/api/generate-description", ...)] of routes.ts. *)
Definition appGenerateDescription (apiKey : bool) (req : DescriptionRequest)
  : Reply (option string) :=
  let titleRequired := Refused 400 "Title is required for description generation" None in
  let gradeRequired := Refused 400 "Valid grade level is required (K-12)" None in
  if negb (teacherOnly (gd_session req)) then
    Refused 403 "Only teachers can generate descriptions" None
  else if negb apiKey then
    Refused 500 "OpenAI API key is not configured. Please contact support." None
  else
    match gd_title req with
    | None => titleRequired
    | Some title =>
        if negb (truthy title) || (trim title =? "") then titleRequired
        else
          match gd_grade req with
          | None => gradeRequired
          | Some grade =>
              if negb (truthy grade) || negb (oneOf validGrades grade) then gradeRequired
              else
                match generateCircuitDescription apiKey createCompletion title grade with
                | Resolved description => Sent 200 (Some description)
                | Rejected error =>
                    match messageOf error with
                    | Some message => Refused 500 message None
                    | None =>
                        Refused 500
                          "An unexpected error occurred while generating description" None
                    end
                end
          end
    end.

(** What the application answers to [POST /api/generate-description]:
    [app.use('/api', wisdomCircuitsRouter)] comes before
    [app.post("/api/generate-description", ...)] in [registerRoutes], and
    neither handler calls [next()]. *)
Definition generateDescriptionRoute (apiKey : bool) (req : DescriptionRequest)
  : option (Reply (option string)) :=
  dispatch
    [ fun request => Answered (routerGenerateDescription request);
      fun request => Answered (appGenerateDescription apiKey request) ]
    req.

End Descriptions.

(** ** Icons for subjects (client/src/lib/icon-mapping.ts) *)

Inductive LucideIcon : Type :=
| Calculator | Building2 | Beaker | FlaskConical | Brain | Globe2 | History
| Pencil | MessageSquare | Binary | Palette | Music | Languages | TreePine
| Scale | Compass | GraduationCap | Blocks | BookOpen.

Record IconMapping := {
  icon : LucideIcon;
  keywords : list string;
  priority : option nat
}.

Definition iconMappings : list IconMapping :=
  [ {| icon := Calculator;
       keywords := ["math"; "algebra"; "calculus"; "geometry"; "statistics";
                    "trigonometry"; "mathematics"; "arithmetic"; "numbers"];
       priority := Some 2 |};
    {| icon := Building2;
       keywords := ["architecture"; "building"; "construction"; "design"; "structural";
                    "architectural"; "blueprint"; "infrastructure"];
       priority := Some 3 |};
    {| icon := Beaker;
       keywords := ["chemistry"; "chemical"; "reaction"; "molecule"; "compound";
                    "solutions"; "laboratory"];
       priority := Some 2 |};
    {| icon := FlaskConical;
       keywords := ["science"; "experiment"; "lab"; "research"; "scientific"; "testing"];
       priority := Some 1 |};
    {| icon := Brain;
       keywords := ["biology"; "anatomy"; "physiology"; "neuroscience"; "cognitive";
                    "psychology"; "behavior"; "mind"; "mental"; "neural"];
       priority := Some 2 |};
    {| icon := Globe2;
       keywords := ["geography"; "world"; "earth"; "global"; "maps"; "culture";
                    "countries"; "international"; "environmental"];
       priority := Some 2 |};
    {| icon := History;
       keywords := ["history"; "civilization"; "ancient"; "modern"; "past"; "era";
                    "historical"; "century"; "period"; "timeline"];
       priority := Some 2 |};
    {| icon := Pencil;
       keywords := ["writing"; "essay"; "composition"; "creative"; "poetry";
                    "literature"; "author"; "story"];
       priority := Some 2 |};
    {| icon := MessageSquare;
       keywords := ["language"; "english"; "speech"; "communication"; "grammar";
                    "vocabulary"; "linguistics"];
       priority := Some 2 |};
    {| icon := Binary;
       keywords := ["computer"; "programming"; "coding"; "software"; "development";
                    "tech"; "algorithm"; "data"];
       priority := Some 2 |};
    {| icon := Palette;
       keywords := ["art"; "design"; "visual"; "drawing"; "painting"; "photography";
                    "creative"; "artistic"; "illustration"];
       priority := Some 2 |};
    {| icon := Music;
       keywords := ["music"; "band"; "orchestra"; "instrumental"; "choir"; "song";
                    "musical"; "rhythm"; "harmony"];
       priority := Some 2 |};
    {| icon := Languages;
       keywords := ["spanish"; "french"; "german"; "chinese"; "japanese"; "foreign";
                    "language"; "multilingual"];
       priority := Some 2 |};
    {| icon := TreePine;
       keywords := ["environment"; "nature"; "ecology"; "biology"; "life"; "ecosystem";
                    "botanical"; "plant"];
       priority := Some 2 |};
    {| icon := Scale;
       keywords := ["law"; "justice"; "legal"; "government"; "politics"; "civic"; "rights"];
       priority := Some 2 |};
    {| icon := Compass;
       keywords := ["engineering"; "mechanical"; "civil"; "design"; "technical"; "drafting"];
       priority := Some 2 |};
    {| icon := GraduationCap;
       keywords := ["education"; "academic"; "study"; "course"; "degree"; "university";
                    "college"];
       priority := Some 1 |};
    {| icon := Blocks;
       keywords := ["elementary"; "basic"; "fundamental"; "introduction"; "beginner"];
       priority := Some 1 |};
    {| icon := BookOpen;
       keywords := ["study"; "learn"; "education"; "course"; "class"; "teach"; "lesson"];
       priority := Some 0 |} ].

(** [s.startsWith(keyword)] *)
Fixpoint startsWith (keyword s : string) : bool :=
  match keyword, s with
  | EmptyString, _ => true
  | String k keyword', String ch s' => Ascii.eqb k ch && startsWith keyword' s'
  | String _ _, EmptyString => false
  end.

(** The matches of a global regular expression made of the letters of a
    non-empty [keyword]: found from left to right, each search resuming
    after the previous match.  [skip] characters of the last match are
    still to be passed. *)
Fixpoint countMatchesFrom (skip : nat) (keyword text : string) : nat :=
  match text with
  | EmptyString => 0
  | String _ rest =>
      match skip with
      | S skip' => countMatchesFrom skip' keyword rest
      | 0 =>
          if startsWith keyword text
          then S (countMatchesFrom (String.length keyword - 1) keyword rest)
          else countMatchesFrom 0 keyword rest
      end
  end.

(** [(normalizedText.match(new RegExp(keyword, 'g')) || []).length] *)
Definition countMatches (keyword normalizedText : string) : nat :=
  countMatchesFrom 0 keyword normalizedText.

(** [mapping.priority || 1]: a missing priority and the priority 0 both
    count as 1. *)
Definition weight (mapping : IconMapping) : nat :=
  match priority mapping with
  | Some (S p) => S p
  | Some 0 | None => 1
  end.

(** The [reduce] over the keywords of one mapping. *)
Definition scoreOf (normalizedText : string) (mapping : IconMapping) : nat :=
  fold_left (fun score keyword => score + countMatches keyword normalizedText * weight mapping)
    (keywords mapping) 0.

(** [scores.sort((a, b) => b.score - a.score)]: the sort is stable, entries
    with equal scores keep their order.  An entry is put in front of the
    sorted entries that came after it and do not score higher. *)
Fixpoint placeByScore (entry : LucideIcon * nat) (sorted : list (LucideIcon * nat))
  : list (LucideIcon * nat) :=
  match sorted with
  | [] => [entry]
  | first :: others =>
      if (snd first <=? snd entry)%nat then entry :: sorted
      else first :: placeByScore entry others
  end.

Definition sortByScore (scores : list (LucideIcon * nat)) : list (LucideIcon * nat) :=
  fold_right placeByScore [] scores.

(** [scores[0].score > 0 ? scores[0].icon : BookOpen] on the sorted scores
    of a table; the table of the source is not empty. *)
Definition bestOf (mappings : list IconMapping) (normalizedText : string) : LucideIcon :=
  match sortByScore (map (fun mapping => (icon mapping, scoreOf normalizedText mapping)) mappings) with
  | (best, score) :: _ => if (0 <? score)%nat then best else BookOpen
  | [] => BookOpen
  end.

Section Icons.

(** [String.prototype.toLowerCase]. *)
Variable toLowerCase : string -> string.

Definition findBestMatchingIcon (text : string) : LucideIcon :=
  bestOf iconMappings (toLowerCase text).

End Icons.

(** The store with one more content row, stored at place [slot]. *)
Definition withContent (slot : nat) (row : CircuitContent) (s : Store) : Store :=
  {| wisdomCircuits := wisdomCircuits s;
     circuitContent := insertAt slot row (circuitContent s);
     circuitContentSeq := S (circuitContentSeq s) |}.

(** ** What a request can do to the store

    The shapes of the store after one event, for the invariants below. *)

Inductive writes (s : Store) : Store -> Prop :=
| writes_nothing : writes s s
| writes_circuit (circuit : WisdomCircuit) : writes s (createWisdomCircuit circuit s)
| writes_circuit_flag (flag : bool) (id slot : nat) :
    writes s (updateCircuitArchived flag id slot s)
| writes_circuit_deleted (id : nat) : writes s (snd (deleteWisdomCircuit id s))
| writes_refused_insert :
    writes s {| wisdomCircuits := wisdomCircuits s;
                circuitContent := circuitContent s;
                circuitContentSeq := S (circuitContentSeq s) |}
| writes_content (content : InsertCircuitContent) (now slot : nat) (circuit : WisdomCircuit) :
    getWisdomCircuit (ins_circuitId content) s = Some circuit ->
    writes s (withContent slot
                (insertedRow (S (circuitContentSeq s)) now (insertValues content)) s)
| writes_content_flag (id : nat) : writes s (snd (archiveCircuitContent id s)).

(** Every content row belongs to a circuit of the store. *)
Definition contentHasCircuit (s : Store) : Prop :=
  Forall (fun c => getWisdomCircuit (cc_circuitId c) s <> None) (circuitContent s).

(** The ids of the content rows are distinct and were all drawn from the
    sequence. *)
Definition contentIdsFresh (s : Store) : Prop :=
  NoDup (map cc_id (circuitContent s))
  /\ Forall (fun c => cc_id c <= circuitContentSeq s) (circuitContent s).

(** The id was drawn from the sequence and no row that carries it is
    active. *)
Definition retired (id : nat) (s : Store) : Prop :=
  id <= circuitContentSeq s
  /\ Forall (fun c => cc_id c = id -> cc_isArchived c = true) (circuitContent s).

(** [keyword] occurs in [text]. *)
Definition occursIn (keyword text : string) : Prop :=
  exists before after, text = before ++ keyword ++ after.

(** The six extensions the upload route knows. *)
Definition knownExtensions : list string :=
  [".pdf"; ".doc"; ".docx"; ".txt"; ".ppt"; ".pptx"].

(** The text an upload of type [fileType] takes from the file: the value
    of [content] before the object literal is built. *)
Definition extraction (env : UploadEnv) (fileType : string) : Outcome (option string) :=
  if fileType =? "txt" then
    match ue_readFile env with
    | Resolved text => Resolved (Some text)
    | Rejected error => Rejected error
    end
  else if fileType =? "pdf" then Resolved (extractPdf env)
  else Resolved (Some "").

(** The row a successful upload stores. *)
Definition uploadedRow (id now circuitId : nat) (req : UploadRequest) (file : UploadedFile)
    (fileType : string) (extracted : option string) : CircuitContent :=
  {| cc_id := id;
     cc_circuitId := circuitId;
     cc_title := bodyOr (up_title req) (originalname file);
     cc_description := Some (bodyOr (up_description req) "");
     cc_fileType := fileType;
     cc_contentUrl := "/uploads/" ++ filename file;
     cc_category := bodyOr (up_category req) "reference_material";
     cc_content := Some (bodyOr extracted "");
     cc_uploadedAt := now;
     cc_isArchived := false |}.

(** The row a successful transcription stores. *)
Definition transcriptRow (id now circuitId : nat) (localeString text : string)
  : CircuitContent :=
  {| cc_id := id;
     cc_circuitId := circuitId;
     cc_title := "Class Recording Transcript - " ++ localeString;
     cc_description := Some "Automatically generated transcript from class recording";
     cc_fileType := "txt";
     cc_contentUrl := "";
     cc_category := "transcript";
     cc_content := Some text;
     cc_uploadedAt := now;
     cc_isArchived := false |}.


(** Example uploads for circuit 1. *)
Definition uploadOf (name : string) : UploadRequest :=
  {| up_session := teacher;
     up_circuitId := Some 1;
     up_file := Some {| originalname := name; mimetype := "application/octet-stream";
                        filename := "file-1700000000000-9"; path := "uploads/file-1700000000000-9" |};
     up_title := Some "Week 1";
     up_description := None;
     up_category := None |}.

(** The stored file reads as [text]; the extraction request, if one is
    made, is answered as [reply]. *)
Definition disk (text : string) (reply : FetchResponse) : UploadEnv :=
  {| ue_readFile := Resolved text;
     ue_fetch := Resolved reply;
     ue_now := 4000;
     ue_slot := 7 |}.

(** Users and circuit requests for the examples. *)
Definition owner : User := {| user_id := 7; user_isTeacher := true; user_isAdmin := false |}.

Definition colleague : User := {| user_id := 8; user_isTeacher := true; user_isAdmin := false |}.

Definition administrator : User :=
  {| user_id := 2; user_isTeacher := false; user_isAdmin := true |}.

Definition onCircuit (user : User) (id : nat) : CircuitRequest :=
  {| cr_user := Some user; cr_id := Some id |}.

(** [archiveWisdomCircuit] and then [unarchiveWisdomCircuit] on the same
    id; [slot] and [slot'] are the places the database gives the row in
    the two updates. *)
Definition archivedAndBack (id slot slot' : nat) (s : Store) : Store :=
  snd (unarchiveWisdomCircuit id slot' (snd (archiveWisdomCircuit id slot s))).

(** Two circuits of one teacher, without content. *)
Definition twoCircuits : Store :=
  {| wisdomCircuits := [circuitRow 1 "Counting" "K"; circuitRow 2 "Shapes" "2"];
     circuitContent := [];
     circuitContentSeq := 0 |}.

(** The score of every mapping of a table, as the [map] of the source
    builds them. *)
Definition scoresOf (mappings : list IconMapping) (normalizedText : string)
  : list (LucideIcon * nat) :=
  map (fun mapping => (icon mapping, scoreOf normalizedText mapping)) mappings.

(** A model that answers every request with the one description. *)
Definition describingModel (description : string) (request : ChatRequest)
  : Outcome ChatCompletion :=
  Resolved [Some description].

(** A model whose calls fail with a rate-limit error. *)
Definition busyModel (request : ChatRequest) : Outcome ChatCompletion :=
  Rejected (ApiError (Some 429) "Rate limit reached").

(** An instance of [String.prototype.trim] for the examples: blanks, tabs
    and line ends are taken off both ends. *)
Definition isBlank (ch : ascii) : bool :=
  let n := nat_of_ascii ch in
  ((n =? 32) || (n =? 9) || (n =? 10) || (n =? 13))%nat.

Fixpoint dropLeading (s : string) : string :=
  match s with
  | EmptyString => EmptyString
  | String ch rest => if isBlank ch then dropLeading rest else s
  end.

Fixpoint dropTrailing (s : string) : string :=
  match s with
  | EmptyString => EmptyString
  | String ch rest =>
      match dropTrailing rest with
      | EmptyString => if isBlank ch then EmptyString else String ch EmptyString
      | kept => String ch kept
      end
  end.

Definition trimBlanks (s : string) : string := dropTrailing (dropLeading s).

Definition countingDescription : DescriptionRequest :=
  {| gd_session := teacher; gd_title := Some "Counting"; gd_grade := Some "K" |}.

(** A request without a session. *)
Definition anonymous : Session := {| isAuthenticated := false; isTeacher := false |}.

(** * Properties *)

(** ** Strings and joins *)

Lemma append_assoc (a b c : string) : (a ++ b) ++ c = a ++ (b ++ c).
Proof.
  induction a as [| ch a IH]; simpl.
  - reflexivity.
  - now rewrite IH.
Qed.

Lemma truthy_false (s : string) : truthy s = false <-> s = "".
Proof.
  unfold truthy. rewrite negb_false_iff. apply String.eqb_eq.
Qed.

Lemma append_truthy_l (a b : string) : truthy a = true -> truthy (a ++ b) = true.
Proof.
  destruct a; simpl; [discriminate | reflexivity].
Qed.

(** A join of non-empty pieces is empty only for no pieces at all. *)
Lemma join_truthy (sep : string) (arr : list string) :
  Forall (fun piece => truthy piece = true) arr ->
  arr <> [] ->
  truthy (join sep arr) = true.
Proof.
  intros Hall Hne.
  destruct Hall as [| piece rest Hpiece Hrest]; [congruence |].
  unfold join; simpl.
  destruct rest; [assumption | now apply append_truthy_l].
Qed.

Lemma join_app (arr1 arr2 : list string) :
  Forall (fun piece => truthy piece = true) arr1 ->
  Forall (fun piece => truthy piece = true) arr2 ->
  join ", " (arr1 ++ arr2) = sentences (join ", " arr1) (join ", " arr2).
Proof.
  intros H1 H2.
  induction H1 as [| x rest Hx Hrest IH].
  - reflexivity.
  - assert (Hhead : truthy (join ", " (x :: rest)) = true)
      by (apply join_truthy; [now constructor | discriminate]).
    unfold sentences. rewrite Hhead.
    destruct rest as [| y rest].
    + (* a single piece before the second array *)
      destruct arr2 as [| z arr2]; [reflexivity |].
      assert (Hz : truthy (join ", " (z :: arr2)) = true)
        by (apply join_truthy; [assumption | discriminate]).
      rewrite Hz. reflexivity.
    + change (x ++ ", " ++ join ", " ((y :: rest) ++ arr2)
              = (if truthy (join ", " arr2)
                 then (x ++ ", " ++ join ", " (y :: rest)) ++ ", " ++ join ", " arr2
                 else x ++ ", " ++ join ", " (y :: rest))).
      rewrite IH. unfold sentences.
      assert (Hy : truthy (join ", " (y :: rest)) = true)
        by (apply join_truthy; [assumption | discriminate]).
      rewrite Hy.
      destruct (truthy (join ", " arr2)); [| reflexivity].
      now rewrite !append_assoc.
Qed.

Lemma clauses_truthy (clause : string -> string) (tags : list string) :
  Forall (fun piece => truthy piece = true) (clauses clause tags).
Proof.
  apply Forall_forall. intros piece Hin.
  apply filter_In in Hin. tauto.
Qed.

Lemma clauses_app (clause : string -> string) (tags1 tags2 : list string) :
  clauses clause (tags1 ++ tags2) = (clauses clause tags1 ++ clauses clause tags2)%list.
Proof.
  unfold clauses. now rewrite map_app, filter_app.
Qed.

(** ** C1: the knowledge base of a circuit without content *)

(** The route always hands an array to the composer, so the knowledge base
    of a circuit with no active content is the join of no excerpts. *)
Lemma knowledgeBase_without_content (circuitId : nat) (s : Store) (context : CircuitContext) :
  composeContext circuitId s = Some context ->
  getCircuitContent circuitId s = [] ->
  knowledgeBase context = "".
Proof.
  unfold composeContext, processedContent.
  destruct (getWisdomCircuit circuitId s); [| discriminate].
  intros [= <-] ->. reflexivity.
Qed.

(** The placeholder is what the composer writes for a context that has no
    [uploadedContent] key at all. *)
Remark knowledgeBase_undefined (context : CircuitContext) :
  ctx_uploadedContent context = None -> knowledgeBase context = placeholder.
Proof.
  unfold knowledgeBase. now intros ->.
Qed.

(** C1 (violated by the code): on scenario A, a circuit with no active
    content, the chat route composes a prompt whose knowledge-base section
    is the empty string: the line after [Knowledge Base:] is blank and the
    placeholder sentence is not in the prompt. *)
Theorem scenarioA_knowledge_base_is_empty :
  getCircuitContent 1 scenarioA = []
  /\ option_map knowledgeBase (composeContext 1 scenarioA) = Some ""
  /\ "" <> placeholder
  /\ composePrompt 1 scenarioA = Some (
       "You are an educational AI assistant for Kindergarten students, specializing in Counting." ++ nl
    ++ "Teaching Approach: Utilize flexible combination of teaching methods." ++ nl
    ++ "Homework Guidance: provide guidance without direct solutions." ++ nl
    ++ "Communication Style: provide comprehensive explanations." ++ nl
    ++ "State Alignment: Follow California educational standards." ++ nl
    ++ nl
    ++ "Key Guidelines:" ++ nl
    ++ "1. Always communicate at a Kindergarten comprehension level" ++ nl
    ++ "2. Use age-appropriate examples and analogies" ++ nl
    ++ "3. Maintain a supportive and encouraging tone" ++ nl
    ++ "4. Follow the specified teaching styles and response formats" ++ nl
    ++ "5. Reference relevant uploaded content when applicable" ++ nl
    ++ nl
    ++ "Knowledge Base:" ++ nl
    ++ nl
    ++ nl
    ++ "Remember to:" ++ nl
    ++ "- Keep explanations appropriate for Kindergarten students" ++ nl
    ++ "- Use the teaching styles specified: flexible combination of teaching methods" ++ nl
    ++ "- Follow the homework policy: provide guidance without direct solutions" ++ nl
    ++ "- Maintain the response style: provide comprehensive explanations").
Proof.
  split; [reflexivity |].
  split; [exact (f_equal Some (knowledgeBase_without_content 1 scenarioA eq_refl eq_refl)) |].
  split; [discriminate |].
  vm_compute. reflexivity.
Qed.

(** ** C2: the configuration mapper and the order of its input *)

(** C2, counterexample: for each of the three settings, two arrays holding
    the same two tags in different orders are mapped to different
    sentences. *)
Lemma mapper_is_not_order_insensitive :
  ~ orderInsensitive teachingStyleClause
  /\ ~ orderInsensitive homeworkPolicyClause
  /\ ~ orderInsensitive responseTypeClause.
Proof.
  repeat split; intros Hclaim.
  - specialize (Hclaim ["authority"; "hybrid"] ["hybrid"; "authority"] (perm_swap _ _ _)).
    vm_compute in Hclaim. discriminate.
  - specialize (Hclaim ["guide"; "verify"] ["verify"; "guide"] (perm_swap _ _ _)).
    vm_compute in Hclaim. discriminate.
  - specialize (Hclaim ["detailed"; "concise"] ["concise"; "detailed"] (perm_swap _ _ _)).
    vm_compute in Hclaim. discriminate.
Qed.

(** C2, as amended: the sentence of a settings array is fixed by the array
    and its clauses stand in the order of the array.  The sentence of
    [tags1 ++ tags2] is the sentence of [tags1] followed by the sentence of
    [tags2]; a known tag alone gives its clause, an unknown one nothing;
    and reordering the array reorders the clauses without adding or losing
    one.  This holds for each of the three tables. *)
Theorem mapper_follows_input_order (clause : string -> string) (tags1 tags2 : list string) :
  describe clause (tags1 ++ tags2)
    = sentences (describe clause tags1) (describe clause tags2)
  /\ (forall tag, describe clause [tag] = clause tag)
  /\ (Permutation tags1 tags2 -> Permutation (clauses clause tags1) (clauses clause tags2)).
Proof.
  split; [| split].
  - unfold describe. rewrite clauses_app.
    apply join_app; apply clauses_truthy.
  - intros tag. unfold describe, clauses. simpl.
    destruct (truthy (clause tag)) eqn:E; [reflexivity |].
    apply truthy_false in E. now rewrite E.
  - intros Hperm. unfold clauses.
    induction (Permutation_map clause Hperm) as [| x l l' _ IH | x y l | l l' l'' _ IH1 _ IH2];
      simpl.
    + constructor.
    + destruct (truthy x); [now constructor | assumption].
    + destruct (truthy x), (truthy y); try reflexivity. apply perm_swap.
    + now transitivity (filter truthy l').
Qed.

Lemma mapper_follows_input_order_witness :
  Permutation ["hybrid"; "unknown"; "authority"] ["authority"; "hybrid"; "unknown"]
  /\ Permutation (clauses teachingStyleClause ["hybrid"; "unknown"; "authority"])
                 (clauses teachingStyleClause ["authority"; "hybrid"; "unknown"]).
Proof.
  assert (Hperm : Permutation ["hybrid"; "unknown"; "authority"]
                              ["authority"; "hybrid"; "unknown"]).
  { change (Permutation (["hybrid"; "unknown"] ++ ["authority"])
                        (["authority"] ++ ["hybrid"; "unknown"])).
    apply Permutation_app_comm. }
  split; [exact Hperm |].
  exact (proj2 (proj2 (mapper_follows_input_order teachingStyleClause
                         ["hybrid"; "unknown"; "authority"]
                         ["authority"; "hybrid"; "unknown"])) Hperm).
Defined.

(** ** The content table under the storage methods *)

Lemma isActiveIn_setArchived (circuitId : nat) (c : CircuitContent) :
  isActiveIn circuitId (setArchived c) = false.
Proof.
  unfold isActiveIn. simpl. apply andb_false_r.
Qed.

Lemma isActiveIn_true (circuitId : nat) (c : CircuitContent) :
  isActiveIn circuitId c = true <-> cc_circuitId c = circuitId /\ cc_isArchived c = false.
Proof.
  unfold isActiveIn. rewrite andb_true_iff, Nat.eqb_eq, Bool.eqb_true_iff. tauto.
Qed.

(** After [archiveCircuitContent id] the active rows of any circuit are the
    rows that were active before, less the one with that id, in the same
    order. *)
Lemma getCircuitContent_archive (id circuitId : nat) (s : Store) :
  getCircuitContent circuitId (snd (archiveCircuitContent id s))
  = without id (getCircuitContent circuitId s).
Proof.
  unfold getCircuitContent, without, archiveCircuitContent. simpl.
  induction (circuitContent s) as [| c table IH]; simpl; [reflexivity |].
  destruct (cc_id c =? id)%nat eqn:Eid.
  - rewrite isActiveIn_setArchived.
    destruct (isActiveIn circuitId c); simpl; [rewrite Eid; simpl |]; exact IH.
  - destruct (isActiveIn circuitId c); simpl; [rewrite Eid; simpl; f_equal |]; exact IH.
Qed.

Lemma getCircuitContentById_archive (id : nat) (s : Store) (item : CircuitContent) :
  getCircuitContentById id s = Some item ->
  fst (archiveCircuitContent id s) = Some (setArchived item)
  /\ getCircuitContentById id (snd (archiveCircuitContent id s)) = Some (setArchived item).
Proof.
  unfold getCircuitContentById, archiveCircuitContent. simpl.
  induction (circuitContent s) as [| c table IH]; simpl; [discriminate |].
  destruct (cc_id c =? id)%nat eqn:Eid; simpl.
  - intros [= ->]. simpl. rewrite Eid. simpl. split; reflexivity.
  - rewrite Eid. exact IH.
Qed.

Lemma archive_keeps_ids (id : nat) (s : Store) :
  map cc_id (circuitContent (snd (archiveCircuitContent id s))) = map cc_id (circuitContent s).
Proof.
  unfold archiveCircuitContent. simpl. rewrite map_map.
  apply map_ext. intros c. now destruct (cc_id c =? id)%nat.
Qed.

(** ** C4: archived items and the composition *)

(** C4: an archived item is in no list of active content.  After
    [archiveCircuitContent id] the very next composition for any circuit is
    built from the rows that were active before less the one with that id,
    so no excerpt comes from it; the row itself is still in the table, with
    its flag set and nothing else changed, and no row was removed. *)
Theorem archived_item_is_excluded_not_deleted (id circuitId : nat) (s : Store) :
  (forall c, In c (circuitContent s) -> cc_isArchived c = true ->
             ~ In c (getCircuitContent circuitId s))
  /\ (forall c, In c (getCircuitContent circuitId (snd (archiveCircuitContent id s))) ->
                cc_id c <> id)
  /\ processedContent circuitId (snd (archiveCircuitContent id s))
     = map renderExcerpt (without id (getCircuitContent circuitId s))
  /\ (forall item, getCircuitContentById id s = Some item ->
        fst (archiveCircuitContent id s) = Some (setArchived item)
        /\ getCircuitContentById id (snd (archiveCircuitContent id s))
           = Some (setArchived item))
  /\ map cc_id (circuitContent (snd (archiveCircuitContent id s)))
     = map cc_id (circuitContent s).
Proof.
  repeat split.
  - intros c _ Harchived Hin.
    apply filter_In in Hin. destruct Hin as [_ Hactive].
    apply isActiveIn_true in Hactive. destruct Hactive as [_ Hflag]. congruence.
  - intros c Hin. rewrite getCircuitContent_archive in Hin.
    apply filter_In in Hin. destruct Hin as [_ Hother].
    apply negb_true_iff, Nat.eqb_neq in Hother. exact Hother.
  - unfold processedContent. now rewrite getCircuitContent_archive.
  - now apply getCircuitContentById_archive.
  - now apply getCircuitContentById_archive.
  - apply archive_keeps_ids.
Qed.

Lemma archived_item_is_excluded_not_deleted_witness :
  exists item,
    getCircuitContentById 1 (replay plainLowerExtname twoRecordings emptyStore) = Some item
    /\ getCircuitContentById 1
         (snd (archiveCircuitContent 1 (replay plainLowerExtname twoRecordings emptyStore)))
       = Some (setArchived item)
    /\ cc_content (setArchived item) = Some "one two three".
Proof.
  eexists. split; [reflexivity |]. split; [| reflexivity].
  apply (archived_item_is_excluded_not_deleted 1 1
           (replay plainLowerExtname twoRecordings emptyStore)).
  reflexivity.
Defined.

(** ** Sorted tables *)

Section Placement.

Variable A : Type.

Lemma insertAt_last (slot : nat) (row : A) (table : list A) :
  length table <= slot -> insertAt slot row table = (table ++ [row])%list.
Proof.
  intros Hslot. unfold insertAt.
  now rewrite firstn_all2, skipn_all2.
Qed.

Lemma in_insertAt (slot : nat) (row c : A) (table : list A) :
  In c (insertAt slot row table) <-> c = row \/ In c table.
Proof.
  unfold insertAt. rewrite in_app_iff. simpl.
  rewrite <- (firstn_skipn slot table) at 3. rewrite in_app_iff.
  intuition congruence.
Qed.

Lemma length_insertAt (slot : nat) (row : A) (table : list A) :
  length (insertAt slot row table) = S (length table).
Proof.
  unfold insertAt. rewrite <- (firstn_skipn slot table) at 3.
  rewrite !length_app. simpl. lia.
Qed.

End Placement.

Section SortedTables.

Variable A : Type.
Variable R : A -> A -> Prop.

Lemma StronglySorted_snoc (table : list A) (row : A) :
  StronglySorted R table ->
  Forall (fun c => R c row) table ->
  StronglySorted R (table ++ [row]).
Proof.
  induction 1 as [| c table Hsorted IH Hc]; intros Hall; simpl.
  - repeat constructor.
  - inversion Hall; subst. constructor.
    + now apply IH.
    + apply Forall_app. split; [assumption | now constructor].
Qed.

Lemma StronglySorted_filter_keeps (keep : A -> bool) (table : list A) :
  StronglySorted R table -> StronglySorted R (filter keep table).
Proof.
  induction 1 as [| c table Hsorted IH Hc]; simpl.
  - constructor.
  - destruct (keep c); [| assumption].
    constructor; [assumption |].
    apply Forall_forall. intros x Hx. apply filter_In in Hx.
    rewrite Forall_forall in Hc. now apply Hc.
Qed.

Lemma StronglySorted_map_keeps (f : A -> A) (table : list A) :
  (forall a b, R a b -> R (f a) (f b)) ->
  StronglySorted R table -> StronglySorted R (map f table).
Proof.
  intros Hf. induction 1 as [| c table Hsorted IH Hc]; simpl.
  - constructor.
  - constructor; [assumption |].
    apply Forall_forall. intros x Hx. apply in_map_iff in Hx.
    destruct Hx as [y [<- Hy]]. rewrite Forall_forall in Hc. now apply Hf, Hc.
Qed.

End SortedTables.

(** ** What one event does to the content table *)

Lemma createCircuitContent_table (content : InsertCircuitContent) (now slot : nat) (s : Store) :
  circuitContent (snd (createCircuitContent content now slot s)) = circuitContent s
  \/ circuitContent (snd (createCircuitContent content now slot s))
     = insertAt slot (insertedRow (S (circuitContentSeq s)) now (insertValues content))
         (circuitContent s).
Proof.
  unfold createCircuitContent.
  destruct (getWisdomCircuit (ins_circuitId content) s); simpl; [now right | now left].
Qed.

Lemma transcribeRoute_store (env : TranscribeEnv) (req : TranscribeRequest) (s : Store) :
  snd (transcribeRoute env req s) = s
  \/ exists data validated,
       parseInsertCircuitContent data = Resolved validated
       /\ snd (transcribeRoute env req s)
          = snd (createCircuitContent validated (te_now env) (te_slot env) s).
Proof.
  unfold transcribeRoute.
  destruct (negb (teacherOnly (tr_session req))); [now left |].
  destruct (tr_file req); [| now left].
  destruct (tr_circuitId req) as [circuitId |]; [| now left].
  destruct (negb (te_apiKey env)); [now left |].
  destruct (te_transcription env) as [text | error]; [| now left].
  destruct (parseInsertCircuitContent _) as [validated | error] eqn:Hparse; [| now left].
  right. exists (transcriptData circuitId (te_localeString env) text), validated.
  split; [exact Hparse |].
  now destruct (createCircuitContent validated (te_now env) (te_slot env) s) as [[saved | error] s'].
Qed.

Lemma uploadRoute_store (lowerExtname : string -> string)
    (env : UploadEnv) (req : UploadRequest) (s : Store) :
  snd (uploadRoute lowerExtname env req s) = s
  \/ exists data validated,
       parseInsertCircuitContent data = Resolved validated
       /\ snd (uploadRoute lowerExtname env req s)
          = snd (createCircuitContent validated (ue_now env) (ue_slot env) s).
Proof.
  unfold uploadRoute.
  destruct (negb (teacherOnly (up_session req))); [now left |].
  destruct (up_circuitId req) as [circuitId |]; [| now left].
  destruct (up_file req) as [file |]; [| now left].
  destruct (fileTypeOf (lowerExtname (originalname file))) as [fileType |]; [| now left].
  match goal with
  | |- context [match ?extraction with Resolved _ => _ | Rejected _ => _ end] =>
      destruct extraction as [extracted | error]; [| now left]
  end.
  destruct (parseInsertCircuitContent _) as [validated | error] eqn:Hparse;
    [| destruct error; now left].
  right. exists (uploadData circuitId req file fileType extracted), validated.
  split; [exact Hparse |].
  destruct (createCircuitContent validated (ue_now env) (ue_slot env) s)
    as [[saved | error] s']; [reflexivity | now destruct error].
Qed.

(** One event leaves the content table alone, stores one validated row at
    the place and with the stamp the database chose, sets the flag of the
    rows with one id, or drops the rows of one circuit. *)
Lemma serve_table (lowerExtname : string -> string) (s : Store) (e : Event) :
  circuitContent (serve lowerExtname s e) = circuitContent s
  \/ (exists row now slot,
        insertion e = Some (now, slot)
        /\ validatedRow row now
        /\ circuitContent (serve lowerExtname s e) = insertAt slot row (circuitContent s))
  \/ (exists id,
        circuitContent (serve lowerExtname s e)
        = map (fun c => if (cc_id c =? id)%nat then setArchived c else c) (circuitContent s))
  \/ (exists id,
        circuitContent (serve lowerExtname s e)
        = filter (fun c => negb (cc_circuitId c =? id)%nat) (circuitContent s)).
Proof.
  destruct e as [circuit | id slot | id slot | id | env req | env req | req]; simpl.
  - now left.
  - left. unfold archiveWisdomCircuit. now destruct (getWisdomCircuit id s).
  - now left.
  - right; right; right. exists id.
    unfold deleteWisdomCircuit. now destruct (getWisdomCircuit id s).
  - destruct (transcribeRoute_store env req s) as [-> | [data [validated [Hparse ->]]]];
      [now left |].
    destruct (createCircuitContent_table validated (te_now env) (te_slot env) s)
      as [Hsame | Hnew]; [now left |].
    right; left. eexists _, (te_now env), (te_slot env).
    split; [reflexivity |]. split; [| exact Hnew].
    now exists (S (circuitContentSeq s)), data, validated.
  - destruct (uploadRoute_store lowerExtname env req s)
      as [-> | [data [validated [Hparse ->]]]]; [now left |].
    destruct (createCircuitContent_table validated (ue_now env) (ue_slot env) s)
      as [Hsame | Hnew]; [now left |].
    right; left. eexists _, (ue_now env), (ue_slot env).
    split; [reflexivity |]. split; [| exact Hnew].
    now exists (S (circuitContentSeq s)), data, validated.
  - unfold archiveRoute.
    destruct (negb (teacherOnly (ar_session req))); [now left |].
    destruct (ar_id req) as [id |]; [| now left].
    right; right; left. now exists id.
Qed.

(** ** C3: the order of the excerpts *)

Section StorageOrder.

Variable lowerExtname : string -> string.

Lemma validatedRow_stamp (row : CircuitContent) (now : nat) :
  validatedRow row now -> cc_uploadedAt row = now.
Proof.
  intros [id [data [validated [_ ->]]]]. reflexivity.
Qed.

Lemma stamps_step (s : Store) (e : Event) :
  StronglySorted byStamp (circuitContent s) ->
  inOrder s e ->
  StronglySorted byStamp (circuitContent (serve lowerExtname s e)).
Proof.
  intros Hsorted Horder.
  destruct (serve_table lowerExtname s e)
    as [-> | [[row [now [slot [Hins [Hrow ->]]]]] | [[id ->] | [id ->]]]].
  - assumption.
  - unfold inOrder in Horder. rewrite Hins in Horder.
    destruct Horder as [Hslot Hstamps].
    rewrite insertAt_last by assumption.
    apply StronglySorted_snoc; [assumption |].
    unfold byStamp. now rewrite (validatedRow_stamp Hrow).
  - apply StronglySorted_map_keeps; [| assumption].
    intros a b Hab. unfold byStamp in *.
    now destruct (cc_id a =? id)%nat, (cc_id b =? id)%nat.
  - now apply StronglySorted_filter_keeps.
Qed.

Lemma stamps_replay (history : list Event) (s : Store) :
  StronglySorted byStamp (circuitContent s) ->
  insertionOrdered lowerExtname history s ->
  StronglySorted byStamp (circuitContent (replay lowerExtname history s)).
Proof.
  revert s. induction history as [| e history IH]; intros s Hsorted Hordered; simpl.
  - assumption.
  - destruct Hordered as [Hfirst Hrest].
    apply IH; [now apply stamps_step | assumption].
Qed.

(** C3, as amended: the excerpts of a composition stand in the order in
    which the store returns the circuit's active rows, which is the order
    the database stores them in, no sort being applied.  When every
    insert of the history went after the rows already stored and was not
    stamped earlier than any of them, that order is oldest first.
    Archiving an item takes its excerpt out and leaves the others in
    their order, so an order that was oldest first stays so. *)
Theorem excerpts_follow_storage_order (history : list Event) (circuitId id : nat) :
  let s := replay lowerExtname history emptyStore in
  (forall context, composeContext circuitId s = Some context ->
      knowledgeBase context = join nl (map renderExcerpt (getCircuitContent circuitId s)))
  /\ (insertionOrdered lowerExtname history emptyStore -> oldestFirst circuitId s)
  /\ processedContent circuitId (snd (archiveCircuitContent id s))
     = map renderExcerpt (without id (getCircuitContent circuitId s))
  /\ (oldestFirst circuitId s ->
      oldestFirst circuitId (snd (archiveCircuitContent id s))).
Proof.
  intros s. repeat split.
  - intros context. unfold composeContext.
    destruct (getWisdomCircuit circuitId s); [| discriminate].
    now intros [= <-].
  - intros Hordered. unfold oldestFirst, getCircuitContent.
    apply StronglySorted_filter_keeps.
    apply stamps_replay; [constructor | assumption].
  - unfold processedContent. now rewrite getCircuitContent_archive.
  - unfold oldestFirst. rewrite getCircuitContent_archive.
    apply StronglySorted_filter_keeps.
Qed.

End StorageOrder.

Lemma excerpts_follow_storage_order_witness :
  insertionOrdered plainLowerExtname twoRecordings emptyStore
  /\ oldestFirst 1 (replay plainLowerExtname twoRecordings emptyStore)
  /\ map cc_uploadedAt (getCircuitContent 1 (replay plainLowerExtname twoRecordings emptyStore))
     = [2000; 3000].
Proof.
  assert (Hordered : insertionOrdered plainLowerExtname twoRecordings emptyStore).
  { simpl. unfold inOrder. simpl.
    repeat match goal with
           | |- _ /\ _ => split
           | |- True => exact I
           | |- Forall _ _ => constructor
           | |- _ <= _ => simpl; lia
           end. }
  split; [exact Hordered |].
  split; [| reflexivity].
  exact (proj1 (proj2 (excerpts_follow_storage_order plainLowerExtname twoRecordings 1 1))
           Hordered).
Defined.

(** C3, counterexample: after the history [reusedPlace] circuit 1 has two
    active items and the later recording comes first, in the store's answer
    and in the composed excerpts. *)
Lemma excerpts_not_oldest_first :
  length (getCircuitContent 1 (replay plainLowerExtname reusedPlace emptyStore)) = 2
  /\ map cc_uploadedAt (getCircuitContent 1 (replay plainLowerExtname reusedPlace emptyStore))
     = [3000; 2000]
  /\ processedContent 1 (replay plainLowerExtname reusedPlace emptyStore)
     = [ "Class Recording Transcript - 11/2/2026, 9:00:00 AM:" ++ nl ++ "four five six";
         "Class Recording Transcript - 11/2/2026, 9:00:00 AM:" ++ nl ++ "one two three" ]
  /\ ~ oldestFirst 1 (replay plainLowerExtname reusedPlace emptyStore).
Proof.
  repeat split; try reflexivity.
  unfold oldestFirst. intros Hsorted.
  apply StronglySorted_inv in Hsorted. destruct Hsorted as [_ Holder].
  apply Forall_inv in Holder. vm_compute in Holder. lia.
Qed.

(** ** C6: the rendering of one excerpt *)


(** A row without content and with a [null] description, which the storage
    method accepts but neither ingestion route builds, is rendered with the
    text [null]. *)
Remark renderExcerpt_null_description (c : CircuitContent) :
  truthyOpt (cc_content c) = false ->
  cc_description c = None ->
  renderExcerpt c = cc_title c ++ ":" ++ nl ++ "null".
Proof.
  unfold renderExcerpt, orElseOpt. now intros -> ->.
Qed.


Section Ingested.

Variable lowerExtname : string -> string.




End Ingested.


(** ** C5: what a composition depends on *)

Lemma generateSystemPrompt_settings (circuit1 circuit2 : WisdomCircuit)
    (processed : list string) :
  settingsOf circuit1 = settingsOf circuit2 ->
  generateSystemPrompt (chatContext circuit1 processed)
  = generateSystemPrompt (chatContext circuit2 processed).
Proof.
  unfold settingsOf. intros [= Hgrade Hname Hstyles Hpolicies Htypes Hstate].
  unfold generateSystemPrompt, promptHead, promptTail, knowledgeBase, gradeLevel,
    teachingStyleDesc, homeworkApproach, responseStyle, chatContext.
  simpl. now rewrite Hgrade, Hname, Hstyles, Hpolicies, Htypes, Hstate.
Qed.

Lemma renderExcerpt_fields (items1 items2 : list CircuitContent) :
  map excerptFields items1 = map excerptFields items2 ->
  map renderExcerpt items1 = map renderExcerpt items2.
Proof.
  revert items2. induction items1 as [| c1 items1 IH]; intros [| c2 items2]; simpl;
    try discriminate; [reflexivity |].
  unfold excerptFields at 1 3. intros [= Htitle Hcontent Hdescription Hrest].
  f_equal; [| now apply IH].
  unfold renderExcerpt. now rewrite Htitle, Hcontent, Hdescription.
Qed.

(** C5: the composition is a function of the circuit's settings and of its
    active content, read at call time.  Two database states in which the
    circuit has the same settings and the same active excerpts give the
    same prompt, character for character, and the same request to the
    model, whatever else differs between them; in particular composing
    twice on one state gives one prompt.  The chat route itself only reads
    the store. *)
Theorem composition_depends_on_settings_and_active_content
    (circuitId : nat) (s1 s2 : Store) :
  option_map settingsOf (getWisdomCircuit circuitId s1)
    = option_map settingsOf (getWisdomCircuit circuitId s2) ->
  map excerptFields (getCircuitContent circuitId s1)
    = map excerptFields (getCircuitContent circuitId s2) ->
  composePrompt circuitId s1 = composePrompt circuitId s2
  /\ forall message,
       option_map (chatRequest message) (composeContext circuitId s1)
       = option_map (chatRequest message) (composeContext circuitId s2).
Proof.
  intros Hsettings Hactive.
  apply renderExcerpt_fields in Hactive.
  unfold composePrompt, composeContext, processedContent.
  destruct (getWisdomCircuit circuitId s1) as [circuit1 |],
           (getWisdomCircuit circuitId s2) as [circuit2 |];
    cbn [option_map] in *; try discriminate; [| split; reflexivity].
  assert (Hsame : settingsOf circuit1 = settingsOf circuit2) by congruence.
  rewrite Hactive.
  pose proof (generateSystemPrompt_settings
                (map renderExcerpt (getCircuitContent circuitId s2)) Hsame) as Hprompt.
  split; [now rewrite Hprompt |].
  intros message. unfold chatRequest. now rewrite Hprompt.
Qed.

Lemma composition_depends_on_settings_and_active_content_witness :
  replay plainLowerExtname twoRecordings emptyStore
    <> replay plainLowerExtname busierHistory emptyStore
  /\ composePrompt 1 (replay plainLowerExtname twoRecordings emptyStore)
     = composePrompt 1 (replay plainLowerExtname busierHistory emptyStore).
Proof.
  split; [discriminate |].
  apply (composition_depends_on_settings_and_active_content 1
           (replay plainLowerExtname twoRecordings emptyStore)
           (replay plainLowerExtname busierHistory emptyStore));
    reflexivity.
Defined.

(** ** C7: a failed transcription *)

Lemma transcribeCatch_status (error : Thrown) : 400 <= res_status (transcribeCatch error).
Proof.
  destruct error as [errors | code message | message |]; simpl; try lia.
  destruct (statusIs 401 code); simpl; lia.
Qed.

(** C7: when the speech-to-text call fails, with whatever error, the
    transcription route leaves the store as it found it, so no content item
    is created, and it answers with an error status; for a request that
    got as far as the call the answer is the one the route's [catch] makes
    of that error. *)
Theorem failed_transcription_stores_nothing
    (env : TranscribeEnv) (req : TranscribeRequest) (s : Store) (error : Thrown) :
  te_transcription env = Rejected error ->
  snd (transcribeRoute env req s) = s
  /\ 400 <= res_status (fst (transcribeRoute env req s))
  /\ (teacherOnly (tr_session req) = true ->
      tr_file req <> None ->
      tr_circuitId req <> None ->
      te_apiKey env = true ->
      fst (transcribeRoute env req s) = transcribeCatch error).
Proof.
  intros Hfails. unfold transcribeRoute. rewrite Hfails.
  destruct (teacherOnly (tr_session req)); simpl;
    [| repeat split; [lia | discriminate]].
  destruct (tr_file req) as [file |]; simpl;
    [| repeat split; [lia | congruence]].
  destruct (tr_circuitId req) as [circuitId |]; simpl;
    [| repeat split; [lia | congruence]].
  destruct (te_apiKey env); simpl;
    [| repeat split; [lia | discriminate]].
  repeat split. apply transcribeCatch_status.
Qed.

Lemma failed_transcription_stores_nothing_witness :
  transcribeRoute corruptAudio (transcribeFor 1)
    (replay plainLowerExtname twoRecordings emptyStore)
  = (status 500 (BodyMessageStatus "OpenAI API error: Invalid file format." (Some 400)),
     replay plainLowerExtname twoRecordings emptyStore).
Proof.
  destruct (failed_transcription_stores_nothing corruptAudio (transcribeFor 1)
              (replay plainLowerExtname twoRecordings emptyStore) eq_refl)
    as [Hstore [_ Hanswer]].
  rewrite (surjective_pairing (transcribeRoute _ _ _)).
  rewrite Hstore, Hanswer; [reflexivity | reflexivity | discriminate | discriminate
                            | reflexivity].
Defined.

(** ** C8: a PDF whose extraction is refused *)

Lemma truthy_length (text : string) :
  truthy text = true -> (1 <=? String.length text)%nat = true.
Proof.
  destruct text; [discriminate | reflexivity].
Qed.

(** A refused extraction request leaves [content] as it was initialised. *)
Lemma extractPdf_refused (env : UploadEnv) (response : FetchResponse) :
  ue_fetch env = Resolved response -> ok response = false -> extractPdf env = Some "".
Proof.
  unfold extractPdf. intros -> ->. now destruct (ue_readFile env).
Qed.

(** C8: a teacher's PDF upload to an existing circuit, with a title or a
    file name and a category the schema knows (or none), whose extraction
    request is answered with a status outside 200-299, succeeds: the route
    answers 200 with the saved item, and the item is created.  It carries
    the next id of the sequence and the empty string as content, it is
    active, it is in the content the store then returns for the circuit
    and its excerpt is in the next composition; the content table holds
    this one row more and every row it held, and nothing else in the store
    changes. *)
Theorem pdf_upload_survives_refused_extraction
    (lowerExtname : string -> string) (env : UploadEnv) (req : UploadRequest) (s : Store)
    (circuitId : nat) (file : UploadedFile) (response : FetchResponse) :
  teacherOnly (up_session req) = true ->
  up_circuitId req = Some circuitId ->
  getWisdomCircuit circuitId s <> None ->
  up_file req = Some file ->
  lowerExtname (originalname file) = ".pdf" ->
  truthy (bodyOr (up_title req) (originalname file)) = true ->
  oneOf categories (bodyOr (up_category req) "reference_material") = true ->
  ue_fetch env = Resolved response ->
  ok response = false ->
  exists saved,
    uploadRoute lowerExtname env req s
    = (json (BodyContent saved),
       {| wisdomCircuits := wisdomCircuits s;
          circuitContent := insertAt (ue_slot env) saved (circuitContent s);
          circuitContentSeq := S (circuitContentSeq s) |})
    /\ cc_content saved = Some ""
    /\ cc_fileType saved = "pdf"
    /\ cc_circuitId saved = circuitId
    /\ cc_isArchived saved = false
    /\ cc_id saved = S (circuitContentSeq s)
    /\ In saved (getCircuitContent circuitId (snd (uploadRoute lowerExtname env req s)))
    /\ In (renderExcerpt saved)
         (processedContent circuitId (snd (uploadRoute lowerExtname env req s)))
    /\ (forall c,
          In c (circuitContent (snd (uploadRoute lowerExtname env req s)))
          <-> c = saved \/ In c (circuitContent s))
    /\ length (circuitContent (snd (uploadRoute lowerExtname env req s)))
       = S (length (circuitContent s)).
Proof.
  intros Hteacher Hid Hcircuit Hfile Hext Htitle Hcategory Hfetch Hrefused.
  assert (Hanswer : exists saved,
             uploadRoute lowerExtname env req s
             = (json (BodyContent saved),
                {| wisdomCircuits := wisdomCircuits s;
                   circuitContent := insertAt (ue_slot env) saved (circuitContent s);
                   circuitContentSeq := S (circuitContentSeq s) |})
             /\ cc_content saved = Some ""
             /\ cc_fileType saved = "pdf"
             /\ cc_circuitId saved = circuitId
             /\ cc_isArchived saved = false
             /\ cc_id saved = S (circuitContentSeq s)).
  { unfold uploadRoute.
    rewrite Hteacher, Hid, Hfile, Hext. cbn [negb fileTypeOf String.eqb Ascii.eqb Bool.eqb].
    change (fileTypeOf ".pdf") with (Some "pdf").
    change ("pdf" =? "txt") with false. change ("pdf" =? "pdf") with true.
    cbv iota. rewrite (extractPdf_refused env Hfetch Hrefused).
    unfold parseInsertCircuitContent.
    cbn [uploadData cd_title cd_fileType cd_category].
    rewrite (truthy_length _ Htitle), Hcategory.
    change (oneOf fileTypes "pdf") with true. cbv iota. cbn [andb].
    unfold createCircuitContent. cbn [ins_circuitId cd_circuitId uploadData].
    destruct (getWisdomCircuit circuitId s) as [circuit |]; [| congruence].
    eexists. split; [reflexivity |]. repeat split. }
  destruct Hanswer as [saved [Hanswer [Hcontent [Htype [Hsaved [Hactive Hnext]]]]]].
  exists saved. rewrite Hanswer. cbn [snd circuitContent].
  assert (Hin : In saved
                  (getCircuitContent circuitId
                     {| wisdomCircuits := wisdomCircuits s;
                        circuitContent := insertAt (ue_slot env) saved (circuitContent s);
                        circuitContentSeq := S (circuitContentSeq s) |})).
  { apply filter_In. split.
    - apply in_insertAt. now left.
    - apply isActiveIn_true. now split. }
  split; [reflexivity |].
  do 5 (split; [assumption |]).
  split; [exact Hin |].
  split; [unfold processedContent; now apply in_map |].
  split; [intros c; apply in_insertAt | apply length_insertAt].
Qed.

Lemma pdf_upload_survives_refused_extraction_witness :
  exists saved,
    uploadRoute plainLowerExtname extractionDown handoutUpload
      (replay plainLowerExtname twoRecordings emptyStore)
    = (json (BodyContent saved),
       {| wisdomCircuits :=
            wisdomCircuits (replay plainLowerExtname twoRecordings emptyStore);
          circuitContent :=
            insertAt 0 saved
              (circuitContent (replay plainLowerExtname twoRecordings emptyStore));
          circuitContentSeq := 3 |})
    /\ cc_title saved = "Week1-Handout.PDF"
    /\ cc_content saved = Some ""
    /\ In saved
         (getCircuitContent 1
            (snd (uploadRoute plainLowerExtname extractionDown handoutUpload
                    (replay plainLowerExtname twoRecordings emptyStore))))
    /\ map cc_id
         (getCircuitContent 1
            (snd (uploadRoute plainLowerExtname extractionDown handoutUpload
                    (replay plainLowerExtname twoRecordings emptyStore))))
       = [3; 1; 2].
Proof.
  destruct (pdf_upload_survives_refused_extraction plainLowerExtname extractionDown
              handoutUpload (replay plainLowerExtname twoRecordings emptyStore)
              (circuitId := 1) (file := handout)
              (response := {| fr_status := 500; fr_json := Rejected NotAnError |}))
    as [saved [Hanswer [Hcontent [_ [_ [_ [_ [Hin _]]]]]]]];
    try reflexivity; try discriminate.
  exists saved. split; [exact Hanswer |].
  split; [injection Hanswer as Hsaved _; now rewrite <- Hsaved |].
  split; [exact Hcontent |]. split; [exact Hin | reflexivity].
Defined.

(** ** C9: new content is active *)

(** C9: whatever the object handed to [createCircuitContent] carries, an
    [isArchived] key included, the row it creates has its flag unset, and
    the store's next answer for the circuit and the next composition
    contain it; the creation succeeds whenever the circuit exists. *)
Theorem created_content_starts_active
    (content : InsertCircuitContent) (now slot : nat) (s : Store) :
  (forall saved s',
      createCircuitContent content now slot s = (Resolved saved, s') ->
      cc_isArchived saved = false
      /\ In saved (getCircuitContent (ins_circuitId content) s')
      /\ In (renderExcerpt saved) (processedContent (ins_circuitId content) s'))
  /\ (getWisdomCircuit (ins_circuitId content) s <> None ->
      exists saved s', createCircuitContent content now slot s = (Resolved saved, s')).
Proof.
  unfold createCircuitContent.
  destruct (getWisdomCircuit (ins_circuitId content) s) as [circuit |].
  - split; [| intros _; eauto].
    intros saved s' [= <- <-].
    assert (Hin : In (insertedRow (S (circuitContentSeq s)) now (insertValues content))
                     (getCircuitContent (ins_circuitId content)
                        {| wisdomCircuits := wisdomCircuits s;
                           circuitContent :=
                             insertAt slot
                               (insertedRow (S (circuitContentSeq s)) now
                                  (insertValues content))
                               (circuitContent s);
                           circuitContentSeq := S (circuitContentSeq s) |})).
    { apply filter_In. split.
      - apply in_insertAt. now left.
      - apply isActiveIn_true. split; reflexivity. }
    split; [reflexivity |]. split; [exact Hin |].
    unfold processedContent. now apply in_map.
  - split; [intros saved s' [=] | congruence].
Qed.

Lemma created_content_starts_active_witness :
  ins_isArchived smuggledFlag = Some true
  /\ exists saved s',
       createCircuitContent smuggledFlag 5000 0 scenarioA = (Resolved saved, s')
       /\ cc_isArchived saved = false
       /\ getCircuitContent 1 s' = [saved].
Proof.
  split; [reflexivity |].
  destruct (created_content_starts_active smuggledFlag 5000 0 scenarioA) as [Hactive Hcreated].
  destruct Hcreated as [saved [s' Hcreate]]; [discriminate |].
  exists saved, s'. split; [exact Hcreate |].
  split; [exact (proj1 (Hactive saved s' Hcreate)) |].
  injection Hcreate as <- <-. reflexivity.
Defined.

(** ** C10: a reply without content *)

(** C10: when the call to the model succeeds and the content of its first
    choice is empty or missing, [processChatMessage] resolves, it does not
    throw, and its value is the apology, which is not the empty string. *)
Theorem empty_reply_becomes_apology
    (createCompletion : ChatRequest -> Outcome ChatCompletion)
    (message : string) (context : CircuitContext)
    (reply : option string) (others : ChatCompletion) :
  createCompletion (chatRequest message context) = Resolved (reply :: others) ->
  reply = None \/ reply = Some "" ->
  processChatMessage createCompletion message context = Resolved apology
  /\ apology
     = "I apologize, but I couldn't generate a response. Please try rephrasing your question."
  /\ apology <> "".
Proof.
  intros Hcall Hreply. unfold processChatMessage. rewrite Hcall.
  repeat split; [| discriminate].
  now destruct Hreply as [-> | ->].
Qed.

Lemma empty_reply_becomes_apology_witness :
  processChatMessage silentModel "What is 2 + 2?"
    (chatContext (circuitRow 1 "Counting" "K") [])
  = Resolved apology.
Proof.
  apply (empty_reply_becomes_apology silentModel "What is 2 + 2?"
           (chatContext (circuitRow 1 "Counting" "K") []) (reply := None) (others := [])).
  - reflexivity.
  - now left.
Defined.

(** * Further properties *)

(** ** The switch tables and the schema's enumerations *)

Lemma teachingStyle_known (tag : string) :
  truthy (teachingStyleClause tag) = oneOf teachingStyleSchema tag.
Proof.
  unfold teachingStyleClause, oneOf, teachingStyleSchema. simpl.
  repeat match goal with
         | |- context [tag =? ?known] => destruct (tag =? known); try reflexivity
         end.
Qed.

Lemma homeworkPolicy_known (tag : string) :
  truthy (homeworkPolicyClause tag) = oneOf homeworkPolicySchema tag.
Proof.
  unfold homeworkPolicyClause, oneOf, homeworkPolicySchema. simpl.
  repeat match goal with
         | |- context [tag =? ?known] => destruct (tag =? known); try reflexivity
         end.
Qed.

Lemma responseType_known (tag : string) :
  truthy (responseTypeClause tag) = oneOf responseTypeSchema tag.
Proof.
  unfold responseTypeClause, oneOf, responseTypeSchema. simpl.
  repeat match goal with
         | |- context [tag =? ?known] => destruct (tag =? known); try reflexivity
         end.
Qed.

Lemma oneOf_In (allowed : list string) (v : string) :
  oneOf allowed v = true <-> In v allowed.
Proof.
  unfold oneOf. rewrite existsb_exists. split.
  - intros [x [Hin Heq]]. apply String.eqb_eq in Heq. now subst.
  - intros Hin. exists v. split; [assumption | apply String.eqb_refl].
Qed.

Lemma clauses_of_known (clause : string -> string) (schema tags : list string) :
  (forall tag, truthy (clause tag) = oneOf schema tag) ->
  clauses clause tags = map clause (filter (oneOf schema) tags).
Proof.
  intros Hknown. unfold clauses.
  induction tags as [| tag tags IH]; simpl; [reflexivity |].
  rewrite Hknown. destruct (oneOf schema tag); simpl; now rewrite IH.
Qed.

(** X1: a tag gives a clause exactly when the schema lists it, for each of
    the three settings; so the clauses of a settings array are the clauses
    of its schema tags, in the order of the array, and an array the schema
    accepts loses no tag. *)
Theorem clauses_are_those_of_schema_tags (tags : list string) :
  (forall tag, teachingStyleClause tag <> "" <-> In tag teachingStyleSchema)
  /\ (forall tag, homeworkPolicyClause tag <> "" <-> In tag homeworkPolicySchema)
  /\ (forall tag, responseTypeClause tag <> "" <-> In tag responseTypeSchema)
  /\ clauses teachingStyleClause tags
     = map teachingStyleClause (filter (oneOf teachingStyleSchema) tags)
  /\ clauses homeworkPolicyClause tags
     = map homeworkPolicyClause (filter (oneOf homeworkPolicySchema) tags)
  /\ clauses responseTypeClause tags
     = map responseTypeClause (filter (oneOf responseTypeSchema) tags).
Proof.
  repeat split;
    try (now apply clauses_of_known; auto using teachingStyle_known,
           homeworkPolicy_known, responseType_known).
  all: try (intros Hclause; apply oneOf_In;
            first [rewrite <- teachingStyle_known
                  | rewrite <- homeworkPolicy_known
                  | rewrite <- responseType_known];
            unfold truthy; apply negb_true_iff, String.eqb_neq; assumption).
  all: intros Hin; apply oneOf_In in Hin;
    first [rewrite <- teachingStyle_known in Hin
          | rewrite <- homeworkPolicy_known in Hin
          | rewrite <- responseType_known in Hin];
    unfold truthy in Hin; now apply negb_true_iff, String.eqb_neq in Hin.
Qed.

(** ** The answers of the chat route *)

Lemma orElse_apology (reply : string) : orElse reply apology <> "".
Proof.
  unfold orElse. destruct (truthy reply) eqn:E.
  - intros ->. discriminate.
  - discriminate.
Qed.

(** X2: the answers of the chat route.  Without a message it answers 400
    whatever the circuit id.  With a message it answers 500 with one fixed
    text when the id is not a number, 404 when no circuit has the id, and
    otherwise sends the model the composed prompt and the message: 500
    with the same fixed text when that call is rejected or comes back
    without a choice, 200 when it comes back with one, the response being
    the content of the first choice, or the apology when that content is
    missing or empty, so never the empty string.  There is no fifth
    answer. *)
Theorem chat_route_answers
    (createCompletion : ChatRequest -> Outcome ChatCompletion) (req : ChatTurn) (s : Store) :
  (truthyOpt (chat_message req) = false ->
   chatRoute createCompletion req s = status 400 (BodyError "Message is required"))
  /\ (forall message,
        chat_message req = Some message ->
        truthy message = true ->
        (chat_circuitId req = None ->
         chatRoute createCompletion req s
         = status 500 (BodyError "Failed to process chat message"))
        /\ (forall circuitId,
              chat_circuitId req = Some circuitId ->
              (inIntegerRange circuitId ->
               getWisdomCircuit circuitId s = None ->
               chatRoute createCompletion req s
               = status 404 (BodyError "Circuit not found"))
              /\ (forall circuit prompt,
                    getWisdomCircuit circuitId s = Some circuit ->
                    composePrompt circuitId s = Some prompt ->
                    forall request,
                      request = {| model := "gpt-4o";
                                   messages := [ {| role := "system"; content := prompt |};
                                                 {| role := "user"; content := message |} ];
                                   temperatureTenths := 7;
                                   max_tokens := 500 |} ->
                      (forall error,
                          createCompletion request = Rejected error ->
                          chatRoute createCompletion req s
                          = status 500 (BodyError "Failed to process chat message"))
                      /\ (createCompletion request = Resolved [] ->
                          chatRoute createCompletion req s
                          = status 500 (BodyError "Failed to process chat message"))
                      /\ (forall choice others,
                            createCompletion request = Resolved (choice :: others) ->
                            exists response,
                              chatRoute createCompletion req s = json (BodyResponse response)
                              /\ response <> ""
                              /\ response = match choice with
                                            | Some reply =>
                                                if truthy reply then reply else apology
                                            | None => apology
                                            end))))
  /\ ((exists response,
          chatRoute createCompletion req s = json (BodyResponse response)
          /\ response <> "")
      \/ chatRoute createCompletion req s = status 400 (BodyError "Message is required")
      \/ chatRoute createCompletion req s = status 404 (BodyError "Circuit not found")
      \/ chatRoute createCompletion req s
         = status 500 (BodyError "Failed to process chat message")).
Proof.
  split; [| split].
  - unfold chatRoute. destruct (chat_message req) as [message |]; simpl; [| reflexivity].
    now intros ->.
  - intros message Hmessage Htruthy. unfold chatRoute. rewrite Hmessage, Htruthy. cbn [negb].
    split; [now intros -> |].
    intros circuitId ->. unfold composePrompt, composeContext. split.
    + intros _ Hmissing. now rewrite Hmissing.
    + intros circuit prompt Hfound. rewrite Hfound. cbn [option_map].
      intros [= <-] request ->. unfold processChatMessage, chatRequest.
      split; [| split].
      * intros error Hcall. now rewrite Hcall.
      * intros Hcall. now rewrite Hcall.
      * intros choice others Hcall. rewrite Hcall.
        destruct choice as [reply |]; eexists; (split; [reflexivity |]).
        -- split; [apply orElse_apology | reflexivity].
        -- split; [discriminate | reflexivity].
  - unfold chatRoute.
    destruct (chat_message req) as [message |]; [| now right; left].
    destruct (truthy message); simpl; [| now right; left].
    destruct (chat_circuitId req) as [circuitId |]; [| now right; right; right].
    destruct (composeContext circuitId s) as [context |]; [| now right; right; left].
    unfold processChatMessage.
    destruct (createCompletion (chatRequest message context)) as [[| [reply |] others] | error].
    + now right; right; right.
    + left. eexists. split; [reflexivity | apply orElse_apology].
    + left. eexists. split; [reflexivity | discriminate].
    + now right; right; right.
Qed.

Lemma chat_route_answers_witness :
  chatRoute silentModel {| chat_circuitId := Some 1; chat_message := Some "" |} scenarioA
  = status 400 (BodyError "Message is required")
  /\ chatRoute silentModel {| chat_circuitId := Some 5; chat_message := Some "Hello" |}
       scenarioA
     = status 404 (BodyError "Circuit not found")
  /\ chatRoute busyModel {| chat_circuitId := Some 1; chat_message := Some "Hello" |}
       scenarioA
     = status 500 (BodyError "Failed to process chat message")
  /\ chatRoute silentModel {| chat_circuitId := Some 1; chat_message := Some "Hello" |}
       scenarioA
     = json (BodyResponse apology).
Proof.
  split; [| split; [| split]].
  - apply (chat_route_answers silentModel
             {| chat_circuitId := Some 1; chat_message := Some "" |} scenarioA).
    reflexivity.
  - apply (proj1 (proj2 (proj1 (proj2 (chat_route_answers silentModel
                                          {| chat_circuitId := Some 5;
                                             chat_message := Some "Hello" |} scenarioA))
                                 "Hello" eq_refl eq_refl)
                          5 eq_refl)).
    + unfold inIntegerRange. simpl. lia.
    + reflexivity.
  - destruct (composePrompt 1 scenarioA) as [prompt |] eqn:Hprompt; [| discriminate].
    apply (proj1 (proj2 (proj2 (proj1 (proj2 (chat_route_answers busyModel
                                                 {| chat_circuitId := Some 1;
                                                    chat_message := Some "Hello" |}
                                                 scenarioA))
                                        "Hello" eq_refl eq_refl)
                                 1 eq_refl)
                          (circuitRow 1 "Counting" "K") prompt eq_refl Hprompt _ eq_refl)
             (ApiError (Some 429) "Rate limit reached")).
    reflexivity.
  - destruct (composePrompt 1 scenarioA) as [prompt |] eqn:Hprompt; [| discriminate].
    destruct (proj2 (proj2 (proj2 (proj2 (proj1 (proj2 (chat_route_answers silentModel
                                                          {| chat_circuitId := Some 1;
                                                             chat_message := Some "Hello" |}
                                                          scenarioA))
                                                 "Hello" eq_refl eq_refl)
                                          1 eq_refl)
                                   (circuitRow 1 "Counting" "K") prompt eq_refl Hprompt _
                                   eq_refl))
                     None [] eq_refl)
      as [response [Hanswer [_ ->]]].
    exact Hanswer.
Defined.

(** ** Reading and archiving content through the routes *)



(** X4: a session that is not an authenticated teacher gets 403 from each
    of the three routes that write content, and the store is left as it
    was. *)
Theorem content_writes_need_a_teacher
    (lowerExtname : string -> string) (session : Session) (s : Store) :
  teacherOnly session = false ->
  (forall env req, tr_session req = session ->
     transcribeRoute env req s
     = (status 403 (BodyMessage "Only teachers can upload recordings"), s))
  /\ (forall env req, up_session req = session ->
        uploadRoute lowerExtname env req s
        = (status 403 (BodyMessage "Only teachers can upload content"), s))
  /\ (forall req, ar_session req = session ->
        archiveRoute req s
        = (status 403 (BodyMessage "Only teachers can delete content"), s)).
Proof.
  intros Hsession. repeat split.
  - intros env req Hreq. unfold transcribeRoute. now rewrite Hreq, Hsession.
  - intros env req Hreq. unfold uploadRoute. now rewrite Hreq, Hsession.
  - intros req Hreq. unfold archiveRoute. now rewrite Hreq, Hsession.
Qed.

Lemma content_writes_need_a_teacher_witness :
  archiveRoute {| ar_session := {| isAuthenticated := true; isTeacher := false |};
                  ar_id := Some 1 |}
    (replay plainLowerExtname twoRecordings emptyStore)
  = (status 403 (BodyMessage "Only teachers can delete content"),
     replay plainLowerExtname twoRecordings emptyStore).
Proof.
  apply (content_writes_need_a_teacher plainLowerExtname
           {| isAuthenticated := true; isTeacher := false |}
           (replay plainLowerExtname twoRecordings emptyStore) eq_refl).
  reflexivity.
Defined.

(** ** What the ingestion routes store *)

Lemma parse_resolved (data : ContentData) (validated : InsertCircuitContent) :
  parseInsertCircuitContent data = Resolved validated ->
  validated = {| ins_circuitId := cd_circuitId data;
                 ins_title := cd_title data;
                 ins_description := Some (cd_description data);
                 ins_fileType := cd_fileType data;
                 ins_contentUrl := cd_contentUrl data;
                 ins_category := cd_category data;
                 ins_content := Some (cd_content data);
                 ins_isArchived := None |}.
Proof.
  unfold parseInsertCircuitContent.
  destruct (_ && _); [| discriminate].
  now intros [= <-].
Qed.

Lemma createCircuitContent_cases (content : InsertCircuitContent) (now slot : nat) (s : Store) :
  (getWisdomCircuit (ins_circuitId content) s <> None
   /\ createCircuitContent content now slot s
      = (Resolved (insertedRow (S (circuitContentSeq s)) now (insertValues content)),
         withContent slot (insertedRow (S (circuitContentSeq s)) now (insertValues content)) s))
  \/ (getWisdomCircuit (ins_circuitId content) s = None
      /\ exists error,
           createCircuitContent content now slot s
           = (Rejected (PlainError error),
              {| wisdomCircuits := wisdomCircuits s;
                 circuitContent := circuitContent s;
                 circuitContentSeq := S (circuitContentSeq s) |})).
Proof.
  unfold createCircuitContent.
  destruct (getWisdomCircuit (ins_circuitId content) s).
  - left. split; [discriminate | reflexivity].
  - right. split; [reflexivity | eauto].
Qed.

(** An active row that was stored is in the content the store returns for
    its circuit. *)
Lemma withContent_listed (slot : nat) (row : CircuitContent) (s : Store) :
  cc_isArchived row = false ->
  In row (getCircuitContent (cc_circuitId row) (withContent slot row s)).
Proof.
  intros Hactive. apply filter_In. split.
  - apply in_insertAt. now left.
  - apply isActiveIn_true. now split.
Qed.

(** X5: an ingestion request either answers 200 with a new active row of
    the requested circuit, carrying the next id of the sequence and the
    database's time stamp, that row is the one thing added to the store
    and it is in the content the store then returns for the circuit; or it
    answers with an error status and neither table has changed. *)
Theorem ingestion_stores_what_it_answers (lowerExtname : string -> string) (s : Store) :
  (forall env req,
      (exists saved,
          transcribeRoute env req s
          = (json (BodyContent saved), withContent (te_slot env) saved s)
          /\ cc_id saved = S (circuitContentSeq s)
          /\ cc_uploadedAt saved = te_now env
          /\ cc_isArchived saved = false
          /\ tr_circuitId req = Some (cc_circuitId saved)
          /\ In saved (getCircuitContent (cc_circuitId saved)
                         (snd (transcribeRoute env req s))))
      \/ (400 <= res_status (fst (transcribeRoute env req s))
          /\ circuitContent (snd (transcribeRoute env req s)) = circuitContent s
          /\ wisdomCircuits (snd (transcribeRoute env req s)) = wisdomCircuits s))
  /\ (forall env req,
        (exists saved,
            uploadRoute lowerExtname env req s
            = (json (BodyContent saved), withContent (ue_slot env) saved s)
            /\ cc_id saved = S (circuitContentSeq s)
            /\ cc_uploadedAt saved = ue_now env
            /\ cc_isArchived saved = false
            /\ up_circuitId req = Some (cc_circuitId saved)
            /\ In saved (getCircuitContent (cc_circuitId saved)
                           (snd (uploadRoute lowerExtname env req s))))
        \/ (400 <= res_status (fst (uploadRoute lowerExtname env req s))
            /\ circuitContent (snd (uploadRoute lowerExtname env req s)) = circuitContent s
            /\ wisdomCircuits (snd (uploadRoute lowerExtname env req s)) = wisdomCircuits s)).
Proof.
  split; intros env req.
  - unfold transcribeRoute.
    destruct (negb (teacherOnly (tr_session req))); [right; simpl; repeat split; lia |].
    destruct (tr_file req); [| right; simpl; repeat split; lia].
    destruct (tr_circuitId req) as [circuitId |]; [| right; simpl; repeat split; lia].
    destruct (negb (te_apiKey env)); [right; simpl; repeat split; lia |].
    destruct (te_transcription env) as [text | error];
      [| right; simpl; repeat split; apply transcribeCatch_status].
    destruct (parseInsertCircuitContent _) as [validated | error] eqn:Hparse;
      [| right; simpl; repeat split; apply transcribeCatch_status].
    apply parse_resolved in Hparse.
    destruct (createCircuitContent_cases validated (te_now env) (te_slot env) s)
      as [[_ ->] | [_ [error ->]]].
    + left. eexists. split; [reflexivity |]. subst validated.
      do 4 (split; [reflexivity |]). now apply withContent_listed.
    + right. simpl. repeat split; lia.
  - unfold uploadRoute.
    destruct (negb (teacherOnly (up_session req))); [right; simpl; repeat split; lia |].
    destruct (up_circuitId req) as [circuitId |]; [| right; simpl; repeat split; lia].
    destruct (up_file req) as [file |]; [| right; simpl; repeat split; lia].
    destruct (fileTypeOf (lowerExtname (originalname file))) as [fileType |];
      [| right; simpl; repeat split; lia].
    match goal with
    | |- context [match ?extraction with Resolved _ => _ | Rejected _ => _ end] =>
        destruct extraction as [extracted | error]; [| right; simpl; repeat split; lia]
    end.
    destruct (parseInsertCircuitContent _) as [validated | error] eqn:Hparse;
      [| right; destruct error; simpl; repeat split; lia].
    apply parse_resolved in Hparse.
    destruct (createCircuitContent_cases validated (ue_now env) (ue_slot env) s)
      as [[_ ->] | [_ [error ->]]].
    + left. eexists. split; [reflexivity |]. subst validated.
      do 4 (split; [reflexivity |]). now apply withContent_listed.
    + right. simpl. repeat split; lia.
Qed.

Lemma fileTypeOf_known (fileExtension : string) :
  fileTypeOf fileExtension = None <-> ~ In fileExtension knownExtensions.
Proof.
  unfold fileTypeOf, knownExtensions. simpl.
  repeat match goal with
         | |- context [fileExtension =? ?known] =>
             destruct (String.eqb_spec fileExtension known)
         end; simpl; split; intros H; try discriminate; try reflexivity;
    intuition congruence.
Qed.

Lemma fileTypeOf_valid (fileExtension fileType : string) :
  fileTypeOf fileExtension = Some fileType -> oneOf fileTypes fileType = true.
Proof.
  unfold fileTypeOf.
  repeat match goal with
         | |- context [if ?test then _ else _] => destruct test
         end; intros [= <-]; reflexivity.
Qed.

(** X6: the upload route knows six extensions.  A teacher's upload of a
    file with any other extension is answered 400 before the file is read,
    and the store is left as it was. *)
Theorem unsupported_extension_is_refused
    (lowerExtname : string -> string) (env : UploadEnv) (req : UploadRequest) (s : Store)
    (file : UploadedFile) :
  (forall fileExtension,
      fileTypeOf fileExtension = None <-> ~ In fileExtension knownExtensions)
  /\ (teacherOnly (up_session req) = true ->
      up_circuitId req <> None ->
      up_file req = Some file ->
      ~ In (lowerExtname (originalname file)) knownExtensions ->
      uploadRoute lowerExtname env req s
      = (status 400 (BodyMessage "Unsupported file type"), s)).
Proof.
  split; [apply fileTypeOf_known |].
  intros Hteacher Hid Hfile Hext. apply fileTypeOf_known in Hext.
  unfold uploadRoute. rewrite Hteacher, Hfile, Hext.
  destruct (up_circuitId req); [reflexivity | congruence].
Qed.

Lemma unsupported_extension_is_refused_witness :
  uploadRoute plainLowerExtname extractionDown (uploadOf "photo.JPG") scenarioA
  = (status 400 (BodyMessage "Unsupported file type"), scenarioA).
Proof.
  eapply (proj2 (unsupported_extension_is_refused plainLowerExtname extractionDown
                   (uploadOf "photo.JPG") scenarioA _)).
  - reflexivity.
  - discriminate.
  - reflexivity.
  - vm_compute. intuition discriminate.
Defined.

Lemma uploadRoute_valid (lowerExtname : string -> string)
    (env : UploadEnv) (req : UploadRequest) (s : Store)
    (circuitId : nat) (file : UploadedFile) (fileType : string) (extracted : option string) :
  teacherOnly (up_session req) = true ->
  up_circuitId req = Some circuitId ->
  getWisdomCircuit circuitId s <> None ->
  up_file req = Some file ->
  fileTypeOf (lowerExtname (originalname file)) = Some fileType ->
  extraction env fileType = Resolved extracted ->
  truthy (bodyOr (up_title req) (originalname file)) = true ->
  oneOf categories (bodyOr (up_category req) "reference_material") = true ->
  uploadRoute lowerExtname env req s
  = (json (BodyContent (uploadedRow (S (circuitContentSeq s)) (ue_now env) circuitId req
                          file fileType extracted)),
     withContent (ue_slot env)
       (uploadedRow (S (circuitContentSeq s)) (ue_now env) circuitId req file fileType
          extracted) s).
Proof.
  intros Hteacher Hid Hcircuit Hfile Htype Hextraction Htitle Hcategory.
  unfold uploadRoute. rewrite Hteacher, Hid, Hfile, Htype.
  unfold extraction in Hextraction. cbv zeta. cbn [negb]. rewrite Hextraction.
  unfold parseInsertCircuitContent.
  cbn [uploadData cd_title cd_fileType cd_category].
  rewrite (truthy_length _ Htitle), Hcategory, (fileTypeOf_valid _ Htype).
  cbn [andb]. unfold createCircuitContent. cbn [ins_circuitId cd_circuitId uploadData].
  destruct (getWisdomCircuit circuitId s); [reflexivity | congruence].
Qed.

Lemma uploadRoute_listed (lowerExtname : string -> string)
    (env : UploadEnv) (req : UploadRequest) (s : Store)
    (circuitId : nat) (file : UploadedFile) (fileType : string) (extracted : option string) :
  teacherOnly (up_session req) = true ->
  up_circuitId req = Some circuitId ->
  getWisdomCircuit circuitId s <> None ->
  up_file req = Some file ->
  fileTypeOf (lowerExtname (originalname file)) = Some fileType ->
  extraction env fileType = Resolved extracted ->
  truthy (bodyOr (up_title req) (originalname file)) = true ->
  oneOf categories (bodyOr (up_category req) "reference_material") = true ->
  In (uploadedRow (S (circuitContentSeq s)) (ue_now env) circuitId req file fileType
        extracted)
    (getCircuitContent circuitId (snd (uploadRoute lowerExtname env req s))).
Proof.
  intros Hteacher Hid Hcircuit Hfile Htype Hextraction Htitle Hcategory.
  rewrite (uploadRoute_valid lowerExtname env req s Hteacher Hid Hcircuit Hfile Htype
             Hextraction Htitle Hcategory).
  cbn [snd].
  exact (withContent_listed (ue_slot env)
           (uploadedRow (S (circuitContentSeq s)) (ue_now env) circuitId req file fileType
              extracted) s eq_refl).
Qed.

(** X7: a valid upload of a [.doc], [.docx], [.ppt] or [.pptx] file is
    stored with the empty string as content and with the type [docx] or
    [pptx], and is in the content the store then returns for the circuit;
    the file is not read and no extraction is requested, so the answer is
    the same however those would have gone. *)
Theorem office_documents_are_stored_without_text
    (lowerExtname : string -> string) (env : UploadEnv) (req : UploadRequest) (s : Store)
    (circuitId : nat) (file : UploadedFile) :
  teacherOnly (up_session req) = true ->
  up_circuitId req = Some circuitId ->
  getWisdomCircuit circuitId s <> None ->
  up_file req = Some file ->
  In (lowerExtname (originalname file)) [".doc"; ".docx"; ".ppt"; ".pptx"] ->
  truthy (bodyOr (up_title req) (originalname file)) = true ->
  oneOf categories (bodyOr (up_category req) "reference_material") = true ->
  exists saved,
    uploadRoute lowerExtname env req s
    = (json (BodyContent saved), withContent (ue_slot env) saved s)
    /\ cc_content saved = Some ""
    /\ cc_fileType saved
       = (if oneOf [".doc"; ".docx"] (lowerExtname (originalname file))
          then "docx" else "pptx")
    /\ (forall read reply,
          uploadRoute lowerExtname
            {| ue_readFile := read; ue_fetch := reply;
               ue_now := ue_now env; ue_slot := ue_slot env |} req s
          = uploadRoute lowerExtname env req s)
    /\ In saved (getCircuitContent circuitId (snd (uploadRoute lowerExtname env req s))).
Proof.
  intros Hteacher Hid Hcircuit Hfile Hext Htitle Hcategory.
  assert (Htype : exists fileType,
             fileTypeOf (lowerExtname (originalname file)) = Some fileType
             /\ fileType = (if oneOf [".doc"; ".docx"] (lowerExtname (originalname file))
                            then "docx" else "pptx")
             /\ forall world, extraction world fileType = Resolved (Some "")).
  { simpl in Hext.
    destruct Hext as [<- | [<- | [<- | [<- | []]]]];
      eexists; (split; [reflexivity |]); split; reflexivity. }
  destruct Htype as [fileType [Htype [Hname Hnone]]].
  eexists. split; [| split; [| split; [| split]]].
  - exact (uploadRoute_valid lowerExtname env req s Hteacher Hid Hcircuit Hfile Htype
             (Hnone env) Htitle Hcategory).
  - reflexivity.
  - exact Hname.
  - intros read reply.
    rewrite (uploadRoute_valid lowerExtname env req s Hteacher Hid Hcircuit Hfile Htype
               (Hnone env) Htitle Hcategory).
    now rewrite (uploadRoute_valid lowerExtname _ req s Hteacher Hid Hcircuit Hfile Htype
                   (Hnone _) Htitle Hcategory).
  - exact (uploadRoute_listed lowerExtname env req s Hteacher Hid Hcircuit Hfile Htype
             (Hnone env) Htitle Hcategory).
Qed.

Lemma office_documents_are_stored_without_text_witness :
  exists saved,
    uploadRoute plainLowerExtname extractionDown (uploadOf "Syllabus.DOC") scenarioA
    = (json (BodyContent saved), withContent 0 saved scenarioA)
    /\ cc_content saved = Some ""
    /\ cc_fileType saved = "docx"
    /\ In saved
         (getCircuitContent 1
            (snd (uploadRoute plainLowerExtname extractionDown (uploadOf "Syllabus.DOC")
                    scenarioA))).
Proof.
  destruct (office_documents_are_stored_without_text plainLowerExtname extractionDown
              (uploadOf "Syllabus.DOC") scenarioA (circuitId := 1)
              (file := {| originalname := "Syllabus.DOC";
                          mimetype := "application/octet-stream";
                          filename := "file-1700000000000-9";
                          path := "uploads/file-1700000000000-9" |}))
    as [saved [Hanswer [Hcontent [Htype [_ Hlisted]]]]];
    try reflexivity; try discriminate.
  - vm_compute. tauto.
  - exists saved. repeat split; assumption.
Defined.

(** X8: a valid upload of a [.txt] file stores the text of the file as it
    was read, in a row that is then in the content the store returns for
    the circuit; when the file cannot be read the route answers 500 and
    stores nothing. *)
Theorem text_files_are_stored_verbatim
    (lowerExtname : string -> string) (env : UploadEnv) (req : UploadRequest) (s : Store)
    (circuitId : nat) (file : UploadedFile) :
  teacherOnly (up_session req) = true ->
  up_circuitId req = Some circuitId ->
  up_file req = Some file ->
  lowerExtname (originalname file) = ".txt" ->
  (forall text,
      ue_readFile env = Resolved text ->
      getWisdomCircuit circuitId s <> None ->
      truthy (bodyOr (up_title req) (originalname file)) = true ->
      oneOf categories (bodyOr (up_category req) "reference_material") = true ->
      exists saved,
        uploadRoute lowerExtname env req s
        = (json (BodyContent saved), withContent (ue_slot env) saved s)
        /\ cc_content saved = Some text
        /\ cc_fileType saved = "txt"
        /\ In saved
             (getCircuitContent circuitId (snd (uploadRoute lowerExtname env req s))))
  /\ (forall error,
        ue_readFile env = Rejected error ->
        uploadRoute lowerExtname env req s
        = (status 500 (BodyMessage "Failed to upload content"), s)).
Proof.
  intros Hteacher Hid Hfile Hext. split.
  - intros text Hread Hcircuit Htitle Hcategory.
    assert (Htype : fileTypeOf (lowerExtname (originalname file)) = Some "txt")
      by now rewrite Hext.
    assert (Hextraction : extraction env "txt" = Resolved (Some text))
      by (unfold extraction; simpl; now rewrite Hread).
    eexists. split; [| split; [| split]].
    + exact (uploadRoute_valid lowerExtname env req s Hteacher Hid Hcircuit Hfile Htype
               Hextraction Htitle Hcategory).
    + simpl. unfold orElse. destruct (truthy text) eqn:E; [reflexivity |].
      apply truthy_false in E. now rewrite E.
    + reflexivity.
    + exact (uploadRoute_listed lowerExtname env req s Hteacher Hid Hcircuit Hfile Htype
               Hextraction Htitle Hcategory).
  - intros error Hread. unfold uploadRoute.
    rewrite Hteacher, Hid, Hfile, Hext. simpl. now rewrite Hread.
Qed.

Lemma text_files_are_stored_verbatim_witness :
  exists saved,
    uploadRoute plainLowerExtname (disk "Count to ten." {| fr_status := 200; fr_json := Resolved None |})
      (uploadOf "notes.txt") scenarioA
    = (json (BodyContent saved), withContent 7 saved scenarioA)
    /\ cc_content saved = Some "Count to ten."
    /\ In saved
         (getCircuitContent 1
            (snd (uploadRoute plainLowerExtname
                    (disk "Count to ten." {| fr_status := 200; fr_json := Resolved None |})
                    (uploadOf "notes.txt") scenarioA))).
Proof.
  destruct (proj1 (text_files_are_stored_verbatim plainLowerExtname
                     (disk "Count to ten." {| fr_status := 200; fr_json := Resolved None |})
                     (uploadOf "notes.txt") scenarioA (circuitId := 1)
                     (file := {| originalname := "notes.txt";
                                 mimetype := "application/octet-stream";
                                 filename := "file-1700000000000-9";
                                 path := "uploads/file-1700000000000-9" |})
                     eq_refl eq_refl eq_refl eq_refl)
                  "Count to ten." eq_refl)
    as [saved [Hanswer [Hcontent [_ Hlisted]]]];
    try reflexivity; try discriminate.
  exists saved. repeat split; assumption.
Defined.

(** X9: a valid upload of a [.pdf] file whose extraction request is
    answered with a status in 200-299 stores the [text] of the reply; a
    reply without that key, or one that is not JSON, leaves the content
    empty, and the upload succeeds all the same.  The row is then in the
    content the store returns for the circuit. *)
Theorem pdf_text_comes_from_the_extraction_reply
    (lowerExtname : string -> string) (env : UploadEnv) (req : UploadRequest) (s : Store)
    (circuitId : nat) (file : UploadedFile) (bytes : string) (reply : FetchResponse) :
  teacherOnly (up_session req) = true ->
  up_circuitId req = Some circuitId ->
  getWisdomCircuit circuitId s <> None ->
  up_file req = Some file ->
  lowerExtname (originalname file) = ".pdf" ->
  truthy (bodyOr (up_title req) (originalname file)) = true ->
  oneOf categories (bodyOr (up_category req) "reference_material") = true ->
  ue_readFile env = Resolved bytes ->
  ue_fetch env = Resolved reply ->
  ok reply = true ->
  exists saved,
    uploadRoute lowerExtname env req s
    = (json (BodyContent saved), withContent (ue_slot env) saved s)
    /\ cc_fileType saved = "pdf"
    /\ cc_content saved
       = Some (match fr_json reply with
               | Resolved (Some text) => text
               | Resolved None | Rejected _ => ""
               end)
    /\ In saved (getCircuitContent circuitId (snd (uploadRoute lowerExtname env req s))).
Proof.
  intros Hteacher Hid Hcircuit Hfile Hext Htitle Hcategory Hread Hfetch Hok.
  assert (Htype : fileTypeOf (lowerExtname (originalname file)) = Some "pdf")
    by now rewrite Hext.
  eexists. split; [| split; [| split]].
  - exact (uploadRoute_valid lowerExtname env req s Hteacher Hid Hcircuit Hfile Htype
             eq_refl Htitle Hcategory).
  - reflexivity.
  - simpl. unfold extractPdf. rewrite Hread, Hfetch, Hok.
    destruct (fr_json reply) as [[text |] | error]; simpl; try reflexivity.
    unfold orElse. destruct (truthy text) eqn:E; [reflexivity |].
    apply truthy_false in E. now rewrite E.
  - exact (uploadRoute_listed lowerExtname env req s Hteacher Hid Hcircuit Hfile Htype
             eq_refl Htitle Hcategory).
Qed.

Lemma pdf_text_comes_from_the_extraction_reply_witness :
  exists saved,
    uploadRoute plainLowerExtname
      (disk "%PDF-1.7" {| fr_status := 200; fr_json := Resolved (Some "Week 1: counting") |})
      (uploadOf "plan.pdf") scenarioA
    = (json (BodyContent saved), withContent 7 saved scenarioA)
    /\ cc_content saved = Some "Week 1: counting"
    /\ In saved
         (getCircuitContent 1
            (snd (uploadRoute plainLowerExtname
                    (disk "%PDF-1.7"
                       {| fr_status := 200; fr_json := Resolved (Some "Week 1: counting") |})
                    (uploadOf "plan.pdf") scenarioA))).
Proof.
  destruct (pdf_text_comes_from_the_extraction_reply plainLowerExtname
              (disk "%PDF-1.7"
                 {| fr_status := 200; fr_json := Resolved (Some "Week 1: counting") |})
              (uploadOf "plan.pdf") scenarioA (circuitId := 1)
              (file := {| originalname := "plan.pdf";
                          mimetype := "application/octet-stream";
                          filename := "file-1700000000000-9";
                          path := "uploads/file-1700000000000-9" |})
              (bytes := "%PDF-1.7")
              (reply := {| fr_status := 200; fr_json := Resolved (Some "Week 1: counting") |}))
    as [saved [Hanswer [_ [Hcontent Hlisted]]]];
    try reflexivity; try discriminate.
  exists saved. repeat split; assumption.
Defined.

(** X10: a teacher's transcription request for an existing circuit whose
    speech-to-text call succeeds is answered 200 and stores one active row
    of type [txt] and category [transcript], holding the transcript as
    content, which is then in the content the store returns for the
    circuit; no transcript or time text makes the validation fail. *)
Theorem transcripts_are_stored
    (env : TranscribeEnv) (req : TranscribeRequest) (s : Store)
    (circuitId : nat) (text : string) :
  teacherOnly (tr_session req) = true ->
  tr_file req <> None ->
  tr_circuitId req = Some circuitId ->
  te_apiKey env = true ->
  te_transcription env = Resolved text ->
  getWisdomCircuit circuitId s <> None ->
  transcribeRoute env req s
  = (json (BodyContent (transcriptRow (S (circuitContentSeq s)) (te_now env) circuitId
                          (te_localeString env) text)),
     withContent (te_slot env)
       (transcriptRow (S (circuitContentSeq s)) (te_now env) circuitId
          (te_localeString env) text) s)
  /\ In (transcriptRow (S (circuitContentSeq s)) (te_now env) circuitId
          (te_localeString env) text)
       (getCircuitContent circuitId (snd (transcribeRoute env req s))).
Proof.
  intros Hteacher Hfile Hid Hkey Htext Hcircuit.
  assert (Hanswer :
            transcribeRoute env req s
            = (json (BodyContent (transcriptRow (S (circuitContentSeq s)) (te_now env)
                                    circuitId (te_localeString env) text)),
               withContent (te_slot env)
                 (transcriptRow (S (circuitContentSeq s)) (te_now env) circuitId
                    (te_localeString env) text) s));
    [| split; [exact Hanswer |]; rewrite Hanswer; cbn [snd];
       exact (withContent_listed (te_slot env)
                (transcriptRow (S (circuitContentSeq s)) (te_now env) circuitId
                   (te_localeString env) text) s eq_refl)].
  unfold transcribeRoute. rewrite Hteacher, Hid, Hkey, Htext.
  destruct (tr_file req); [| congruence].
  cbn [negb]. unfold parseInsertCircuitContent, createCircuitContent.
  cbn [transcriptData cd_title cd_fileType cd_category cd_circuitId ins_circuitId
       String.length append Nat.leb andb].
  change (oneOf fileTypes "txt") with true.
  change (oneOf categories "transcript") with true.
  cbn [andb ins_circuitId].
  destruct (getWisdomCircuit circuitId s); [reflexivity | congruence].
Qed.

Lemma transcripts_are_stored_witness :
  transcribeRoute (heard "" 4000 0) (transcribeFor 1) scenarioA
  = (json (BodyContent (transcriptRow 1 4000 1 "11/2/2026, 9:00:00 AM" "")),
     withContent 0 (transcriptRow 1 4000 1 "11/2/2026, 9:00:00 AM" "") scenarioA)
  /\ In (transcriptRow 1 4000 1 "11/2/2026, 9:00:00 AM" "")
       (getCircuitContent 1
          (snd (transcribeRoute (heard "" 4000 0) (transcribeFor 1) scenarioA))).
Proof.
  apply (transcripts_are_stored (heard "" 4000 0) (transcribeFor 1) scenarioA
           (circuitId := 1) (text := ""));
    try reflexivity; discriminate.
Defined.

(** ** Lookups in changed tables *)

Section Lookups.

Variable A : Type.
Variable test : A -> bool.

Lemma find_app_first (l l' : list A) (x : A) :
  find test l = Some x -> find test (l ++ l') = Some x.
Proof.
  induction l as [| a l IH]; simpl; [discriminate |].
  destruct (test a); [trivial | exact IH].
Qed.

Lemma find_filter_other (keep : A -> bool) (l : list A) :
  (forall a, test a = true -> keep a = true) ->
  find test (filter keep l) = find test l.
Proof.
  intros Hkeep. induction l as [| a l IH]; simpl; [reflexivity |].
  destruct (keep a) eqn:Ek; simpl.
  - destruct (test a); [reflexivity | exact IH].
  - destruct (test a) eqn:Et; [| exact IH].
    apply Hkeep in Et. congruence.
Qed.


Lemma find_app_cases (l l' : list A) :
  find test (l ++ l') = match find test l with
                        | Some x => Some x
                        | None => find test l'
                        end.
Proof.
  induction l as [| a l IH]; simpl; [reflexivity |].
  destruct (test a); [reflexivity | exact IH].
Qed.

Lemma in_part (n : nat) (l : list A) (a : A) :
  In a (firstn n l) \/ In a (skipn n l) -> In a l.
Proof.
  intros Hin. rewrite <- (firstn_skipn n l). apply in_or_app. exact Hin.
Qed.

Lemma find_none_all (l : list A) :
  (forall a, In a l -> test a = false) -> find test l = None.
Proof.
  intros Hall. induction l as [| a l IH]; simpl; [reflexivity |].
  rewrite (Hall a) by now left. apply IH. intros b Hb. apply Hall. now right.
Qed.

Lemma find_map_same (f : A -> A) (l : list A) :
  (forall a, test (f a) = test a) ->
  find test (map f l) = option_map f (find test l).
Proof.
  intros Hsame. induction l as [| a l IH]; simpl; [reflexivity |].
  rewrite Hsame. destruct (test a); [reflexivity | exact IH].
Qed.

End Lookups.

Lemma getWisdomCircuit_flag (flag : bool) (id slot circuitId : nat) (s : Store) :
  getWisdomCircuit circuitId (updateCircuitArchived flag id slot s)
  = option_map (fun c => if (wc_id c =? id)%nat then setCircuitArchived flag c else c)
      (getWisdomCircuit circuitId s).
Proof.
  unfold getWisdomCircuit, updateCircuitArchived. cbn [wisdomCircuits].
  set (table := wisdomCircuits s).
  set (others := filter (fun c => negb (wc_id c =? id)%nat) table).
  destruct (Nat.eq_dec circuitId id) as [-> | Hother].
  - assert (Hout : forall part, incl part others ->
                find (fun c => (wc_id c =? id)%nat) part = None).
    { intros part Hpart. apply find_none_all. intros c Hc. apply Hpart in Hc.
      apply filter_In in Hc. now apply negb_true_iff. }
    rewrite find_app_cases, (Hout (firstn slot others))
      by (intros c Hc; apply (in_part slot); now left).
    rewrite find_app_cases, (Hout (skipn slot others))
      by (intros c Hc; apply (in_part slot); now right).
    rewrite find_map_same by reflexivity.
    rewrite find_filter_other by trivial.
    destruct (find _ table) as [c |] eqn:Hfound; [| reflexivity].
    apply find_some in Hfound. cbn [option_map]. now rewrite (proj2 Hfound).
  - rewrite find_app_cases, find_app_cases.
    rewrite (find_none_all (fun c => (wc_id c =? circuitId)%nat) (map _ _)).
    + rewrite <- find_app_cases, firstn_skipn.
      unfold others. rewrite find_filter_other.
      * destruct (find _ table) as [c |] eqn:Hfound; [| reflexivity].
        apply find_some in Hfound. destruct Hfound as [_ Hid].
        apply Nat.eqb_eq in Hid. cbn [option_map].
        destruct (wc_id c =? id)%nat eqn:E; [| reflexivity].
        apply Nat.eqb_eq in E. congruence.
      * intros c Hc. apply Nat.eqb_eq in Hc. apply negb_true_iff, Nat.eqb_neq. congruence.
    + intros c Hc. apply in_map_iff in Hc. destruct Hc as [c0 [<- Hc0]].
      apply filter_In in Hc0. destruct Hc0 as [_ Hid]. apply Nat.eqb_eq in Hid.
      apply Nat.eqb_neq. simpl. congruence.
Qed.

Lemma getWisdomCircuit_deleted_other (id circuitId : nat) (s : Store) :
  circuitId <> id ->
  getWisdomCircuit circuitId (snd (deleteWisdomCircuit id s)) = getWisdomCircuit circuitId s.
Proof.
  intros Hother. unfold deleteWisdomCircuit, getWisdomCircuit.
  destruct (find _ (wisdomCircuits s)); simpl; apply find_filter_other;
    intros c Hc; apply Nat.eqb_eq in Hc; apply negb_true_iff, Nat.eqb_neq; congruence.
Qed.


Lemma deleted_tables (id : nat) (s : Store) :
  circuitContent (snd (deleteWisdomCircuit id s))
  = filter (fun c => negb (cc_circuitId c =? id)%nat) (circuitContent s)
  /\ circuitContentSeq (snd (deleteWisdomCircuit id s)) = circuitContentSeq s.
Proof.
  unfold deleteWisdomCircuit. now destruct (getWisdomCircuit id s).
Qed.

(** ** Every event is one write *)

Lemma serve_writes (lowerExtname : string -> string) (s : Store) (e : Event) :
  writes s (serve lowerExtname s e).
Proof.
  destruct e as [circuit | id slot | id slot | id | env req | env req | req]; simpl.
  - constructor.
  - unfold archiveWisdomCircuit. destruct (getWisdomCircuit id s); simpl; constructor.
  - constructor.
  - constructor.
  - destruct (transcribeRoute_store env req s) as [-> | [data [validated [_ ->]]]];
      [constructor |].
    unfold createCircuitContent.
    destruct (getWisdomCircuit (ins_circuitId validated) s) eqn:Hcircuit; simpl.
    + now apply writes_content with (circuit := w).
    + constructor.
  - destruct (uploadRoute_store lowerExtname env req s)
      as [-> | [data [validated [_ ->]]]]; [constructor |].
    unfold createCircuitContent.
    destruct (getWisdomCircuit (ins_circuitId validated) s) eqn:Hcircuit; simpl.
    + now apply writes_content with (circuit := w).
    + constructor.
  - unfold archiveRoute.
    destruct (negb (teacherOnly (ar_session req))); [constructor |].
    destruct (ar_id req) as [id |]; [| constructor].
    apply writes_content_flag.
Qed.

Lemma replay_keeps (lowerExtname : string -> string) (P : Store -> Prop) :
  (forall s s', P s -> writes s s' -> P s') ->
  forall history s, P s -> P (replay lowerExtname history s).
Proof.
  intros Hstep history. induction history as [| e history IH]; intros s Hs; simpl.
  - assumption.
  - apply IH. apply (Hstep s); [assumption | apply serve_writes].
Qed.

(** ** Invariants of the content table *)

Lemma contentHasCircuit_writes (s s' : Store) :
  contentHasCircuit s -> writes s s' -> contentHasCircuit s'.
Proof.
  unfold contentHasCircuit. intros Hall Hwrites. rewrite Forall_forall in Hall.
  apply Forall_forall.
  destruct Hwrites as [| circuit | flag id place | id | | content now slot circuit Hcircuit | id].
  - exact Hall.
  - intros c Hc. specialize (Hall c Hc). unfold getWisdomCircuit in *. simpl.
    destruct (find _ (wisdomCircuits s)) eqn:Hfound; [| congruence].
    now rewrite (find_app_first _ _ _ Hfound).
  - intros c Hc. specialize (Hall c Hc). rewrite getWisdomCircuit_flag.
    now destruct (getWisdomCircuit (cc_circuitId c) s).
  - intros c Hc. rewrite (proj1 (deleted_tables id s)) in Hc.
    apply filter_In in Hc. destruct Hc as [Hc Hother].
    apply negb_true_iff, Nat.eqb_neq in Hother.
    rewrite getWisdomCircuit_deleted_other by assumption. now apply Hall.
  - exact Hall.
  - intros c Hc. simpl in Hc. apply in_insertAt in Hc.
    destruct Hc as [-> | Hc]; [| now apply Hall].
    unfold getWisdomCircuit in *. simpl. now rewrite Hcircuit.
  - intros c Hc. simpl in Hc. apply in_map_iff in Hc.
    destruct Hc as [c0 [<- Hc0]]. specialize (Hall c0 Hc0).
    unfold getWisdomCircuit in *. simpl.
    now destruct (cc_id c0 =? id)%nat.
Qed.

Section Reachable.

Variable lowerExtname : string -> string.

(** X11: in every store reached through the modelled operations each
    content row belongs to a circuit that is in the store: content is
    inserted for existing circuits only, and deleting a circuit deletes
    its content first. *)
Theorem content_always_has_its_circuit (s : Store) (c : CircuitContent) :
  reachable lowerExtname s ->
  In c (circuitContent s) ->
  exists circuit,
    getWisdomCircuit (cc_circuitId c) s = Some circuit
    /\ composePrompt (cc_circuitId c) s <> None.
Proof.
  intros [history <-] Hin.
  assert (Hinv : contentHasCircuit (replay lowerExtname history emptyStore)).
  { apply replay_keeps; [apply contentHasCircuit_writes | constructor]. }
  unfold contentHasCircuit in Hinv. rewrite Forall_forall in Hinv.
  specialize (Hinv c Hin). unfold composePrompt, composeContext.
  destruct (getWisdomCircuit (cc_circuitId c) _) as [circuit |]; [| congruence].
  exists circuit. split; [reflexivity | discriminate].
Qed.

End Reachable.

Lemma content_always_has_its_circuit_witness :
  In (transcriptRow 3 2500 9 "11/2/2026, 9:00:00 AM" "circle square")
    (circuitContent (replay plainLowerExtname busierHistory emptyStore))
  /\ exists circuit,
       getWisdomCircuit 9 (replay plainLowerExtname busierHistory emptyStore) = Some circuit.
Proof.
  assert (Hreach : reachable plainLowerExtname
                     (replay plainLowerExtname busierHistory emptyStore))
    by (now exists busierHistory).
  assert (Hin : In (transcriptRow 3 2500 9 "11/2/2026, 9:00:00 AM" "circle square")
                  (circuitContent (replay plainLowerExtname busierHistory emptyStore)))
    by (vm_compute; tauto).
  split; [exact Hin |].
  destruct (@content_always_has_its_circuit plainLowerExtname _ _ Hreach Hin)
    as [circuit [Hcircuit _]].
  exists circuit. exact Hcircuit.
Defined.

(** ** The ids of the content rows *)

Lemma NoDup_insertAt (A : Type) (slot : nat) (x : A) (l : list A) :
  ~ In x l -> NoDup l -> NoDup (insertAt slot x l).
Proof.
  intros Hnew Hl. unfold insertAt.
  apply (Permutation_NoDup (l := x :: firstn slot l ++ skipn slot l)).
  - apply Permutation_middle.
  - rewrite firstn_skipn. now constructor.
Qed.

Lemma map_insertAt (A B : Type) (f : A -> B) (slot : nat) (x : A) (l : list A) :
  map f (insertAt slot x l) = insertAt slot (f x) (map f l).
Proof.
  unfold insertAt. now rewrite map_app, firstn_map, skipn_map.
Qed.

Lemma NoDup_map_filter (A B : Type) (f : A -> B) (keep : A -> bool) (l : list A) :
  NoDup (map f l) -> NoDup (map f (filter keep l)).
Proof.
  induction l as [| a l IH]; simpl; [trivial |].
  intros Hl. inversion Hl as [| ? ? Hnew Hrest]; subst.
  destruct (keep a); simpl; [| now apply IH].
  constructor; [| now apply IH].
  intros Hin. apply Hnew. apply in_map_iff in Hin.
  destruct Hin as [b [Hb Hin]]. apply filter_In in Hin.
  apply in_map_iff. exists b. tauto.
Qed.

Lemma contentIdsFresh_writes (s s' : Store) :
  contentIdsFresh s -> writes s s' -> contentIdsFresh s'.
Proof.
  unfold contentIdsFresh. intros [Hdistinct Hdrawn] Hwrites.
  destruct Hwrites as [| circuit | flag id place | id | | content now slot circuit Hcircuit | id].
  - now split.
  - now split.
  - now split.
  - destruct (deleted_tables id s) as [-> ->]. split.
    + now apply NoDup_map_filter.
    + apply Forall_forall. intros c Hc. apply filter_In in Hc.
      rewrite Forall_forall in Hdrawn. now apply Hdrawn.
  - simpl. split; [assumption |].
    apply Forall_forall. intros c Hc. rewrite Forall_forall in Hdrawn.
    specialize (Hdrawn c Hc). lia.
  - simpl. rewrite Forall_forall in Hdrawn. split.
    + rewrite map_insertAt. apply NoDup_insertAt; [| assumption].
      simpl. intros Hin. apply in_map_iff in Hin. destruct Hin as [c [Hid Hc]].
      specialize (Hdrawn c Hc). lia.
    + apply Forall_forall. intros c Hc. apply in_insertAt in Hc.
      destruct Hc as [-> | Hc]; [simpl; lia |].
      specialize (Hdrawn c Hc). lia.
  - rewrite archive_keeps_ids. split; [assumption |].
    simpl. apply Forall_forall. intros c Hc. apply in_map_iff in Hc.
    destruct Hc as [c0 [<- Hc0]]. rewrite Forall_forall in Hdrawn.
    specialize (Hdrawn c0 Hc0). now destruct (cc_id c0 =? id)%nat.
Qed.

Lemma filter_nothing (A : Type) (test : A -> bool) (l : list A) :
  (forall a, In a l -> test a = false) -> filter test l = [].
Proof.
  induction l as [| a l IH]; simpl; [reflexivity |].
  intros Hnone. rewrite (Hnone a (or_introl eq_refl)). apply IH.
  intros b Hb. apply Hnone. now right.
Qed.

(** With distinct ids, the rows with the id of a row of the table are
    that row alone. *)
Lemma filter_by_id (table : list CircuitContent) (c : CircuitContent) :
  NoDup (map cc_id table) ->
  In c table ->
  filter (fun row => (cc_id row =? cc_id c)%nat) table = [c].
Proof.
  induction table as [| a table IH]; simpl; [tauto |].
  intros Hdistinct Hin. inversion Hdistinct as [| ? ? Hnew Hrest]; subst.
  destruct Hin as [-> | Hin].
  - rewrite Nat.eqb_refl. f_equal. apply filter_nothing.
    intros row Hrow. apply Nat.eqb_neq. intros Hid. apply Hnew.
    rewrite <- Hid. now apply in_map.
  - destruct (cc_id a =? cc_id c)%nat eqn:Hid; [| now apply IH].
    apply Nat.eqb_eq in Hid. exfalso. apply Hnew. rewrite Hid. now apply in_map.
Qed.

Section Ids.

Variable lowerExtname : string -> string.

Lemma reachable_ids (s : Store) : reachable lowerExtname s -> contentIdsFresh s.
Proof.
  intros [history <-]. apply replay_keeps; [apply contentIdsFresh_writes |].
  split; constructor.
Qed.


(** X13: in such a store, a row created by [createCircuitContent] is what
    [getCircuitContentById] returns for its id straight away, wherever the
    database placed it; the lookups of all other ids are as before, and
    the ids stay distinct. *)
Theorem created_content_is_found_by_id
    (s s' : Store) (content : InsertCircuitContent) (now slot : nat)
    (saved : CircuitContent) :
  reachable lowerExtname s ->
  createCircuitContent content now slot s = (Resolved saved, s') ->
  getCircuitContentById (cc_id saved) s' = Some saved
  /\ (forall id, id <> cc_id saved ->
        getCircuitContentById id s' = getCircuitContentById id s)
  /\ NoDup (map cc_id (circuitContent s')).
Proof.
  intros Hreach Hcreate.
  pose proof (reachable_ids Hreach) as Hfresh.
  destruct (createCircuitContent_cases content now slot s)
    as [[Hcircuit Hok] | [_ [error Hfailed]]]; [| congruence].
  rewrite Hok in Hcreate. injection Hcreate as <- <-.
  assert (Hwrites : writes s
            (withContent slot
               (insertedRow (S (circuitContentSeq s)) now (insertValues content)) s)).
  { destruct (getWisdomCircuit (ins_circuitId content) s) as [circuit |] eqn:E;
      [| congruence].
    now apply writes_content with (circuit := circuit). }
  destruct (contentIdsFresh_writes Hfresh Hwrites) as [Hdistinct _].
  split; [| split; [| exact Hdistinct]].
  - unfold getCircuitContentById.
    rewrite (filter_by_id _ _ Hdistinct); [reflexivity |].
    simpl. apply in_insertAt. now left.
  - intros id Hother. unfold getCircuitContentById, withContent, insertAt.
    cbn [circuitContent]. rewrite filter_app. cbn [filter].
    assert (Hid : (cc_id (insertedRow (S (circuitContentSeq s)) now (insertValues content))
                   =? id)%nat = false)
      by (apply Nat.eqb_neq; congruence).
    rewrite Hid, <- filter_app. now rewrite firstn_skipn.
Qed.

End Ids.


Lemma created_content_is_found_by_id_witness :
  exists saved s',
    createCircuitContent smuggledFlag 5000 1
      (replay plainLowerExtname twoRecordings emptyStore) = (Resolved saved, s')
    /\ cc_id saved = 3
    /\ getCircuitContentById 3 s' = Some saved
    /\ getCircuitContentById 1 s'
       = getCircuitContentById 1 (replay plainLowerExtname twoRecordings emptyStore).
Proof.
  assert (Hreach : reachable plainLowerExtname
                     (replay plainLowerExtname twoRecordings emptyStore))
    by (now exists twoRecordings).
  eexists _, _. split; [reflexivity |]. split; [reflexivity |].
  destruct (created_content_is_found_by_id smuggledFlag 5000 1 Hreach eq_refl)
    as [Hfound [Hothers _]].
  split; [exact Hfound |].
  apply Hothers. discriminate.
Defined.

(** ** Archived content stays archived *)

Lemma retired_writes (id : nat) (s s' : Store) :
  retired id s -> writes s s' -> retired id s'.
Proof.
  unfold retired. intros [Hdrawn Harchived] Hwrites. rewrite Forall_forall in Harchived.
  destruct Hwrites as [| circuit | flag id0 place | id0 | | content now slot circuit Hcircuit | id0].
  - split; [assumption | now apply Forall_forall].
  - split; [assumption | now apply Forall_forall].
  - split; [assumption | now apply Forall_forall].
  - destruct (deleted_tables id0 s) as [-> ->]. split; [assumption |].
    apply Forall_forall. intros c Hc. apply filter_In in Hc. now apply Harchived.
  - simpl. split; [lia | now apply Forall_forall].
  - simpl. split; [lia |].
    apply Forall_forall. intros c Hc. apply in_insertAt in Hc.
    destruct Hc as [-> | Hc]; [simpl; lia | now apply Harchived].
  - simpl. split; [assumption |].
    apply Forall_forall. intros c Hc. apply in_map_iff in Hc.
    destruct Hc as [c0 [<- Hc0]].
    destruct (cc_id c0 =? id0)%nat; [reflexivity | now apply Harchived].
Qed.

Lemma archived_is_retired (id : nat) (s : Store) :
  id <= circuitContentSeq s -> retired id (snd (archiveCircuitContent id s)).
Proof.
  intros Hdrawn. split; [assumption |]. simpl.
  apply Forall_forall. intros c Hc. apply in_map_iff in Hc.
  destruct Hc as [c0 [<- Hc0]].
  destruct (cc_id c0 =? id)%nat eqn:Hid; [reflexivity |].
  apply Nat.eqb_neq in Hid. congruence.
Qed.

(** X14: nothing brings archived content back.  Once
    [archiveCircuitContent] has run for an id the sequence has handed out,
    no history of later requests, uploads, transcriptions, deletions and
    circuit changes included, makes a row with that id active again: it is
    in no circuit's active content and in no composition. *)
Theorem archived_content_never_returns
    (lowerExtname : string -> string) (id : nat) (s : Store) (history : list Event)
    (circuitId : nat) (c : CircuitContent) :
  id <= circuitContentSeq s ->
  In c (getCircuitContent circuitId
          (replay lowerExtname history (snd (archiveCircuitContent id s)))) ->
  cc_id c <> id.
Proof.
  intros Hdrawn Hin Hid.
  assert (Hretired : retired id
            (replay lowerExtname history (snd (archiveCircuitContent id s)))).
  { apply replay_keeps; [apply retired_writes | now apply archived_is_retired]. }
  destruct Hretired as [_ Harchived]. rewrite Forall_forall in Harchived.
  apply filter_In in Hin. destruct Hin as [Hin Hactive].
  apply isActiveIn_true in Hactive. specialize (Harchived c Hin Hid).
  destruct Hactive as [_ Hflag]. congruence.
Qed.

Lemma archived_content_never_returns_witness :
  Forall (fun c => cc_id c <> 1)
    (getCircuitContent 1
       (replay plainLowerExtname
          [ Transcribed (heard "seven eight" 4500 0) (transcribeFor 1);
            ContentArchived {| ar_session := teacher; ar_id := Some 2 |} ]
          (snd (archiveCircuitContent 1
                  (replay plainLowerExtname twoRecordings emptyStore)))))
  /\ 1 <= circuitContentSeq (replay plainLowerExtname twoRecordings emptyStore).
Proof.
  assert (Hdrawn : 1 <= circuitContentSeq (replay plainLowerExtname twoRecordings emptyStore))
    by (vm_compute; lia).
  split; [| exact Hdrawn].
  apply Forall_forall. intros c.
  exact (@archived_content_never_returns plainLowerExtname 1
           (replay plainLowerExtname twoRecordings emptyStore) _ 1 c Hdrawn).
Defined.

(** ** Archiving content twice, or content that is not there *)



(** ** Archived circuits and the chat *)

Lemma settingsOf_flag (flag : bool) (circuit : WisdomCircuit) :
  settingsOf (setCircuitArchived flag circuit) = settingsOf circuit.
Proof. reflexivity. Qed.

Lemma composeContext_flag (flag : bool) (id slot circuitId : nat) (s : Store) :
  (composeContext circuitId (updateCircuitArchived flag id slot s) = None
   /\ composeContext circuitId s = None)
  \/ exists context' context,
       composeContext circuitId (updateCircuitArchived flag id slot s) = Some context'
       /\ composeContext circuitId s = Some context
       /\ generateSystemPrompt context' = generateSystemPrompt context.
Proof.
  unfold composeContext. rewrite getWisdomCircuit_flag.
  destruct (getWisdomCircuit circuitId s) as [circuit |]; [| now left].
  right. eexists _, _. split; [reflexivity |]. split; [reflexivity |].
  unfold processedContent. cbn [circuitContent updateCircuitArchived getCircuitContent].
  destruct (wc_id circuit =? id)%nat; [| reflexivity].
  apply generateSystemPrompt_settings. apply settingsOf_flag.
Qed.

(** X16: archiving or unarchiving a circuit changes nothing for the chat.
    The route does not look at the circuit's flag: the request it sends to
    the model for any circuit, the archived one included, and hence its
    answer, are what they were before. *)
Theorem archived_circuits_still_chat
    (createCompletion : ChatRequest -> Outcome ChatCompletion)
    (flag : bool) (id slot : nat) (req : ChatTurn) (s : Store) :
  (forall circuitId,
      composePrompt circuitId (updateCircuitArchived flag id slot s)
      = composePrompt circuitId s)
  /\ chatRoute createCompletion req (snd (archiveWisdomCircuit id slot s))
     = chatRoute createCompletion req s
  /\ chatRoute createCompletion req (snd (unarchiveWisdomCircuit id slot s))
     = chatRoute createCompletion req s.
Proof.
  assert (Hprompt : forall mark circuitId,
             composePrompt circuitId (updateCircuitArchived mark id slot s)
             = composePrompt circuitId s).
  { intros mark circuitId. unfold composePrompt.
    destruct (composeContext_flag mark id slot circuitId s)
      as [[-> ->] | [context' [context [-> [-> Hsame]]]]]; [reflexivity |].
    cbn [option_map]. now rewrite Hsame. }
  assert (Hroute : forall mark,
             chatRoute createCompletion req (updateCircuitArchived mark id slot s)
             = chatRoute createCompletion req s).
  { intros mark. unfold chatRoute.
    destruct (chat_message req) as [message |]; [| reflexivity].
    destruct (negb (truthy message)); [reflexivity |].
    destruct (chat_circuitId req) as [circuitId |]; [| reflexivity].
    destruct (composeContext_flag mark id slot circuitId s)
      as [[-> ->] | [context' [context [-> [-> Hsame]]]]]; [reflexivity |].
    unfold processChatMessage, chatRequest. now rewrite Hsame. }
  split; [apply Hprompt |]. split.
  - unfold archiveWisdomCircuit. destruct (getWisdomCircuit id s); [apply Hroute | reflexivity].
  - apply Hroute.
Qed.

(** ** Archiving and unarchiving a circuit *)

Lemma getWisdomCircuit_some (id : nat) (s : Store) (circuit : WisdomCircuit) :
  getWisdomCircuit id s = Some circuit ->
  In circuit (wisdomCircuits s) /\ wc_id circuit = id.
Proof.
  unfold getWisdomCircuit. intros Hfound. apply find_some in Hfound.
  now rewrite Nat.eqb_eq in Hfound.
Qed.

Lemma unarchive_archived (circuit : WisdomCircuit) :
  wc_isArchived circuit = false ->
  setCircuitArchived false (setCircuitArchived true circuit) = circuit.
Proof.
  destruct circuit. simpl. now intros ->.
Qed.

Section Parts.

Variable A : Type.
Variable test : A -> bool.

Lemma filter_everything (l : list A) :
  (forall a, In a l -> test a = true) -> filter test l = l.
Proof.
  intros Hall. induction l as [| a l IH]; simpl; [reflexivity |].
  rewrite (Hall a) by now left. f_equal. apply IH. intros b Hb. apply Hall. now right.
Qed.

Lemma Permutation_parts (l : list A) :
  Permutation (filter test l ++ filter (fun a => negb (test a)) l) l.
Proof.
  induction l as [| a l IH]; simpl; [constructor |].
  destruct (test a); simpl.
  - now constructor.
  - apply Permutation_sym, Permutation_cons_app, Permutation_sym, IH.
Qed.

Lemma Permutation_filter_keeps (l l' : list A) :
  Permutation l l' -> Permutation (filter test l) (filter test l').
Proof.
  induction 1 as [| a l l' _ IH | a b l | l l' l'' _ IH1 _ IH2]; simpl.
  - constructor.
  - destruct (test a); [now constructor | exact IH].
  - destruct (test a), (test b); try apply Permutation_refl. constructor.
  - now transitivity (filter test l').
Qed.

End Parts.

(** The rows an update of circuit [id] does not touch, in their order, and
    the rows it writes. *)
Lemma updated_others (flag : bool) (id slot : nat) (s : Store) :
  filter (fun c => negb (wc_id c =? id)%nat)
    (wisdomCircuits (updateCircuitArchived flag id slot s))
  = filter (fun c => negb (wc_id c =? id)%nat) (wisdomCircuits s).
Proof.
  unfold updateCircuitArchived. cbn [wisdomCircuits].
  set (others := filter (fun c => negb (wc_id c =? id)%nat) (wisdomCircuits s)).
  assert (Hkept : forall part, (forall c, In c part -> In c others) ->
             filter (fun c => negb (wc_id c =? id)%nat) part = part).
  { intros part Hpart. apply filter_everything. intros c Hc. apply Hpart in Hc.
    now apply filter_In in Hc. }
  rewrite !filter_app.
  rewrite (Hkept (firstn slot others)) by (intros c Hc; apply (in_part slot); now left).
  rewrite (Hkept (skipn slot others)) by (intros c Hc; apply (in_part slot); now right).
  rewrite filter_nothing; [apply firstn_skipn |].
  intros c Hc. apply in_map_iff in Hc. destruct Hc as [c0 [<- Hc0]].
  apply filter_In in Hc0. simpl. now rewrite (proj2 Hc0).
Qed.

Lemma updated_rows (flag : bool) (id slot : nat) (s : Store) :
  filter (fun c => (wc_id c =? id)%nat)
    (wisdomCircuits (updateCircuitArchived flag id slot s))
  = map (setCircuitArchived flag) (filter (fun c => (wc_id c =? id)%nat) (wisdomCircuits s)).
Proof.
  unfold updateCircuitArchived. cbn [wisdomCircuits].
  set (others := filter (fun c => negb (wc_id c =? id)%nat) (wisdomCircuits s)).
  assert (Hdropped : forall part, (forall c, In c part -> In c others) ->
             filter (fun c => (wc_id c =? id)%nat) part = []).
  { intros part Hpart. apply filter_nothing. intros c Hc. apply Hpart in Hc.
    apply filter_In in Hc. now apply negb_true_iff. }
  rewrite !filter_app.
  rewrite (Hdropped (firstn slot others)) by (intros c Hc; apply (in_part slot); now left).
  rewrite (Hdropped (skipn slot others)) by (intros c Hc; apply (in_part slot); now right).
  rewrite app_nil_r. cbn [app]. apply filter_everything.
  intros c Hc. apply in_map_iff in Hc. destruct Hc as [c0 [<- Hc0]].
  apply filter_In in Hc0. simpl. exact (proj2 Hc0).
Qed.

Lemma updated_table (flag : bool) (id slot : nat) (s : Store) :
  Permutation (wisdomCircuits (updateCircuitArchived flag id slot s))
    (map (setCircuitArchived flag) (filter (fun c => (wc_id c =? id)%nat) (wisdomCircuits s))
     ++ filter (fun c => negb (wc_id c =? id)%nat) (wisdomCircuits s))%list.
Proof.
  unfold updateCircuitArchived. cbn [wisdomCircuits].
  set (others := filter (fun c => negb (wc_id c =? id)%nat) (wisdomCircuits s)).
  rewrite <- (firstn_skipn slot others) at 3.
  apply Permutation_app_swap_app.
Qed.

(** X17: after [archiveWisdomCircuit] the circuit is in its teacher's list
    of archived circuits and in nobody's list of active circuits.  When no
    row with that id was archived before, [unarchiveWisdomCircuit] then
    brings every row back: the content table and its sequence are
    untouched, every circuit is found by its id as it was, each teacher's
    two lists hold the circuits they held, and the circuits other than the
    updated one are in the order they were in.  Where the updated circuit
    comes in a list depends on the place the database gave the row, so the
    lists are the same up to order only. *)
Theorem circuit_archive_round_trip
    (id slot slot' : nat) (s : Store) (circuit : WisdomCircuit) :
  getWisdomCircuit id s = Some circuit ->
  In (setCircuitArchived true circuit)
    (getArchivedWisdomCircuitsByTeacher (wc_teacherId circuit)
       (snd (archiveWisdomCircuit id slot s)))
  /\ (forall teacherId c,
        In c (getWisdomCircuitsByTeacher teacherId (snd (archiveWisdomCircuit id slot s))) ->
        wc_id c <> id)
  /\ (Forall (fun c => wc_id c = id -> wc_isArchived c = false) (wisdomCircuits s) ->
      circuitContent (archivedAndBack id slot slot' s) = circuitContent s
      /\ circuitContentSeq (archivedAndBack id slot slot' s) = circuitContentSeq s
      /\ (forall circuitId,
            getWisdomCircuit circuitId (archivedAndBack id slot slot' s)
            = getWisdomCircuit circuitId s)
      /\ (forall teacherId,
            Permutation (getWisdomCircuitsByTeacher teacherId (archivedAndBack id slot slot' s))
              (getWisdomCircuitsByTeacher teacherId s)
            /\ Permutation
                 (getArchivedWisdomCircuitsByTeacher teacherId (archivedAndBack id slot slot' s))
                 (getArchivedWisdomCircuitsByTeacher teacherId s))
      /\ filter (fun c => negb (wc_id c =? id)%nat)
           (wisdomCircuits (archivedAndBack id slot slot' s))
         = filter (fun c => negb (wc_id c =? id)%nat) (wisdomCircuits s)).
Proof.
  intros Hfound. destruct (getWisdomCircuit_some _ _ Hfound) as [Hin Hid].
  unfold archivedAndBack, archiveWisdomCircuit. rewrite Hfound. cbn [snd].
  split; [| split].
  - unfold getArchivedWisdomCircuitsByTeacher. apply filter_In. split.
    + apply (Permutation_in _ (Permutation_sym (updated_table true id slot s))).
      apply in_or_app. left. apply in_map. apply filter_In.
      split; [assumption | now apply Nat.eqb_eq].
    + simpl. now rewrite Nat.eqb_refl.
  - intros teacherId c Hc. unfold getWisdomCircuitsByTeacher in Hc.
    apply filter_In in Hc. destruct Hc as [Hc Hactive].
    apply (Permutation_in _ (updated_table true id slot s)) in Hc.
    apply in_app_or in Hc. destruct Hc as [Hc | Hc].
    + apply in_map_iff in Hc. destruct Hc as [c0 [<- _]].
      simpl in Hactive. rewrite andb_false_r in Hactive. discriminate.
    + apply filter_In in Hc. destruct Hc as [_ Hother].
      now apply negb_true_iff, Nat.eqb_neq in Hother.
  - intros Hunarchived. rewrite Forall_forall in Hunarchived.
    assert (Htable : Permutation
              (wisdomCircuits (updateCircuitArchived false id slot'
                                 (updateCircuitArchived true id slot s)))
              (wisdomCircuits s)).
    { rewrite updated_table, updated_rows, updated_others, map_map.
      rewrite (map_ext_in _ (fun c => c)), map_id; [apply Permutation_parts |].
      intros c Hc. apply filter_In in Hc. destruct Hc as [Hc Hsame].
      apply unarchive_archived. apply Hunarchived; [assumption | now apply Nat.eqb_eq]. }
    split; [reflexivity |]. split; [reflexivity |]. split; [| split].
    + intros circuitId. unfold unarchiveWisdomCircuit. cbn [snd].
      rewrite !getWisdomCircuit_flag.
      destruct (getWisdomCircuit circuitId s) as [c |] eqn:Hc; [| reflexivity].
      destruct (getWisdomCircuit_some _ _ Hc) as [Hrow Hrowid].
      cbn [option_map]. f_equal.
      destruct (wc_id c =? id)%nat eqn:E; [| now rewrite E].
      cbn [setCircuitArchived wc_id]. rewrite E.
      apply unarchive_archived. apply Hunarchived; [assumption | now apply Nat.eqb_eq].
    + intros teacherId. unfold unarchiveWisdomCircuit. cbn [snd].
      split; apply Permutation_filter_keeps, Htable.
    + unfold unarchiveWisdomCircuit. cbn [snd]. now rewrite !updated_others.
Qed.

Lemma circuit_archive_round_trip_witness :
  map wc_id (getWisdomCircuitsByTeacher 7 twoCircuits) = [1; 2]
  /\ map wc_id (getWisdomCircuitsByTeacher 7 (snd (archiveWisdomCircuit 1 1 twoCircuits))) = [2]
  /\ map wc_id (getWisdomCircuitsByTeacher 7 (archivedAndBack 1 1 1 twoCircuits)) = [2; 1]
  /\ Permutation (getWisdomCircuitsByTeacher 7 (archivedAndBack 1 1 1 twoCircuits))
       (getWisdomCircuitsByTeacher 7 twoCircuits)
  /\ getWisdomCircuit 1 (archivedAndBack 1 1 1 twoCircuits) = getWisdomCircuit 1 twoCircuits.
Proof.
  destruct (@circuit_archive_round_trip 1 1 1 twoCircuits (circuitRow 1 "Counting" "K")
              eq_refl)
    as [_ [_ Hback]].
  assert (Hunarchived : Forall (fun c => wc_id c = 1 -> wc_isArchived c = false)
                          (wisdomCircuits twoCircuits))
    by (repeat constructor).
  destruct (Hback Hunarchived) as [_ [_ [Hfound [Hlists _]]]].
  split; [reflexivity |]. split; [reflexivity |]. split; [reflexivity |].
  split; [apply (Hlists 7) | apply Hfound].
Defined.

(** ** Deleting a circuit *)




(** ** Who may archive, unarchive and delete a circuit *)

(** X19: the three circuit routes change the store only for the right
    requester: archiving and unarchiving for a teacher who owns the
    circuit, deleting for that teacher or for an administrator.  For
    everyone else, and for unknown circuits, the store is left as it
    was. *)
Theorem circuit_routes_need_the_owner (slot : nat) (req : CircuitRequest) (s : Store) :
  (snd (archiveCircuitRoute slot req s) <> s ->
   exists user id circuit,
     cr_user req = Some user /\ cr_id req = Some id
     /\ getWisdomCircuit id s = Some circuit
     /\ user_isTeacher user = true /\ wc_teacherId circuit = user_id user)
  /\ (snd (unarchiveCircuitRoute slot req s) <> s ->
      exists user id circuit,
        cr_user req = Some user /\ cr_id req = Some id
        /\ getWisdomCircuit id s = Some circuit
        /\ user_isTeacher user = true /\ wc_teacherId circuit = user_id user)
  /\ (snd (deleteCircuitRoute req s) <> s ->
      exists user id circuit,
        cr_user req = Some user /\ cr_id req = Some id
        /\ getWisdomCircuit id s = Some circuit
        /\ (user_isAdmin user = true
            \/ (user_isTeacher user = true /\ wc_teacherId circuit = user_id user))).
Proof.
  split; [| split].
  - unfold archiveCircuitRoute.
    destruct (cr_user req) as [user |]; [| simpl; congruence].
    destruct (user_isTeacher user) eqn:Hteacher; simpl; [| congruence].
    destruct (cr_id req) as [id |]; [| simpl; congruence].
    destruct (getWisdomCircuit id s) as [circuit |] eqn:Hfound; [| simpl; congruence].
    destruct (wc_teacherId circuit =? user_id user)%nat eqn:Howner; simpl; [| congruence].
    intros _. apply Nat.eqb_eq in Howner. now exists user, id, circuit.
  - unfold unarchiveCircuitRoute.
    destruct (cr_user req) as [user |]; [| simpl; congruence].
    destruct (user_isTeacher user) eqn:Hteacher; simpl; [| congruence].
    destruct (cr_id req) as [id |]; [| simpl; congruence].
    destruct (getWisdomCircuit id s) as [circuit |] eqn:Hfound; [| simpl; congruence].
    destruct (wc_teacherId circuit =? user_id user)%nat eqn:Howner; simpl; [| congruence].
    intros _. apply Nat.eqb_eq in Howner. now exists user, id, circuit.
  - unfold deleteCircuitRoute.
    destruct (cr_user req) as [user |]; [| simpl; congruence].
    destruct (user_isTeacher user) eqn:Hteacher, (user_isAdmin user) eqn:Hadmin; simpl;
      try congruence.
    all: destruct (cr_id req) as [id |]; [| simpl; congruence].
    all: destruct (getWisdomCircuit id s) as [circuit |] eqn:Hfound; [| simpl; congruence].
    all: destruct (wc_teacherId circuit =? user_id user)%nat eqn:Howner; simpl;
      try congruence.
    all: intros _; exists user, id, circuit;
      repeat (split; [first [reflexivity | assumption] |]).
    all: first [left; assumption | right; split; [assumption | now apply Nat.eqb_eq]].
Qed.

Lemma circuit_routes_need_the_owner_witness :
  snd (deleteCircuitRoute (onCircuit colleague 1) scenarioA) = scenarioA
  /\ snd (deleteCircuitRoute (onCircuit administrator 1) scenarioA) <> scenarioA
  /\ exists user,
       cr_user (onCircuit administrator 1) = Some user /\ user_isAdmin user = true.
Proof.
  split; [reflexivity |].
  assert (Hchanged : snd (deleteCircuitRoute (onCircuit administrator 1) scenarioA)
                     <> scenarioA) by discriminate.
  split; [exact Hchanged |].
  destruct (proj2 (proj2 (circuit_routes_need_the_owner 0 (onCircuit administrator 1)
                            scenarioA)) Hchanged)
    as [user [id [circuit [Huser [_ [_ [Hadmin | [Hteacher _]]]]]]]].
  - now exists user.
  - injection Huser as <-. discriminate.
Defined.

(** ** The best matching icon *)

Lemma placeByScore_cons (entry : LucideIcon * nat) (sorted : list (LucideIcon * nat)) :
  placeByScore entry sorted <> [].
Proof.
  destruct sorted as [| first others]; simpl; [discriminate |].
  destruct (snd first <=? snd entry)%nat; discriminate.
Qed.

Lemma sortByScore_nil (scores : list (LucideIcon * nat)) :
  sortByScore scores = [] -> scores = [].
Proof.
  destruct scores as [| entry scores]; [reflexivity |].
  simpl. intros Hnil. now apply placeByScore_cons in Hnil.
Qed.

(** The first entry after the sort is the leftmost entry with the highest
    score. *)
Lemma sortByScore_head (scores : list (LucideIcon * nat)) :
  forall first others,
    sortByScore scores = first :: others ->
    exists before after,
      scores = (before ++ first :: after)%list
      /\ Forall (fun entry => snd entry < snd first) before
      /\ Forall (fun entry => snd entry <= snd first) after.
Proof.
  induction scores as [| entry scores IH]; intros first others Hsorted; [discriminate |].
  simpl in Hsorted.
  destruct (sortByScore scores) as [| top rest] eqn:Htail.
  - apply sortByScore_nil in Htail. subst scores.
    injection Hsorted as <- <-. exists [], []. repeat split; constructor.
  - destruct (IH top rest eq_refl) as [before [after [-> [Hbefore Hafter]]]].
    simpl in Hsorted. destruct (snd top <=? snd entry)%nat eqn:Hle.
    + injection Hsorted as <- _. apply Nat.leb_le in Hle.
      exists [], (before ++ top :: after)%list. split; [reflexivity |].
      split; [constructor |].
      apply Forall_app. split; [| constructor].
      * eapply Forall_impl; [| exact Hbefore]. simpl. intros; lia.
      * assumption.
      * eapply Forall_impl; [| exact Hafter]. simpl. intros; lia.
    + injection Hsorted as <- _. apply Nat.leb_gt in Hle.
      exists (entry :: before), after. split; [reflexivity |].
      split; [now constructor | assumption].
Qed.

Lemma bestOf_first_highest (mappings : list IconMapping) (normalizedText : string) :
  mappings <> [] ->
  exists before best after,
    mappings = (before ++ best :: after)%list
    /\ bestOf mappings normalizedText
       = (if (0 <? scoreOf normalizedText best)%nat then icon best else BookOpen)
    /\ Forall (fun m => scoreOf normalizedText m < scoreOf normalizedText best) before
    /\ Forall (fun m => scoreOf normalizedText m <= scoreOf normalizedText best) after.
Proof.
  intros Hsome. unfold bestOf.
  destruct (sortByScore _) as [| [top score] others] eqn:Hsorted.
  - apply sortByScore_nil, map_eq_nil in Hsorted. contradiction.
  - destruct (sortByScore_head _ Hsorted) as [before [after [Hscores [Hbefore Hafter]]]].
    apply map_eq_app in Hscores.
    destruct Hscores as [mbefore [mrest [-> [Hmb Hrest]]]].
    apply map_eq_cons in Hrest.
    destruct Hrest as [best [mafter [-> [Hbest Hma]]]].
    injection Hbest as <- <-.
    exists mbefore, best, mafter. split; [reflexivity |]. split; [reflexivity |].
    subst before after. rewrite Forall_map in Hbefore, Hafter. now split.
Qed.

Lemma bestOf_cases (mappings : list IconMapping) (normalizedText : string) :
  mappings <> [] ->
  (Forall (fun m => scoreOf normalizedText m = 0) mappings ->
   bestOf mappings normalizedText = BookOpen)
  /\ (Exists (fun m => 0 < scoreOf normalizedText m) mappings ->
      exists before best after,
        mappings = (before ++ best :: after)%list
        /\ bestOf mappings normalizedText = icon best
        /\ 0 < scoreOf normalizedText best
        /\ Forall (fun m => scoreOf normalizedText m < scoreOf normalizedText best) before
        /\ Forall (fun m => scoreOf normalizedText m <= scoreOf normalizedText best) after).
Proof.
  intros Hsome.
  destruct (bestOf_first_highest normalizedText Hsome)
    as [before [best [after [Htable [Hbest [Hbefore Hafter]]]]]].
  assert (Hin : In best mappings) by (rewrite Htable; apply in_elt).
  split.
  - intros Hnone. rewrite Forall_forall in Hnone.
    rewrite Hbest, (Hnone best Hin). reflexivity.
  - intros Hscored. apply Exists_exists in Hscored. destruct Hscored as [m [Hm Hpositive]].
    assert (Hhigh : 0 < scoreOf normalizedText best).
    { rewrite Htable in Hm. apply in_app_or in Hm.
      rewrite Forall_forall in Hbefore, Hafter.
      destruct Hm as [Hm | [<- | Hm]];
        [specialize (Hbefore m Hm) | | specialize (Hafter m Hm)]; lia. }
    exists before, best, after. split; [exact Htable |].
    split; [| now split].
    rewrite Hbest. apply Nat.ltb_lt in Hhigh. now rewrite Hhigh.
Qed.

Section BestIcon.

Variable toLowerCase : string -> string.

(** X20: the icon of a text is [BookOpen] when no mapping scores; otherwise
    it is the icon of the mapping with the highest score, and of the one
    that comes first in the table when several share that score. *)
Theorem best_icon_is_first_highest (text : string) :
  (Forall (fun m => scoreOf (toLowerCase text) m = 0) iconMappings ->
   findBestMatchingIcon toLowerCase text = BookOpen)
  /\ (Exists (fun m => 0 < scoreOf (toLowerCase text) m) iconMappings ->
      exists before best after,
        iconMappings = (before ++ best :: after)%list
        /\ findBestMatchingIcon toLowerCase text = icon best
        /\ 0 < scoreOf (toLowerCase text) best
        /\ Forall (fun m => scoreOf (toLowerCase text) m < scoreOf (toLowerCase text) best)
             before
        /\ Forall (fun m => scoreOf (toLowerCase text) m <= scoreOf (toLowerCase text) best)
             after).
Proof.
  unfold findBestMatchingIcon. apply bestOf_cases. discriminate.
Qed.

End BestIcon.

(** ** Keywords and scores *)








Section Keywords.

Variable toLowerCase : string -> string.


End Keywords.

Lemma best_icon_is_first_highest_witness :
  findBestMatchingIcon lowerCase "Recess" = BookOpen
  /\ exists best,
       In best iconMappings
       /\ findBestMatchingIcon lowerCase "Music and Math" = icon best
       /\ 0 < scoreOf (lowerCase "Music and Math") best.
Proof.
  destruct (best_icon_is_first_highest lowerCase "Recess") as [Hnone _].
  destruct (best_icon_is_first_highest lowerCase "Music and Math") as [_ Hsome].
  split.
  - apply Hnone. repeat constructor.
  - destruct Hsome as [before [best [after [Htable [Hicon [Hpositive _]]]]]].
    + apply Exists_cons_hd. vm_compute. lia.
    + exists best. split; [rewrite Htable; apply in_elt | now split].
Defined.


(** ** Generated descriptions *)

Lemma truthy_true_text (text : string) : truthy text = true -> text <> "".
Proof.
  intros Htruthy ->. discriminate.
Qed.

Lemma truthy_text_true (text : string) : text <> "" -> truthy text = true.
Proof.
  destruct text; [congruence | reflexivity].
Qed.

(** The grades the router's handler computes are the thirteen that
    routes.ts lists. *)
Lemma gradesOfRouter_listed : gradesOfRouter = validGrades.
Proof. reflexivity. Qed.

Lemma descriptionCatch_status (error : Thrown) :
  In (replyStatus (descriptionCatch error)) [401; 429; 500].
Proof.
  unfold descriptionCatch.
  destruct (statusIs 401 (statusOf error)); [now left |].
  destruct (statusIs 429 (statusOf error)); [right; now left | right; right; now left].
Qed.

Lemma status_not_forbidden (code : nat) : In code [200; 400; 401; 429; 500] -> code <> 403.
Proof.
  simpl. intros [<- | [<- | [<- | [<- | [<- | []]]]]]; lia.
Qed.

Section DescriptionRoute.

Variable trim : string -> string.
Variable undefinedMessage : string.
Variable createCompletion : ChatRequest -> Outcome ChatCompletion.

Lemma routerGenerateDescription_status (req : DescriptionRequest) :
  In (replyStatus (routerGenerateDescription trim undefinedMessage createCompletion req))
    [200; 400; 401; 429; 500].
Proof.
  assert (Hcatch : forall error,
             In (replyStatus (descriptionCatch error)) [200; 400; 401; 429; 500]).
  { intros error. pose proof (descriptionCatch_status error) as Hin. simpl in *. tauto. }
  unfold routerGenerateDescription.
  destruct (gd_title req) as [title |]; [| simpl; tauto].
  destruct (negb (truthy title)); [simpl; tauto |].
  destruct (gd_grade req) as [grade |]; [| simpl; tauto].
  destruct (negb (oneOf gradesOfRouter grade)); [simpl; tauto |].
  destruct (createCompletion (patternRequest title grade)) as [[| content others] | error];
    [apply Hcatch | simpl; tauto | apply Hcatch].
Qed.

(** X22: what the application answers to [POST /api/generate-description].
    The handler of the wisdom-circuits router answers every such request,
    so the handler that routes.ts registers for the same path afterwards,
    with its teacher check, never runs: the answer does not depend on the
    session or on the configured key, is never 403, and a requester who is
    not a teacher is served like any other.  The answer is 400 without a
    title or with a grade outside K and 1 to 12; otherwise the model is
    asked once, and the answer is 200 with the trimmed content of its
    first choice, which may be empty or missing, or the status 401 or 429
    of the failed call, or 500 for any other failure, an answer without a
    choice included. *)
Theorem description_route_answers (apiKey : bool) (req : DescriptionRequest) :
  exists reply,
    generateDescriptionRoute trim undefinedMessage createCompletion apiKey req = Some reply
    /\ reply = routerGenerateDescription trim undefinedMessage createCompletion req
    /\ replyStatus reply <> 403
    /\ (teacherOnly (gd_session req) = false ->
        appGenerateDescription trim createCompletion apiKey req
        = Refused 403 "Only teachers can generate descriptions" None)
    /\ (forall session key,
          generateDescriptionRoute trim undefinedMessage createCompletion key
            {| gd_session := session; gd_title := gd_title req; gd_grade := gd_grade req |}
          = Some reply)
    /\ (truthyOpt (gd_title req) = false -> reply = Refused 400 "Title is required" None)
    /\ (truthyOpt (gd_title req) = true ->
        (forall grade, gd_grade req = Some grade -> ~ In grade validGrades) ->
        reply = Refused 400 "Invalid grade level" None)
    /\ (forall title grade,
          gd_title req = Some title ->
          truthy title = true ->
          gd_grade req = Some grade ->
          In grade validGrades ->
          (forall content others,
              createCompletion (patternRequest title grade) = Resolved (content :: others) ->
              reply = Sent 200 (option_map trim content))
          /\ (createCompletion (patternRequest title grade) = Resolved [] ->
              reply = Refused 500
                        "Failed to generate description. Please try again or enter a description manually."
                        (Some undefinedMessage))
          /\ (forall message,
                createCompletion (patternRequest title grade)
                = Rejected (ApiError (Some 401) message) ->
                reply = Refused 401
                          "Unable to access AI services. Please check your OpenAI API key."
                          None)
          /\ (forall message,
                createCompletion (patternRequest title grade)
                = Rejected (ApiError (Some 429) message) ->
                reply = Refused 429
                          "AI description generation is temporarily unavailable. Please try again later."
                          None)
          /\ (forall error,
                createCompletion (patternRequest title grade) = Rejected error ->
                statusIs 401 (statusOf error) = false ->
                statusIs 429 (statusOf error) = false ->
                reply = Refused 500
                          "Failed to generate description. Please try again or enter a description manually."
                          (messageOf error))).
Proof.
  exists (routerGenerateDescription trim undefinedMessage createCompletion req).
  split; [reflexivity |]. split; [reflexivity |].
  split; [apply status_not_forbidden, routerGenerateDescription_status |].
  split; [intros Hteacher; unfold appGenerateDescription; now rewrite Hteacher |].
  split; [reflexivity |].
  unfold routerGenerateDescription. split; [| split].
  - destruct (gd_title req) as [title |]; cbn [truthyOpt]; [| reflexivity].
    intros ->. reflexivity.
  - destruct (gd_title req) as [title |]; cbn [truthyOpt]; [| discriminate].
    intros ->. cbn [negb].
    intros Hgrade. destruct (gd_grade req) as [grade |]; [| reflexivity].
    destruct (oneOf gradesOfRouter grade) eqn:Hvalid; [| reflexivity].
    apply oneOf_In in Hvalid. rewrite gradesOfRouter_listed in Hvalid.
    destruct (Hgrade grade eq_refl Hvalid).
  - intros title grade -> -> -> Hvalid. cbn [negb].
    rewrite <- gradesOfRouter_listed in Hvalid. apply oneOf_In in Hvalid. rewrite Hvalid.
    cbn [negb]. repeat split.
    + intros content others Hcall. now rewrite Hcall.
    + intros Hcall. now rewrite Hcall.
    + intros message Hcall. now rewrite Hcall.
    + intros message Hcall. now rewrite Hcall.
    + intros error Hcall Hauth Hrate. rewrite Hcall. unfold descriptionCatch.
      now rewrite Hauth, Hrate.
Qed.

End DescriptionRoute.

Lemma description_route_answers_witness :
  generateDescriptionRoute trimBlanks "Cannot read properties of undefined" silentModel true
    {| gd_session := anonymous; gd_title := Some "Counting"; gd_grade := Some "K" |}
  = Some (Sent 200 None)
  /\ generateDescriptionRoute trimBlanks "Cannot read properties of undefined"
       (describingModel "  Let's learn to count!  ") true
       {| gd_session := anonymous; gd_title := Some "Counting"; gd_grade := Some "K" |}
     = Some (Sent 200 (Some "Let's learn to count!"))
  /\ generateDescriptionRoute trimBlanks "Cannot read properties of undefined" busyModel true
       countingDescription
     = Some (Refused 429
               "AI description generation is temporarily unavailable. Please try again later."
               None)
  /\ appGenerateDescription trimBlanks silentModel true
       {| gd_session := anonymous; gd_title := Some "Counting"; gd_grade := Some "K" |}
     = Refused 403 "Only teachers can generate descriptions" None.
Proof.
  assert (Hgrade : In "K" validGrades) by now left.
  destruct (description_route_answers trimBlanks "Cannot read properties of undefined"
              silentModel true
              {| gd_session := anonymous; gd_title := Some "Counting"; gd_grade := Some "K" |})
    as [silent [Hsilent [_ [_ [Hshadowed [_ [_ [_ Hasked]]]]]]]].
  destruct (description_route_answers trimBlanks "Cannot read properties of undefined"
              (describingModel "  Let's learn to count!  ") true
              {| gd_session := anonymous; gd_title := Some "Counting"; gd_grade := Some "K" |})
    as [described [Hdescribed [_ [_ [_ [_ [_ [_ Hanswered]]]]]]]].
  destruct (description_route_answers trimBlanks "Cannot read properties of undefined"
              busyModel true countingDescription)
    as [busy [Hbusy [_ [_ [_ [_ [_ [_ Hfailed]]]]]]]].
  split; [| split; [| split]].
  - rewrite Hsilent. f_equal.
    exact (proj1 (Hasked "Counting" "K" eq_refl eq_refl eq_refl Hgrade) None [] eq_refl).
  - rewrite Hdescribed. f_equal.
    exact (proj1 (Hanswered "Counting" "K" eq_refl eq_refl eq_refl Hgrade)
             (Some "  Let's learn to count!  ") [] eq_refl).
  - rewrite Hbusy. f_equal.
    exact (proj1 (proj2 (proj2 (proj2 (Hfailed "Counting" "K" eq_refl eq_refl eq_refl
                                         Hgrade))))
             "Rate limit reached" eq_refl).
  - apply Hshadowed. reflexivity.
Defined.

(** ** What the prompt contains *)

Lemma occursIn_here (text : string) : occursIn text text.
Proof.
  exists "", "". simpl. symmetry. clear. induction text; simpl; [reflexivity | now f_equal].
Qed.

Lemma occursIn_left (keyword a b : string) : occursIn keyword a -> occursIn keyword (a ++ b).
Proof.
  intros [before [after ->]]. exists before, (after ++ b).
  now rewrite !append_assoc.
Qed.

Lemma occursIn_right (keyword a b : string) : occursIn keyword b -> occursIn keyword (a ++ b).
Proof.
  intros [before [after ->]]. exists (a ++ before), after.
  now rewrite !append_assoc.
Qed.

Lemma occursIn_trans (a b c : string) : occursIn a b -> occursIn b c -> occursIn a c.
Proof.
  intros [before [after ->]] [before' [after' ->]].
  exists (before' ++ before), (after ++ after'). now rewrite !append_assoc.
Qed.

Lemma occursIn_join (sep piece : string) (arr : list string) :
  In piece arr -> occursIn piece (join sep arr).
Proof.
  unfold join. induction arr as [| x arr IH]; simpl; [tauto |].
  intros [-> | Hin].
  - destruct arr; [apply occursIn_here | apply occursIn_left, occursIn_here].
  - destruct arr as [| y arr]; [contradiction |].
    apply occursIn_right, occursIn_right. now apply IH.
Qed.

Lemma clause_occurs (clause : string -> string) (tags : list string) (tag : string) :
  In tag tags -> clause tag <> "" -> occursIn (clause tag) (describe clause tags).
Proof.
  intros Hin Hclause. apply occursIn_join. unfold clauses.
  apply filter_In. split; [now apply in_map | now apply truthy_text_true].
Qed.

Lemma promptHead_parts (context : CircuitContext) :
  occursIn (wc_name (ctx_circuit context)) (promptHead context)
  /\ occursIn (teachingStyleDesc context) (promptHead context)
  /\ occursIn (homeworkApproach context) (promptHead context)
  /\ occursIn (responseStyle context) (promptHead context).
Proof.
  unfold promptHead. repeat split.
  - apply occursIn_right, occursIn_right, occursIn_right, occursIn_left, occursIn_here.
  - do 7 apply occursIn_right. apply occursIn_left, occursIn_here.
  - do 11 apply occursIn_right. apply occursIn_left, occursIn_here.
  - do 15 apply occursIn_right. apply occursIn_left, occursIn_here.
Qed.

(** X23: the prompt composed for a circuit contains the circuit's name,
    the clause of every schema tag among its three settings, and the
    excerpt of every active item, title included. *)
Theorem prompt_contains_settings_and_excerpts
    (circuitId : nat) (s : Store) (circuit : WisdomCircuit) (prompt : string) :
  getWisdomCircuit circuitId s = Some circuit ->
  composePrompt circuitId s = Some prompt ->
  occursIn (wc_name circuit) prompt
  /\ (forall tag, In tag (wc_teachingStyles circuit) -> In tag teachingStyleSchema ->
        occursIn (teachingStyleClause tag) prompt)
  /\ (forall tag, In tag (wc_homeworkPolicies circuit) -> In tag homeworkPolicySchema ->
        occursIn (homeworkPolicyClause tag) prompt)
  /\ (forall tag, In tag (wc_responseTypes circuit) -> In tag responseTypeSchema ->
        occursIn (responseTypeClause tag) prompt)
  /\ (forall c, In c (getCircuitContent circuitId s) ->
        occursIn (renderExcerpt c) prompt /\ occursIn (cc_title c) prompt).
Proof.
  intros Hcircuit. unfold composePrompt, composeContext. rewrite Hcircuit.
  cbn [option_map]. intros [= <-]. unfold generateSystemPrompt.
  destruct (promptHead_parts (chatContext circuit (processedContent circuitId s)))
    as [Hname [Hstyles [Hpolicies Htypes]]].
  assert (Hknown : forall schema clause tag,
             (forall t, truthy (clause t) = oneOf schema t) ->
             In tag schema -> clause tag <> "").
  { intros schema clause tag Hsame Hin. apply truthy_true_text.
    rewrite Hsame. now apply oneOf_In. }
  split; [now apply occursIn_left |].
  split; [| split; [| split]].
  - intros tag Hin Hschema. apply occursIn_left.
    apply (occursIn_trans (b := teachingStyleDesc
                                  (chatContext circuit (processedContent circuitId s))));
      [| assumption].
    apply clause_occurs; [assumption |].
    now apply (Hknown teachingStyleSchema _ _ teachingStyle_known).
  - intros tag Hin Hschema. apply occursIn_left.
    apply (occursIn_trans (b := homeworkApproach
                                  (chatContext circuit (processedContent circuitId s))));
      [| assumption].
    apply clause_occurs; [assumption |].
    now apply (Hknown homeworkPolicySchema _ _ homeworkPolicy_known).
  - intros tag Hin Hschema. apply occursIn_left.
    apply (occursIn_trans (b := responseStyle
                                  (chatContext circuit (processedContent circuitId s))));
      [| assumption].
    apply clause_occurs; [assumption |].
    now apply (Hknown responseTypeSchema _ _ responseType_known).
  - intros c Hc.
    assert (Hexcerpt : occursIn (renderExcerpt c)
              (promptHead (chatContext circuit (processedContent circuitId s))
               ++ knowledgeBase (chatContext circuit (processedContent circuitId s))
               ++ promptTail (chatContext circuit (processedContent circuitId s)))).
    { apply occursIn_right, occursIn_left. unfold knowledgeBase. cbn [ctx_uploadedContent chatContext].
      apply occursIn_join. unfold processedContent. now apply in_map. }
    split; [exact Hexcerpt |].
    apply (occursIn_trans (b := renderExcerpt c)); [| exact Hexcerpt].
    unfold renderExcerpt. apply occursIn_left, occursIn_here.
Qed.

Lemma prompt_contains_settings_and_excerpts_witness :
  exists prompt,
    composePrompt 1 (replay plainLowerExtname twoRecordings emptyStore) = Some prompt
    /\ occursIn "flexible combination of teaching methods" prompt
    /\ occursIn "Counting" prompt.
Proof.
  eexists. split; [reflexivity |].
  destruct (@prompt_contains_settings_and_excerpts 1
              (replay plainLowerExtname twoRecordings emptyStore)
              (circuitRow 1 "Counting" "K") _ eq_refl eq_refl)
    as [Hname [Hstyles _]].
  split; [| exact Hname].
  apply (Hstyles "hybrid"); [now left | vm_compute; tauto].
Defined.

(** ** Uploads the schema refuses *)


